(** * Telemetry hooks of indesign-mcp: a shallow embedding

    The four hook scripts under [scripts/hooks] are short Python programs
    that the host runs once per event: [task-interceptor.py] (classify and
    start), [telemetry-enhancer.py] (pre-capture), [telemetry-collector.py]
    (post-capture) and [checkpoint-manager.py] (checkpoint).

    Modelling choices, all stated once here:
    - text is a [string], a sequence of bytes; [str.lower], [str.strip],
      [str.isdigit], the regular expression class [\s] and
      [re.IGNORECASE] are modelled as Python has them on ASCII text
      ([PyStr.isascii]); where text beyond ASCII would make a difference
      a statement asks for ASCII text;
    - [int] converts a numeral of at most 4300 digits, the interpreter's
      default limit, and raises [ValueError] on a longer one;
    - a JSON document is a value of [JSON]: integers, finite floats (as
      the rationals they are) and the three values that are not finite,
      which [json.loads] accepts ([NaN], [Infinity], [-Infinity], and
      numerals beyond the range of a float) and [json.dumps] prints as
      such; [json.dumps]/[json.loads] are the identity on these values,
      arithmetic on finite floats is exact, and a file or stream holds a
      sequence of chunks, each a JSON document or a piece of plain text;
    - the process environment, the file system, the two output streams,
      the clock and the UUID source form the [World] that every statement
      transforms; a Python exception is a [Raise] result;
    - a file is named by its directory and its name in it; session ids are
      used as file names as they come; a directory lists files only, in
      an order that no statement relies on;
    - an I/O operation fails as a whole, when the world's [faulty]
      predicate refuses it or when the directory it needs does not exist,
      or takes effect as a whole; what is refused does not change during a
      run; printing to either output stream cannot fail;
    - the clock counts milliseconds and does not move during one
      invocation;
    - a diagnostic line is kept without its pictogram and without the text
      of the exception it reports;
    - [str] of a value that is not a string, and the date formats, belong
      to the interpreter: they are parameters ([py_repr], [isoformat],
      [strftime]). *)

From Stdlib Require Import ZArith String Ascii List Lia Bool DecimalString DecimalPos.
From stdpp Require Import base gmap strings list fin_maps.

Open Scope string_scope.
Open Scope list_scope.

#[global] Arguments String.append : simpl nomatch.

(* ===================================================================== *)
(** * Python [str] operations used by the hooks *)
(* ===================================================================== *)

Module PyStr.

Definition is_upper (c : ascii) : bool :=
  let n := nat_of_ascii c in (65 <=? n)%nat && (n <=? 90)%nat.

Definition lower_char (c : ascii) : ascii :=
  if is_upper c then ascii_of_nat (nat_of_ascii c + 32) else c.

(** [s.lower()] on ASCII text: the letters A to Z change, nothing else. *)
Fixpoint lower (s : string) : string :=
  match s with
  | EmptyString => EmptyString
  | String c s' => String (lower_char c) (lower s')
  end.

(** [s.isascii()] *)
Definition is_ascii_char (c : ascii) : bool := (nat_of_ascii c <? 128)%nat.

Fixpoint isascii (s : string) : bool :=
  match s with
  | EmptyString => true
  | String c s' => is_ascii_char c && isascii s'
  end.

(** [s.startswith(p)] *)
Fixpoint startswith (s p : string) {struct p} : bool :=
  match p, s with
  | EmptyString, _ => true
  | String _ _, EmptyString => false
  | String a p', String b s' => Ascii.eqb a b && startswith s' p'
  end.

(** [k in s] for two strings *)
Fixpoint contains (s k : string) : bool :=
  startswith s k ||
  match s with
  | EmptyString => false
  | String _ s' => contains s' k
  end.

(** [c.isspace()] on ASCII text: TAB, LF, VT, FF, CR, FS, GS, RS, US and
    the blank. *)
Definition is_space (c : ascii) : bool :=
  let n := nat_of_ascii c in
  ((9 <=? n)%nat && (n <=? 13)%nat) || ((28 <=? n)%nat && (n <=? 32)%nat).

Definition newline : ascii := "010"%char.

Fixpoint lstrip (s : string) : string :=
  match s with
  | EmptyString => EmptyString
  | String c s' => if is_space c then lstrip s' else s
  end.

Fixpoint rstrip (s : string) : string :=
  match s with
  | EmptyString => EmptyString
  | String c s' =>
      match rstrip s' with
      | EmptyString => if is_space c then EmptyString else String c EmptyString
      | r => String c r
      end
  end.

(** [s.strip()] *)
Definition strip (s : string) : string := rstrip (lstrip s).

(** [s.isdigit()] on ASCII text: non-empty and decimal digits only. *)
Definition is_digit (c : ascii) : bool :=
  let n := nat_of_ascii c in (48 <=? n)%nat && (n <=? 57)%nat.

Fixpoint all_digits (s : string) : bool :=
  match s with
  | EmptyString => true
  | String c s' => is_digit c && all_digits s'
  end.

Definition isdigit (s : string) : bool :=
  match s with
  | EmptyString => false
  | _ => all_digits s
  end.

(** The number a string of decimal digits denotes. *)
Fixpoint int_acc (acc : N) (s : string) : N :=
  match s with
  | EmptyString => acc
  | String c s' => int_acc (10 * acc + (N.of_nat (nat_of_ascii c) - 48))%N s'
  end.

Definition int_of_digits (s : string) : N := int_acc 0%N s.

(** [s[:n]] *)
Fixpoint take (n : nat) (s : string) : string :=
  match n, s with
  | S n', String c s' => String c (take n' s')
  | _, _ => EmptyString
  end.

(** [str(n)] for an integer *)
Definition of_Z (z : Z) : string := NilEmpty.string_of_int (Z.to_int z).

End PyStr.

(* ===================================================================== *)
(** * The fragment of [re] used by [extract_reference_info]

    The two patterns are a literal label, [\s*] and one group [([^\n]+)].
    The matcher below is the usual backtracking one: quantifiers are
    greedy and give characters back one at a time, literals compare
    case-insensitively ([re.IGNORECASE], on ASCII text), [\s] is
    [PyStr.is_space], and [search] tries the start positions from left
    to right. *)
(* ===================================================================== *)

Module Re.

Inductive charclass :=
| Space          (* \s *)
| NotNewline.    (* [^\n] *)

Inductive item :=
| Lit (c : ascii)             (* one literal character *)
| Star (k : charclass)        (* k* *)
| GroupPlus (k : charclass).  (* (k+), the capturing group *)

Definition in_class (k : charclass) (c : ascii) : bool :=
  match k with
  | Space => PyStr.is_space c
  | NotNewline => negb (Ascii.eqb c PyStr.newline)
  end.

Definition lit_matches (c x : ascii) : bool :=
  Ascii.eqb (PyStr.lower_char x) (PyStr.lower_char c).

(** [k*] followed by the rest of the pattern: the longest run first, then
    one character less at a time. *)
Fixpoint star (k : charclass) (rest : string -> option string) (s : string)
  : option string :=
  match s with
  | String x s' =>
      if in_class k x then
        match star k rest s' with
        | Some g => Some g
        | None => rest s
        end
      else rest s
  | EmptyString => rest s
  end.

(** The group is closed here if the rest of the pattern matches. *)
Definition close_group (rest : string -> option string) (s : string) : option string :=
  match rest s with
  | Some _ => Some EmptyString
  | None => None
  end.

(** Further characters of the group [(k+)], greedy as well. *)
Fixpoint group_more (k : charclass) (rest : string -> option string) (s : string)
  : option string :=
  match s with
  | String x s' =>
      if in_class k x then
        match group_more k rest s' with
        | Some g => Some (String x g)
        | None => close_group rest s
        end
      else close_group rest s
  | EmptyString => close_group rest s
  end.

(** [(k+)] followed by the rest of the pattern; the result is the text
    of the group. *)
Definition group_plus (k : charclass) (rest : string -> option string) (s : string)
  : option string :=
  match s with
  | String x s' =>
      if in_class k x then
        match group_more k rest s' with
        | Some g => Some (String x g)
        | None => None
        end
      else None
  | EmptyString => None
  end.

(** [match_here pat s]: match [pat] at the very start of [s]; the result
    is the text of the group (empty when the pattern has none). *)
Fixpoint match_here (pat : list item) : string -> option string :=
  match pat with
  | [] => fun _ => Some EmptyString
  | Lit c :: pat' =>
      fun s =>
        match s with
        | String x s' => if lit_matches c x then match_here pat' s' else None
        | EmptyString => None
        end
  | Star k :: pat' => star k (match_here pat')
  | GroupPlus k :: pat' => group_plus k (match_here pat')
  end.

(** [re.search(pat, s, re.IGNORECASE).group(1)], or [None]. *)
Fixpoint search (pat : list item) (s : string) : option string :=
  match match_here pat s with
  | Some g => Some g
  | None =>
      match s with
      | EmptyString => None
      | String _ s' => search pat s'
      end
  end.

Fixpoint lits (s : string) : list item :=
  match s with
  | EmptyString => []
  | String c s' => Lit c :: lits s'
  end.

(** [r'<label>\s*([^\n]+)'] *)
Definition labelled (label : string) : list item :=
  lits label ++ [Star Space; GroupPlus NotNewline].

End Re.

(* ===================================================================== *)
(** * JSON values and the Python operations applied to them *)
(* ===================================================================== *)

#[local] Set Warnings "-register-all".

(** The floats that are not finite. *)
Inductive nonfinite :=
| NaN
| PosInf
| NegInf.

(** What [json.loads] builds and [json.dumps] prints.  An object keeps its
    keys in insertion order, as a Python [dict] does. *)
Inductive JSON :=
| JNull
| JBool (b : bool)
| JNum (z : Z)
| JFloat (num : Z) (den : positive)     (* the finite float num/den *)
| JNonFinite (x : nonfinite)            (* nan, inf, -inf *)
| JStr (s : string)
| JArr (items : list JSON)
| JObj (fields : list (string * JSON)).

Inductive Exn :=
| AttributeError
| TypeError
| ValueError      (* json.JSONDecodeError is one *)
| OSError.

Inductive Res (A : Type) :=
| Ok (a : A)
| Raise (e : Exn).
Arguments Ok {A} a.
Arguments Raise {A} e.

Module Py.

Definition is_object (j : JSON) : bool :=
  match j with JObj _ => true | _ => false end.

(** [bool(j)] *)
Definition truthy (j : JSON) : bool :=
  match j with
  | JNull => false
  | JBool b => b
  | JNum z => negb (z =? 0)%Z
  | JFloat n _ => negb (n =? 0)%Z
  | JNonFinite _ => true
  | JStr s => negb (String.eqb s EmptyString)
  | JArr l => match l with [] => false | _ => true end
  | JObj l => match l with [] => false | _ => true end
  end.

Fixpoint assoc (k : string) (kvs : list (string * JSON)) : option JSON :=
  match kvs with
  | [] => None
  | (k', v) :: rest => if String.eqb k k' then Some v else assoc k rest
  end.

(** [d.get(k, default)]; only a dict has [.get]. *)
Definition get (d : JSON) (k : string) (default : JSON) : Res JSON :=
  match d with
  | JObj kvs => Ok (match assoc k kvs with Some v => v | None => default end)
  | _ => Raise AttributeError
  end.

(** [d[k] = v] on the fields of a dict *)
Fixpoint setitem (kvs : list (string * JSON)) (k : string) (v : JSON)
  : list (string * JSON) :=
  match kvs with
  | [] => [(k, v)]
  | (k', v') :: rest =>
      if String.eqb k k' then (k, v) :: rest else (k', v') :: setitem rest k v
  end.

(** [len(j)] *)
Definition len (j : JSON) : Res nat :=
  match j with
  | JObj kvs => Ok (length kvs)
  | JArr l => Ok (length l)
  | JStr s => Ok (String.length s)
  | _ => Raise TypeError
  end.

Definition is_str (k : string) (j : JSON) : bool :=
  match j with JStr s => String.eqb s k | _ => false end.

(** [k in j] for a string [k] *)
Definition contains (j : JSON) (k : string) : Res bool :=
  match j with
  | JObj kvs => Ok (match assoc k kvs with Some _ => true | None => false end)
  | JArr l => Ok (existsb (is_str k) l)
  | JStr s => Ok (PyStr.contains s k)
  | _ => Raise TypeError
  end.

(** [any(k in j for k in keys)] *)
Fixpoint any_in (j : JSON) (keys : list string) : Res bool :=
  match keys with
  | [] => Ok false
  | k :: rest =>
      match contains j k with
      | Ok true => Ok true
      | Ok false => any_in j rest
      | Raise e => Raise e
      end
  end.

(** [j.startswith(p)]; only a str has it. *)
Definition startswith (j : JSON) (p : string) : Res bool :=
  match j with
  | JStr s => Ok (PyStr.startswith s p)
  | _ => Raise AttributeError
  end.

(** [j != k] for a string literal [k] *)
Definition ne_str (j : JSON) (k : string) : bool := negb (is_str k j).

(** [j.lower()] *)
Definition lower (j : JSON) : Res string :=
  match j with
  | JStr s => Ok (PyStr.lower s)
  | _ => Raise AttributeError
  end.

Definition of_option_str (o : option string) : JSON :=
  match o with Some s => JStr s | None => JNull end.

(** [sys.get_int_max_str_digits()] *)
Definition int_max_str_digits : Z := 4300.

(** [int(s)] for a string [s] of decimal digits: a numeral longer than
    the limit is refused. *)
Definition int_of_digits (s : string) : Res N :=
  if (Z.of_nat (String.length s) <=? int_max_str_digits)%Z
  then Ok (PyStr.int_of_digits s)
  else Raise ValueError.

End Py.

(* ===================================================================== *)
(** * The world a hook runs in *)
(* ===================================================================== *)

(** A file path is a directory and a name in it ([os.path.join]). *)
Definition path : Type := string * string.

Definition join (d n : string) : string := d +:+ "/" +:+ n.

Inductive Chunk :=
| CJson (j : JSON)      (* one [json.dump]/[json.dumps] document *)
| CText (s : string).   (* other text *)

Record File := mkFile {
  chunks : list Chunk;
  mtime : Z               (* milliseconds since the epoch *)
}.

Inductive IOop :=
| OpMakedirs (d : string)
| OpAppend (p : path)
| OpWrite (p : path)
| OpRead (p : path)
| OpListdir (d : string)
| OpCopy (src dst : path)
| OpRemove (p : path)
| OpGetmtime (p : path).

Record World := mkWorld {
  environ : gmap string string;     (* os.environ *)
  dirs : gset string;               (* existing directories *)
  files : gmap path File;           (* existing files *)
  faulty : IOop -> bool;            (* operations the system refuses *)
  now_ms : Z;                       (* the clock *)
  next_uuid : string;               (* what str(uuid.uuid4()) gives *)
  stdin : option JSON;              (* unread input that parses, if any *)
  stdout : list JSON;               (* documents printed so far *)
  stderr : list string              (* diagnostic lines printed so far *)
}.

Definition with_environ (f : gmap string string -> gmap string string) (w : World) : World :=
  mkWorld (f (environ w)) (dirs w) (files w) (faulty w) (now_ms w) (next_uuid w)
          (stdin w) (stdout w) (stderr w).

Definition with_dirs (f : gset string -> gset string) (w : World) : World :=
  mkWorld (environ w) (f (dirs w)) (files w) (faulty w) (now_ms w) (next_uuid w)
          (stdin w) (stdout w) (stderr w).

Definition with_files (f : gmap path File -> gmap path File) (w : World) : World :=
  mkWorld (environ w) (dirs w) (f (files w)) (faulty w) (now_ms w) (next_uuid w)
          (stdin w) (stdout w) (stderr w).

Definition with_stdin (i : option JSON) (w : World) : World :=
  mkWorld (environ w) (dirs w) (files w) (faulty w) (now_ms w) (next_uuid w)
          i (stdout w) (stderr w).

Definition with_stdout (f : list JSON -> list JSON) (w : World) : World :=
  mkWorld (environ w) (dirs w) (files w) (faulty w) (now_ms w) (next_uuid w)
          (stdin w) (f (stdout w)) (stderr w).

Definition with_stderr (f : list string -> list string) (w : World) : World :=
  mkWorld (environ w) (dirs w) (files w) (faulty w) (now_ms w) (next_uuid w)
          (stdin w) (stdout w) (f (stderr w)).

Definition with_now (t : Z) (w : World) : World :=
  mkWorld (environ w) (dirs w) (files w) (faulty w) t (next_uuid w)
          (stdin w) (stdout w) (stderr w).

(** ** Statements: state passing with exceptions *)

Definition M (A : Type) : Type := World -> Res A * World.

Definition ret {A} (a : A) : M A := fun w => (Ok a, w).

Definition raise {A} (e : Exn) : M A := fun w => (Raise e, w).

Definition bind {A B} (c : M A) (k : A -> M B) : M B :=
  fun w =>
    match c w with
    | (Ok a, w') => k a w'
    | (Raise e, w') => (Raise e, w')
    end.

(** [try: c  except: h] *)
Definition try_except {A} (c : M A) (h : Exn -> M A) : M A :=
  fun w =>
    match c w with
    | (Ok a, w') => (Ok a, w')
    | (Raise e, w') => h e w'
    end.

Definition lift {A} (r : Res A) : M A := fun w => (r, w).

Declare Scope py_scope.
Delimit Scope py_scope with py.
Notation "'let*' x ':=' c 'in' k" := (bind c (fun x => k))
  (at level 10, x name, c at level 100, k at level 200) : py_scope.
Notation "c ';;' k" := (bind c (fun _ => k))
  (at level 100, k at level 200, right associativity) : py_scope.

(** [for x in l: body x] *)
Fixpoint for_each {A} (l : list A) (body : A -> M unit) : M unit :=
  match l with
  | [] => ret tt
  | x :: rest => bind (body x) (fun _ => for_each rest body)
  end.

(** ** The operating system *)

Module Os.

Definition has_dir (w : World) (d : string) : bool := bool_decide (d ∈ dirs w).

Definition lookup_file (w : World) (p : path) : option File :=
  if has_dir w p.1 then files w !! p else None.

(** [os.environ.get(k)] *)
Definition environ_get (k : string) : M (option string) :=
  fun w => (Ok (environ w !! k), w).

(** [os.environ.get(k, default)] *)
Definition environ_get_default (k default : string) : M string :=
  fun w => (Ok (match environ w !! k with Some v => v | None => default end), w).

(** [os.environ[k] = v] *)
Definition environ_set (k v : string) : M unit :=
  fun w => (Ok tt, with_environ (insert k v) w).

(** [if k in os.environ: del os.environ[k]] *)
Definition environ_discard (k : string) : M unit :=
  fun w => (Ok tt, with_environ (delete k) w).

(** [os.makedirs(d, exist_ok=True)] *)
Definition makedirs (d : string) : M unit :=
  fun w =>
    if has_dir w d then (Ok tt, w)
    else if faulty w (OpMakedirs d) then (Raise OSError, w)
    else (Ok tt, with_dirs (union {[d]}) w).

(** [os.path.exists(d)] for a directory *)
Definition dir_exists (d : string) : M bool :=
  fun w => (Ok (has_dir w d), w).

(** [os.path.exists(p)] for a file *)
Definition file_exists (p : path) : M bool :=
  fun w => (Ok (match lookup_file w p with Some _ => true | None => false end), w).

Definition old_chunks (w : World) (p : path) : list Chunk :=
  match files w !! p with Some f => chunks f | None => [] end.

(** [with open(p, 'a') as f: f.write(c)] *)
Definition append_file (p : path) (c : Chunk) : M unit :=
  fun w =>
    if negb (has_dir w p.1) || faulty w (OpAppend p) then (Raise OSError, w)
    else (Ok tt, with_files (insert p (mkFile (old_chunks w p ++ [c]) (now_ms w))) w).

(** [with open(p, 'w') as f: f.write(c)] *)
Definition write_file (p : path) (c : Chunk) : M unit :=
  fun w =>
    if negb (has_dir w p.1) || faulty w (OpWrite p) then (Raise OSError, w)
    else (Ok tt, with_files (insert p (mkFile [c] (now_ms w))) w).

(** [with open(p, 'r') as f: json.load(f)] *)
Definition load_json (p : path) : M JSON :=
  fun w =>
    match lookup_file w p with
    | None => (Raise OSError, w)
    | Some f =>
        if faulty w (OpRead p) then (Raise OSError, w)
        else match chunks f with
             | [CJson j] => (Ok j, w)
             | _ => (Raise ValueError, w)
             end
    end.

(** The names of the files in [d], each once; the order is the map's and
    stands for whatever order the system lists them in. *)
Definition names_in (d : string) (fs : gmap path File) : list string :=
  omap (fun kv : path * File => if String.eqb (kv.1).1 d then Some (kv.1).2 else None)
       (map_to_list fs).

(** [os.listdir(d)] *)
Definition listdir (d : string) : M (list string) :=
  fun w =>
    if negb (has_dir w d) || faulty w (OpListdir d) then (Raise OSError, w)
    else (Ok (names_in d (files w)), w).

(** [shutil.copy2(src, dst)]: contents and modification time. *)
Definition copy2 (src dst : path) : M unit :=
  fun w =>
    match lookup_file w src with
    | None => (Raise OSError, w)
    | Some f =>
        if negb (has_dir w dst.1) || faulty w (OpCopy src dst) then (Raise OSError, w)
        else (Ok tt, with_files (insert dst f) w)
    end.

(** [os.remove(p)] *)
Definition remove (p : path) : M unit :=
  fun w =>
    match lookup_file w p with
    | None => (Raise OSError, w)
    | Some _ =>
        if faulty w (OpRemove p) then (Raise OSError, w)
        else (Ok tt, with_files (delete p) w)
    end.

(** [os.path.getmtime(p)], in milliseconds *)
Definition getmtime (p : path) : M Z :=
  fun w =>
    match lookup_file w p with
    | None => (Raise OSError, w)
    | Some f =>
        if faulty w (OpGetmtime p) then (Raise OSError, w) else (Ok (mtime f), w)
    end.

(** [time.time()], in milliseconds *)
Definition time_ms : M Z := fun w => (Ok (now_ms w), w).

(** [uuid.uuid4()] as text *)
Definition uuid4 : M string := fun w => (Ok (next_uuid w), w).

(** [json.loads(sys.stdin.read())]: the stream is at its end afterwards. *)
Definition read_stdin_json : M JSON :=
  fun w =>
    match stdin w with
    | Some j => (Ok j, with_stdin None w)
    | None => (Raise ValueError, w)
    end.

(** [print(json.dumps(j))] *)
Definition print_json (j : JSON) : M unit :=
  fun w => (Ok tt, with_stdout (fun out => out ++ [j]) w).

(** [if os.environ.get(flag): print(msg, file=sys.stderr)] *)
Definition debug (flag msg : string) : M unit :=
  fun w =>
    match environ w !! flag with
    | Some (String _ _) => (Ok tt, with_stderr (fun err => err ++ [msg]) w)
    | _ => (Ok tt, w)
    end.

End Os.

Open Scope py_scope.

(** [str(j)]: a string is itself; the text of any other value is the
    interpreter's business, [py_repr]. *)
Definition py_str (py_repr : JSON -> string) (j : JSON) : string :=
  match j with
  | JStr s => s
  | _ => py_repr j
  end.

Definition telemetry_dir : string := "~/.claude/telemetry".
Definition archive_root : string := "~/.claude/evolution-archive".
Definition tmp_dir : string := "/tmp".

(** [/tmp/evolution-<session_id>.json] *)
Definition metadata_file (session_id : string) : path :=
  (tmp_dir, "evolution-" +:+ session_id +:+ ".json").

(* ===================================================================== *)
(** * Session context: [get_session_info]

    The enhancer, the collector and the checkpoint manager each carry the
    same copy of this function. *)
(* ===================================================================== *)

Record session_info := mkSessionInfo {
  session_id : option string;
  agent_id : string;
  generation : N
}.

(** [a or b] on two results of [os.environ.get] *)
Definition env_or (a b : option string) : option string :=
  match a with
  | Some (String _ _) => a
  | _ => b
  end.

Definition env_truthy (a : option string) : bool :=
  match a with
  | Some (String _ _) => true
  | _ => false
  end.

Definition get_session_info : M session_info :=
  let* primary := Os.environ_get "EVOLUTION_SESSION_ID" in
  let* fallback := Os.environ_get "TELEMETRY_SESSION_ID" in
  let* agent_id := Os.environ_get_default "TELEMETRY_AGENT_ID" "unknown" in
  let* generation := Os.environ_get_default "TELEMETRY_GENERATION" "0" in
  let* generation :=
    if PyStr.isdigit generation then lift (Py.int_of_digits generation) else ret 0%N in
  ret (mkSessionInfo (env_or primary fallback) agent_id generation).

(* ===================================================================== *)
(** * telemetry-enhancer.py (pre-capture) *)
(* ===================================================================== *)

Module TelemetryEnhancer.
Section Script.
Variable py_repr : JSON -> string.

Definition enhance_telemetry_capture (tool_call : JSON) : M JSON :=
  let* session_info := get_session_info in
  let* now := Os.time_ms in
  let* tool := lift (Py.get tool_call "name" (JStr "unknown")) in
  let* parameters := lift (Py.get tool_call "arguments" (JObj [])) in
  ret (JObj [ ("timestamp", JNum now);
              ("tool", tool);
              ("parameters", parameters);
              ("session_id", Py.of_option_str (session_id session_info));
              ("agent_id", JStr (agent_id session_info));
              ("generation", JNum (Z.of_N (generation session_info)));
              ("capture_source", JStr "hook_preuse") ]).

Definition write_telemetry_record (enhanced_call : JSON) : M unit :=
  let* session_id := lift (Py.get enhanced_call "session_id" JNull) in
  if negb (Py.truthy session_id) then ret tt
  else
    Os.makedirs telemetry_dir ;;
    let telemetry_file := (telemetry_dir, py_str py_repr session_id +:+ ".jsonl") in
    try_except
      (Os.append_file telemetry_file (CJson enhanced_call) ;;
       let* tool := lift (Py.get enhanced_call "tool" JNull) in
       Os.debug "DEBUG_TELEMETRY" ("Telemetry captured: " +:+ py_str py_repr tool))
      (fun _ => Os.debug "DEBUG_TELEMETRY" "Telemetry write error").

Definition analyze_tool_usage (tool_name parameters : JSON) : Res JSON :=
  match Py.len parameters with
  | Raise e => Raise e
  | Ok parameter_count =>
  match Py.any_in parameters ["x"; "y"; "width"; "height"] with
  | Raise e => Raise e
  | Ok has_coordinates =>
  match Py.any_in parameters ["text"; "content"; "description"] with
  | Raise e => Raise e
  | Ok has_text_content =>
  match Py.any_in parameters ["style"; "font"; "alignment"] with
  | Raise e => Raise e
  | Ok has_style_info =>
      Ok (JObj [ ("parameter_count", JNum (Z.of_nat parameter_count));
                 ("has_coordinates", JBool has_coordinates);
                 ("has_text_content", JBool has_text_content);
                 ("has_style_info", JBool has_style_info);
                 ("complexity_score",
                   JFloat (Z.of_nat (Nat.min (String.length (py_str py_repr parameters)) 1000))
                          100) ])
  end end end end.

(** The last resort of [main]: [{"tool": {"name": "unknown", "arguments": {}}}] *)
Definition minimal_response : JSON :=
  JObj [("tool", JObj [("name", JStr "unknown"); ("arguments", JObj [])])].

Definition main_body : M unit :=
  let* input_data := Os.read_stdin_json in
  let* tool_info := lift (Py.get input_data "tool" (JObj [])) in
  let* tool_name := lift (Py.get tool_info "name" (JStr "")) in
  let* is_mcp := lift (Py.startswith tool_name "mcp__indesign__") in
  if negb is_mcp then Os.print_json input_data
  else
    let* evolution_session_id := Os.environ_get "EVOLUTION_SESSION_ID" in
    if negb (env_truthy evolution_session_id) then Os.print_json input_data
    else
      let* enhanced_call := enhance_telemetry_capture tool_info in
      let* arguments := lift (Py.get tool_info "arguments" (JObj [])) in
      let* usage_analysis := lift (analyze_tool_usage tool_name arguments) in
      let enhanced_call :=
        match enhanced_call with
        | JObj kvs => JObj (Py.setitem kvs "usage_analysis" usage_analysis)
        | other => other
        end in
      write_telemetry_record enhanced_call ;;
      Os.print_json input_data.

Definition main : M unit :=
  try_except main_body
    (fun _ =>
       Os.debug "DEBUG_TELEMETRY" "Telemetry enhancer error" ;;
       try_except
         (let* input_data := Os.read_stdin_json in Os.print_json input_data)
         (fun _ => Os.print_json minimal_response)).

End Script.
End TelemetryEnhancer.

(* ===================================================================== *)
(** * telemetry-collector.py (post-capture) *)
(* ===================================================================== *)

Module TelemetryCollector.
Section Script.
Variable py_repr : JSON -> string.
Variable isoformat : Z -> string.     (* datetime.now().isoformat() at a clock value *)

(** The [if]/[elif] chain on the lower-cased error message. *)
Definition error_type_of (error_msg : string) : string :=
  if PyStr.contains error_msg "timeout" then "timeout"
  else if PyStr.contains error_msg "permission" || PyStr.contains error_msg "access"
       then "permission"
  else if PyStr.contains error_msg "not found" || PyStr.contains error_msg "missing"
       then "not_found"
  else if PyStr.contains error_msg "invalid" || PyStr.contains error_msg "parameter"
       then "parameter"
  else "unknown".

Definition analyze_tool_result (tool_name result : JSON) : Res JSON :=
  match Py.get result "error" JNull with
  | Raise e => Raise e
  | Ok error =>
  match Py.get result "content" JNull with
  | Raise e => Raise e
  | Ok content =>
      let analysis :=
        [ ("success", JBool (negb (Py.truthy error)));
          ("has_content", JBool (Py.truthy content));
          ("result_size",
            JNum (if Py.truthy result
                  then Z.of_nat (String.length (py_str py_repr result)) else 0%Z));
          ("error_type", JNull) ] in
      if Py.truthy error then
        let error_msg := PyStr.lower (py_str py_repr error) in
        Ok (JObj (Py.setitem analysis "error_type" (JStr (error_type_of error_msg))))
      else Ok (JObj analysis)
  end end.

Definition complete_telemetry_record (tool_call result execution_time : JSON) : M JSON :=
  let* session_info := get_session_info in
  let* now := Os.time_ms in
  let* tool := lift (Py.get tool_call "name" (JStr "unknown")) in
  let* parameters := lift (Py.get tool_call "arguments" (JObj [])) in
  let* error := lift (Py.get result "error" JNull) in
  let completed_record :=
    [ ("timestamp", JNum now);
      ("tool", tool);
      ("parameters", parameters);
      ("result", JStr (if negb (Py.truthy error) then "success" else "error"));
      ("execution_time", execution_time);
      ("session_id", Py.of_option_str (session_id session_info));
      ("agent_id", JStr (agent_id session_info));
      ("generation", JNum (Z.of_N (generation session_info)));
      ("capture_source", JStr "hook_postuse") ] in
  let completed_record :=
    if Py.truthy error
    then Py.setitem completed_record "error_message" (JStr (py_str py_repr error))
    else completed_record in
  let* tool_name := lift (Py.get tool_call "name" (JStr "")) in
  let* result_analysis := lift (analyze_tool_result tool_name result) in
  ret (JObj (Py.setitem completed_record "result_analysis" result_analysis)).

Definition write_telemetry_record (completed_record : JSON) : M unit :=
  let* session_id := lift (Py.get completed_record "session_id" JNull) in
  if negb (Py.truthy session_id) then ret tt
  else
    Os.makedirs telemetry_dir ;;
    let telemetry_file := (telemetry_dir, py_str py_repr session_id +:+ ".jsonl") in
    try_except
      (Os.append_file telemetry_file (CJson completed_record) ;;
       let* status := lift (Py.get completed_record "result" JNull) in
       let* timing := lift (Py.get completed_record "execution_time" JNull) in
       let* tool := lift (Py.get completed_record "tool" JNull) in
       Os.debug "DEBUG_TELEMETRY"
         ("Telemetry completed: " +:+ py_str py_repr tool +:+ " (" +:+
          py_str py_repr status +:+ ", " +:+ py_str py_repr timing +:+ "ms)"))
      (fun _ => Os.debug "DEBUG_TELEMETRY" "Telemetry completion error").

(** [x + 1]; on a finite float the sum is exact, where Python rounds. *)
Definition add_one (x : JSON) : Res JSON :=
  match x with
  | JNum z => Ok (JNum (z + 1))
  | JBool b => Ok (JNum ((if b then 1 else 0) + 1))
  | JFloat n d => Ok (JFloat (n + Z.pos d) d)
  | JNonFinite x => Ok (JNonFinite x)
  | _ => Raise TypeError
  end.

Definition stats_file (session_id : string) : path :=
  (telemetry_dir, session_id +:+ "-stats.json").

Definition update_session_statistics (session_id : string) : M unit :=
  try_except
    (let* present := Os.file_exists (stats_file session_id) in
     let* stats := if present then Os.load_json (stats_file session_id) else ret (JObj []) in
     let* total := lift (Py.get stats "total_tools" (JNum 0)) in
     let* total := lift (add_one total) in
     let* now := Os.time_ms in
     match stats with
     | JObj kvs =>
         let kvs := Py.setitem kvs "total_tools" total in
         let kvs := Py.setitem kvs "last_update" (JStr (isoformat now)) in
         Os.write_file (stats_file session_id) (CJson (JObj kvs))
     | _ => raise TypeError
     end)
    (fun _ => Os.debug "DEBUG_TELEMETRY" "Stats update error").

(** The last resort of [main]: [{"result": {}, "tool": {"name": "unknown"}}] *)
Definition minimal_response : JSON :=
  JObj [("result", JObj []); ("tool", JObj [("name", JStr "unknown")])].

Definition main_body : M unit :=
  let* input_data := Os.read_stdin_json in
  let* tool_info := lift (Py.get input_data "tool" (JObj [])) in
  let* tool_name := lift (Py.get tool_info "name" (JStr "")) in
  let* result := lift (Py.get input_data "result" (JObj [])) in
  let* timing := lift (Py.get input_data "timing" (JObj [])) in
  let* is_mcp := lift (Py.startswith tool_name "mcp__indesign__") in
  if negb is_mcp then Os.print_json input_data
  else
    let* evolution_session_id := Os.environ_get "EVOLUTION_SESSION_ID" in
    if negb (env_truthy evolution_session_id) then Os.print_json input_data
    else
      let* execution_time := lift (Py.get timing "total_ms" (JNum 0)) in
      let* completed_record := complete_telemetry_record tool_info result execution_time in
      write_telemetry_record completed_record ;;
      let* session_info := get_session_info in
      (match session_id session_info with
       | Some (String c s) => update_session_statistics (String c s)
       | _ => ret tt
       end) ;;
      Os.print_json input_data.

Definition main : M unit :=
  try_except main_body
    (fun _ =>
       Os.debug "DEBUG_TELEMETRY" "Telemetry collector error" ;;
       try_except
         (let* input_data := Os.read_stdin_json in Os.print_json input_data)
         (fun _ => Os.print_json minimal_response)).

End Script.
End TelemetryCollector.

(* ===================================================================== *)
(** * task-interceptor.py (classify and start) *)
(* ===================================================================== *)

Module TaskInterceptor.

Definition evolution_keywords : list string :=
  [ "recreate this";
    "book page layout";
    "indesign";
    "mcp tools";
    "telemetry_end_session";
    "set_environment_variable";
    "reference image" ].

(** [sum(1 for keyword in evolution_keywords if keyword in prompt_lower)] *)
Definition count_matches (prompt_lower : string) : nat :=
  length (List.filter (fun keyword => PyStr.contains prompt_lower keyword)
                      evolution_keywords).

Definition is_evolution_prompt (prompt_text : string) : bool :=
  let prompt_lower := PyStr.lower prompt_text in
  let matches := count_matches prompt_lower in
  (3 <=? matches)%nat.

Definition ref_patterns : list (list Re.item) :=
  [ Re.labelled "reference image:";
    Re.labelled "reference:" ].

(** [for pattern in ref_patterns: ... return match.group(1).strip()] *)
Fixpoint first_match (patterns : list (list Re.item)) (prompt_text : string)
  : option string :=
  match patterns with
  | [] => None
  | pattern :: rest =>
      match Re.search pattern prompt_text with
      | Some group1 => Some (PyStr.strip group1)
      | None => first_match rest prompt_text
      end
  end.

Definition extract_reference_info (prompt_text : string) : option string :=
  first_match ref_patterns prompt_text.

Definition setup_evolution_session : M string :=
  let* now := Os.time_ms in
  let* uuid := Os.uuid4 in
  let session_id :=
    PyStr.of_Z (Z.quot now 1000) +:+ "-evolution-" +:+ PyStr.take 8 uuid in
  Os.environ_set "EVOLUTION_SESSION_ID" session_id ;;
  Os.environ_set "TELEMETRY_ENABLED" "true" ;;
  Os.environ_set "TELEMETRY_SESSION_ID" session_id ;;
  ret session_id.

(** The last resort of [main]: [{"tool": {"name": "Task", "arguments": {}}}] *)
Definition minimal_response : JSON :=
  JObj [("tool", JObj [("name", JStr "Task"); ("arguments", JObj [])])].

Section Script.
Variable isoformat : Z -> string.

Definition start_session (prompt_text : string) : M unit :=
  let* session_id := setup_evolution_session in
  let reference := extract_reference_info prompt_text in
  Os.debug "DEBUG_EVOLUTION" ("Evolution session started: " +:+ session_id) ;;
  (match reference with
   | Some (String c r) => Os.debug "DEBUG_EVOLUTION" ("Reference: " +:+ String c r)
   | _ => ret tt
   end) ;;
  let* now := Os.time_ms in
  let evolution_metadata :=
    JObj [ ("session_id", JStr session_id);
           ("reference", Py.of_option_str reference);
           ("start_time", JStr (isoformat now));
           ("intercepted", JBool true) ] in
  Os.write_file (metadata_file session_id) (CJson evolution_metadata).

Definition main_body : M unit :=
  let* input_data := Os.read_stdin_json in
  let* tool := lift (Py.get input_data "tool" (JObj [])) in
  let* tool_name := lift (Py.get tool "name" (JStr "")) in
  let* tool := lift (Py.get input_data "tool" (JObj [])) in
  let* parameters := lift (Py.get tool "arguments" (JObj [])) in
  if Py.ne_str tool_name "Task" then Os.print_json input_data
  else
    let* prompt_text := lift (Py.get parameters "prompt" (JStr "")) in
    (match prompt_text with
     | JStr prompt_text =>
         if is_evolution_prompt prompt_text then start_session prompt_text else ret tt
     | _ => raise AttributeError      (* no [.lower()] *)
     end) ;;
    Os.print_json input_data.

Definition main : M unit :=
  try_except main_body
    (fun _ =>
       Os.debug "DEBUG_EVOLUTION" "Task interceptor error" ;;
       try_except
         (let* input_data := Os.read_stdin_json in Os.print_json input_data)
         (fun _ => Os.print_json minimal_response)).

End Script.
End TaskInterceptor.

(* ===================================================================== *)
(** * checkpoint-manager.py (checkpoint) *)
(* ===================================================================== *)

Module CheckpointManager.

(** [fnmatch(name, "evolution-*.json")] *)
Definition is_scratch_name (name : string) : bool :=
  PyStr.startswith name "evolution-" &&
  (15 <=? String.length name)%nat &&
  String.eqb (String.substring (String.length name - 5) 5 name) ".json".

(** [glob.glob("/tmp/evolution-*.json")]; an unreadable directory gives
    the empty list. *)
Definition glob_scratch : M (list path) :=
  fun w =>
    (Ok (if Os.has_dir w tmp_dir
         then map (pair tmp_dir)
                  (List.filter is_scratch_name (Os.names_in tmp_dir (files w)))
         else []), w).

Definition one_hour_ms : Z := 3600 * 1000.

Definition nl : string := String PyStr.newline EmptyString.

Fixpoint unlines (ls : list string) : string :=
  match ls with
  | [] => EmptyString
  | l :: rest => l +:+ nl +:+ unlines rest
  end.

Section Script.
Variable isoformat : Z -> string.      (* datetime.now().isoformat() *)
Variable strftime : Z -> string.       (* datetime.now().strftime('%Y%m%d_%H%M%S') *)

Definition finalize_telemetry_session (session_id : option string) : M unit :=
  match session_id with
  | Some (String c s) =>
      let session_id := String c s in
      let telemetry_file := (telemetry_dir, session_id +:+ ".jsonl") in
      let* now := Os.time_ms in
      let completion_record :=
        JObj [ ("timestamp", JNum now);
               ("session_id", JStr session_id);
               ("event", JStr "session_complete");
               ("completion_time", JStr (isoformat now));
               ("capture_source", JStr "hook_stop") ] in
      try_except
        (Os.append_file telemetry_file (CJson completion_record) ;;
         Os.debug "DEBUG_TELEMETRY" ("Session marked complete: " +:+ session_id))
        (fun _ => Os.debug "DEBUG_TELEMETRY" "Session completion error")
  | _ => ret tt
  end.

(** The loop over [os.listdir(telemetry_dir)], threading [archived_files]. *)
Fixpoint copy_session_files (session_id session_archive : string)
    (names archived_files : list string) : M (list string) :=
  match names with
  | [] => ret archived_files
  | filename :: rest =>
      if PyStr.contains filename session_id then
        Os.copy2 (telemetry_dir, filename) (session_archive, filename) ;;
        copy_session_files session_id session_archive rest (archived_files ++ [filename])
      else copy_session_files session_id session_archive rest archived_files
  end.

Definition archive_evolution_data (session_id : option string) : M (option string) :=
  match session_id with
  | Some (String c s) =>
      let session_id := String c s in
      Os.makedirs archive_root ;;
      let* now := Os.time_ms in
      let session_archive := join archive_root (strftime now +:+ "_" +:+ session_id) in
      Os.makedirs session_archive ;;
      try_except
        (let* have_telemetry := Os.dir_exists telemetry_dir in
         let* archived_files :=
           if have_telemetry then
             let* names := Os.listdir telemetry_dir in
             copy_session_files session_id session_archive names []
           else ret [] in
         let* have_metadata := Os.file_exists (metadata_file session_id) in
         let* archived_files :=
           if have_metadata then
             Os.copy2 (metadata_file session_id) (session_archive, "session-metadata.json") ;;
             Os.remove (metadata_file session_id) ;;
             ret (archived_files ++ ["session-metadata.json"])
           else ret archived_files in
         let* now := Os.time_ms in
         let archive_summary :=
           JObj [ ("session_id", JStr session_id);
                  ("archive_time", JStr (isoformat now));
                  ("archive_path", JStr session_archive);
                  ("archived_files", JArr (map JStr archived_files));
                  ("total_files", JNum (Z.of_nat (length archived_files))) ] in
         Os.write_file (session_archive, "archive-summary.json") (CJson archive_summary) ;;
         Os.debug "DEBUG_EVOLUTION" ("Session archived: " +:+ session_archive) ;;
         Os.debug "DEBUG_EVOLUTION"
           ("Files archived: " +:+ PyStr.of_Z (Z.of_nat (length archived_files))) ;;
         ret (Some session_archive))
        (fun _ => Os.debug "DEBUG_EVOLUTION" "Archive error" ;; ret None)
  | _ => ret None
  end.

Definition cleanup_temporary_files : M unit :=
  try_except
    (let* temp_files := glob_scratch in
     for_each temp_files
       (fun temp_file =>
          try_except
            (let* now := Os.time_ms in
             let* modified := Os.getmtime temp_file in
             if (one_hour_ms <? now - modified)%Z then
               Os.remove temp_file ;;
               Os.debug "DEBUG_EVOLUTION"
                 ("Cleaned temp file: " +:+ join temp_file.1 temp_file.2)
             else ret tt)
            (fun _ => ret tt)))
    (fun _ => Os.debug "DEBUG_EVOLUTION" "Cleanup error").

Definition resume_instructions (session_id now archive_path : string) : string :=
  unlines
    [ "# Evolution Session Resume Instructions";
      "";
      "## Session Information";
      "- **Session ID**: " +:+ session_id;
      "- **Archive Time**: " +:+ now;
      "- **Archive Path**: " +:+ archive_path;
      "";
      "## To Resume Evolution Testing";
      "";
      "1. **Check archived telemetry**:";
      "   ```bash";
      "   ls " +:+ archive_path;
      "   cat " +:+ archive_path +:+ "/" +:+ session_id +:+ ".jsonl";
      "   ```";
      "";
      "2. **Restart evolution with same configuration**:";
      "   ```bash";
      "   npm run evolve:complete -- --resume-from=" +:+ session_id;
      "   ```";
      "";
      "3. **Or manually continue**:";
      "   ```bash";
      "   # Set environment variables";
      "   export EVOLUTION_SESSION_ID=" +:+ session_id;
      "   export TELEMETRY_ENABLED=true";
      "   ";
      "   # Run next generation";
      "   npm run evolve:complete";
      "   ```";
      "";
      "## Archived Files";
      "- Telemetry data: `" +:+ session_id +:+ ".jsonl`";
      "- Session stats: `" +:+ session_id +:+ "-stats.json`";
      "- Session metadata: `session-metadata.json`";
      "- Archive summary: `archive-summary.json`";
      "";
      "## Notes";
      "This session was automatically checkpointed due to conversation boundary.";
      "All telemetry and progress data has been preserved for analysis or resumption." ].

Definition generate_resume_instructions (session_id : string)
    (archive_path : option string) : M unit :=
  match archive_path with
  | Some (String c p) =>
      let archive_path := String c p in
      let resume_file := (archive_path, "RESUME_INSTRUCTIONS.md") in
      let* now := Os.time_ms in
      let instructions := resume_instructions session_id (isoformat now) archive_path in
      try_except
        (Os.write_file resume_file (CText instructions) ;;
         Os.debug "DEBUG_EVOLUTION"
           ("Resume instructions: " +:+ join archive_path "RESUME_INSTRUCTIONS.md"))
        (fun _ => Os.debug "DEBUG_EVOLUTION" "Resume instructions error")
  | _ => ret tt
  end.

(** The guarded block of [main]: the five checkpoint steps. *)
Definition checkpoint (session_id : string) : M unit :=
  Os.debug "DEBUG_EVOLUTION" ("Evolution checkpoint triggered for session: " +:+ session_id) ;;
  finalize_telemetry_session (Some session_id) ;;
  let* archive_path := archive_evolution_data (Some session_id) in
  generate_resume_instructions session_id archive_path ;;
  cleanup_temporary_files ;;
  Os.environ_discard "EVOLUTION_SESSION_ID" ;;
  Os.environ_discard "EVOLUTION_SESSION_ACTIVE" ;;
  Os.debug "DEBUG_EVOLUTION" "Evolution checkpoint complete".

Definition main_body : M unit :=
  let* input_data := try_except Os.read_stdin_json (fun _ => ret (JObj [])) in
  let* session_info := get_session_info in
  let* active := Os.environ_get "EVOLUTION_SESSION_ACTIVE" in
  (match session_id session_info with
   | Some (String c s) =>
       if env_truthy active then checkpoint (String c s) else ret tt
   | _ => ret tt
   end) ;;
  Os.print_json input_data.

Definition main : M unit :=
  try_except main_body
    (fun _ =>
       Os.debug "DEBUG_EVOLUTION" "Checkpoint manager error" ;;
       Os.print_json (JObj [])).

End Script.
End CheckpointManager.


(* ===================================================================== *)
(** * Vocabulary of the specification *)
(* ===================================================================== *)

(** "The phrase occurs in the text, case-insensitively": some stretch of
    the text equals the phrase up to the case of its letters. *)
Definition occurs_ci (phrase text : string) : Prop :=
  exists pre mid post,
    text = pre +:+ mid +:+ post /\ PyStr.lower mid = PyStr.lower phrase.

(** [ps] is a choice of distinct vocabulary phrases that all occur in [prompt]. *)
Definition distinct_matches (prompt : string) (ps : list string) : Prop :=
  List.NoDup ps /\
  forall p, In p ps -> In p TaskInterceptor.evolution_keywords /\ occurs_ci p prompt.

(** The field [k] of a JSON object. *)
Definition field (k : string) (j : JSON) : option JSON :=
  match j with
  | JObj kvs => Py.assoc k kvs
  | _ => None
  end.

(** The categories of the error classifier and the phrases it looks for. *)
Definition error_categories : list string :=
  ["timeout"; "permission"; "not_found"; "parameter"; "unknown"].

Definition category_phrases : list string :=
  ["timeout"; "permission"; "access"; "not found"; "missing"; "invalid"; "parameter"].

(** ** Reading a labelled reference *)

Fixpoint all_chars (P : ascii -> bool) (s : string) : bool :=
  match s with
  | EmptyString => true
  | String c s' => P c && all_chars P s'
  end.

Definition blank (s : string) : Prop := all_chars PyStr.is_space s = true.

Definition one_line (s : string) : Prop :=
  all_chars (fun c => negb (Ascii.eqb c PyStr.newline)) s = true.

(** The text stops where its line stops. *)
Definition at_line_end (rest : string) : Prop :=
  rest = "" \/ exists r, rest = String PyStr.newline r.

(** Blanks [ws], then [capture] to the end of its line, at the start of [t]. *)
Definition tail_reads (ws capture t : string) : Prop :=
  exists rest,
    t = ws +:+ capture +:+ rest /\
    blank ws /\ capture <> "" /\ one_line capture /\ at_line_end rest.

(** [text] reads: the label (in any case), blanks [ws], then [capture],
    which is a non-empty stretch of one line running to the end of it. *)
Definition reads_label (label ws capture text : string) : Prop :=
  exists lab rest,
    text = lab +:+ ws +:+ capture +:+ rest /\
    PyStr.lower lab = PyStr.lower label /\
    blank ws /\ capture <> "" /\ one_line capture /\ at_line_end rest.

(** The label can be read somewhere in the prompt. *)
Definition label_found (label prompt : string) : Prop :=
  exists pre text ws capture, prompt = pre +:+ text /\ reads_label label ws capture text.

(** The reading the search settles on: the leftmost place where the label
    can be read and, there, the longest run of blanks after it. *)
Definition first_reading (label prompt capture : string) : Prop :=
  exists pre text ws,
    prompt = pre +:+ text /\ reads_label label ws capture text /\
    (forall pre' text' ws' capture',
        prompt = pre' +:+ text' -> reads_label label ws' capture' text' ->
        String.length pre <= String.length pre') /\
    (forall ws' capture',
        reads_label label ws' capture' text -> String.length ws' <= String.length ws).

(** The text up to the end of its first line. *)
Fixpoint line_prefix (s : string) : string :=
  match s with
  | EmptyString => EmptyString
  | String c s' =>
      if Ascii.eqb c PyStr.newline then EmptyString else String c (line_prefix s')
  end.

(** ** The reference line as the specification words it *)

(** [s] without its first [n] characters. *)
Fixpoint skip (n : nat) (s : string) : string :=
  match n, s with
  | S n', String _ s' => skip n' s'
  | _, _ => s
  end.

(** At the first place where [label] stands in [text], in any case of
    letters: what follows the label up to the end of that line, trimmed. *)
Fixpoint rest_of_label_line (label text : string) : option string :=
  if PyStr.startswith (PyStr.lower text) (PyStr.lower label)
  then Some (PyStr.strip (line_prefix (skip (String.length label) text)))
  else match text with
       | EmptyString => None
       | String _ text' => rest_of_label_line label text'
       end.

(** The first of the two labels that stands in the prompt decides. *)
Definition labelled_reference (prompt : string) : option string :=
  match rest_of_label_line "reference image:" prompt with
  | Some r => Some r
  | None => rest_of_label_line "reference:" prompt
  end.

(** ** The error categories

    [classified_as msg c]: the first category, in the order timeout,
    permission, not_found, parameter, one of whose phrases occurs in [msg]
    is [c]; when no phrase occurs, [c] is unknown. *)
Definition classified_as (msg c : string) : Prop :=
  let hit p := occurs_ci p msg in
  let t := hit "timeout" in
  let p := hit "permission" \/ hit "access" in
  let n := hit "not found" \/ hit "missing" in
  let a := hit "invalid" \/ hit "parameter" in
  (c = "timeout" /\ t) \/
  (c = "permission" /\ ~ t /\ p) \/
  (c = "not_found" /\ ~ t /\ ~ p /\ n) \/
  (c = "parameter" /\ ~ t /\ ~ p /\ ~ n /\ a) \/
  (c = "unknown" /\ ~ t /\ ~ p /\ ~ n /\ ~ a).

(** ** The cleanup sweep *)

(** [p] is a scratch metadata file of the world, with contents [f]. *)
Definition scratch_file (w : World) (p : path) (f : File) : Prop :=
  p.1 = tmp_dir /\ CheckpointManager.is_scratch_name p.2 = true /\
  Os.lookup_file w p = Some f.

(** The file was last modified more than one hour before the world's clock. *)
Definition older_than_one_hour (w : World) (f : File) : Prop :=
  (3600 * 1000 < now_ms w - mtime f)%Z.

(** The system lets the sweep inspect and delete [p]. *)
Definition can_delete (w : World) (p : path) : Prop :=
  faulty w (OpGetmtime p) = false /\ faulty w (OpRemove p) = false.

(** What one turn of the sweep loop decides for [p]. *)
Definition sweeps (w : World) (p : path) : bool :=
  match Os.lookup_file w p with
  | Some f =>
      negb (faulty w (OpGetmtime p)) &&
      (CheckpointManager.one_hour_ms <? now_ms w - mtime f)%Z &&
      negb (faulty w (OpRemove p))
  | None => false
  end.

(** The body of the sweep loop. *)
Definition sweep_body (temp_file : path) : M unit :=
  try_except
    (let* now := Os.time_ms in
     let* modified := Os.getmtime temp_file in
     if (CheckpointManager.one_hour_ms <? now - modified)%Z then
       Os.remove temp_file ;;
       Os.debug "DEBUG_EVOLUTION"
         ("Cleaned temp file: " +:+ join temp_file.1 temp_file.2)
     else ret tt)
    (fun _ => ret tt).

(** Two worlds with the same clock, directories and refusals. *)
Definition same_system (w w' : World) : Prop :=
  dirs w' = dirs w /\ faulty w' = faulty w /\ now_ms w' = now_ms w /\
  environ w' = environ w /\ stdout w' = stdout w /\ stdin w' = stdin w /\
  next_uuid w' = next_uuid w.

(** [p] is a path the glob pattern [/tmp/evolution-*.json] matches. *)
Definition is_scratch_path (p : path) : bool :=
  String.eqb p.1 tmp_dir && CheckpointManager.is_scratch_name p.2.

(** ** Worlds along a run *)

(** The session's log and statistics files. *)
Definition log_file (sid : string) : path := (telemetry_dir, sid +:+ ".jsonl").

Definition log_lines (w : World) (sid : string) : list Chunk :=
  Os.old_chunks w (log_file sid).

(** The world after a diagnostic line was printed, or not, under [flag]. *)
Definition after_debug (flag msg : string) (w : World) : World :=
  (Os.debug flag msg w).2.

(** The world after [os.makedirs(d, exist_ok=True)] went through. *)
Definition ensure_dir (d : string) (w : World) : World :=
  if Os.has_dir w d then w else with_dirs (union {[d]}) w.

(** The directory exists or the system lets it be created. *)
Definition dir_available (w : World) (d : string) : Prop :=
  Os.has_dir w d = true \/ faulty w (OpMakedirs d) = false.

(** The session [sid] is the active one: [EVOLUTION_SESSION_ID] holds it. *)
Definition session_active (w : World) (sid : string) : Prop :=
  sid <> "" /\ environ w !! "EVOLUTION_SESSION_ID" = Some sid.

(** No session id in the environment, under either name. *)
Definition no_session (w : World) : Prop :=
  env_truthy (environ w !! "EVOLUTION_SESSION_ID") = false /\
  env_truthy (environ w !! "TELEMETRY_SESSION_ID") = false.

(** ** Reading the session context *)

(** The text of [TELEMETRY_GENERATION], "0" when the variable is not set. *)
Definition generation_text (w : World) : string :=
  match environ w !! "TELEMETRY_GENERATION" with Some v => v | None => "0" end.

(** The context can be read: the generation is ASCII text and, when it
    consists of decimal digits, there are at most 4300 of them. *)
Definition context_reads (w : World) : bool :=
  PyStr.isascii (generation_text w) &&
  (negb (PyStr.isdigit (generation_text w)) ||
   (Z.of_nat (String.length (generation_text w)) <=? 4300)%Z).

(** The generation is a decimal numeral of more than 4300 digits. *)
Definition generation_too_long (w : World) : bool :=
  PyStr.isdigit (generation_text w) &&
  (4300 <? Z.of_nat (String.length (generation_text w)))%Z.

(** The generation [get_session_info] reports when the context reads. *)
Definition generation_of (w : World) : N :=
  if PyStr.isdigit (generation_text w) then PyStr.int_of_digits (generation_text w)
  else 0%N.

(** ** JSON text *)

(** What [json.dumps] prints for [j] is JSON text proper: no number in
    [j] is NaN or infinite (those are printed as [NaN], [Infinity] and
    [-Infinity], which JSON does not have). *)
Fixpoint valid_json_text (j : JSON) : bool :=
  match j with
  | JNonFinite _ => false
  | JArr items => forallb valid_json_text items
  | JObj fields => forallb (fun kv => valid_json_text kv.2) fields
  | _ => true
  end.

(** The input, when it parses, has no number that is NaN or infinite. *)
Definition finite_input (w : World) : Prop :=
  forall j, stdin w = Some j -> valid_json_text j = true.

(** An event envelope: an object whose tool descriptor (when it has one) is
    an object whose name (when it has one) is a string. *)
Definition envelope (j : JSON) (name : string) : Prop :=
  exists kvs tool,
    j = JObj kvs /\
    Py.get j "tool" (JObj []) = Ok (JObj tool) /\
    Py.get (JObj tool) "name" (JStr "") = Ok (JStr name).

(** The envelope of a call to the observed toolset, as the pre-capture
    hook takes it: the arguments (when it has some) are a mapping. *)
Definition pre_envelope (j : JSON) : Prop :=
  exists kvs tool name args,
    j = JObj kvs /\
    Py.get j "tool" (JObj []) = Ok (JObj tool) /\
    Py.get (JObj tool) "name" (JStr "") = Ok (JStr name) /\
    PyStr.startswith name "mcp__indesign__" = true /\
    Py.get (JObj tool) "arguments" (JObj []) = Ok (JObj args).

(** The envelope of a completed call, as the post-capture hook takes it:
    result and timing descriptors are mappings. *)
Definition post_envelope (j : JSON) : Prop :=
  exists name result timing,
    envelope j name /\ PyStr.startswith name "mcp__indesign__" = true /\
    Py.get j "result" (JObj []) = Ok (JObj result) /\
    Py.get j "timing" (JObj []) = Ok (JObj timing).

(** The statistics file of a session, [<session_id>-stats.json] in the
    telemetry directory. *)
Definition session_stats (sid : string) : path :=
  ("~/.claude/telemetry", sid +:+ "-stats.json").

(** The log of a session, [<session_id>.jsonl] in the telemetry directory. *)
Definition session_log (sid : string) : path :=
  ("~/.claude/telemetry", sid +:+ ".jsonl").

(** The statistics file is absent, or holds a mapping whose counter, when
    it has one, is the integer [n]; it can be read and written. *)
Definition stats_ready (w : World) (sid : string) (st : list (string * JSON)) (n : Z)
  : Prop :=
  let p := TelemetryCollector.stats_file sid in
  faulty w (OpWrite p) = false /\
  match Py.assoc "total_tools" st with
  | Some (JNum k) => n = k
  | None => n = 0%Z
  | _ => False
  end /\
  ((files w !! p = None /\ st = []) \/
   (exists f, files w !! p = Some f /\ chunks f = [CJson (JObj st)] /\
              faulty w (OpRead p) = false)).

(** The same of the file the specification names: [session_stats]. *)
Definition stats_usable (w : World) (sid : string) (st : list (string * JSON)) (n : Z)
  : Prop :=
  let p := session_stats sid in
  faulty w (OpWrite p) = false /\
  match Py.assoc "total_tools" st with
  | Some (JNum k) => n = k
  | None => n = 0%Z
  | _ => False
  end /\
  ((files w !! p = None /\ st = []) \/
   (exists f, files w !! p = Some f /\ chunks f = [CJson (JObj st)] /\
              faulty w (OpRead p) = false)).

(** The body of [update_session_statistics] before its handler: nothing
    changes before the final write. *)
Definition stats_body (isoformat : Z -> string) (sid : string) : M unit :=
  let* present := Os.file_exists (TelemetryCollector.stats_file sid) in
  let* stats := if present then Os.load_json (TelemetryCollector.stats_file sid) else ret (JObj []) in
  let* total := lift (Py.get stats "total_tools" (JNum 0)) in
  let* total := lift (TelemetryCollector.add_one total) in
  let* now := Os.time_ms in
  match stats with
  | JObj kvs =>
      let kvs := Py.setitem kvs "total_tools" total in
      let kvs := Py.setitem kvs "last_update" (JStr (isoformat now)) in
      Os.write_file (TelemetryCollector.stats_file sid) (CJson (JObj kvs))
  | _ => raise TypeError
  end.


(** ** A session as a sequence of hook invocations *)

Inductive phase :=
| PreCall       (* the pre-capture hook runs *)
| PostCall.     (* the post-capture hook runs *)

Record event := mkEvent {
  phase_of : phase;
  envelope_of : JSON;     (* what the host writes to the hook's stdin *)
  time_of : Z             (* the clock when the hook runs *)
}.

Definition is_pre (e : event) : bool :=
  match phase_of e with PreCall => true | PostCall => false end.

Definition is_post (e : event) : bool :=
  match phase_of e with PreCall => false | PostCall => true end.

(** What each hook writes into [capture_source]. *)
Definition capture_source_of (p : phase) : string :=
  match p with
  | PreCall => "hook_preuse"
  | PostCall => "hook_postuse"
  end.

Definition well_formed_event (e : event) : Prop :=
  match phase_of e with
  | PreCall => pre_envelope (envelope_of e)
  | PostCall => post_envelope (envelope_of e)
  end.

Definition hook (py_repr : JSON -> string) (isoformat : Z -> string) (p : phase) : M unit :=
  match p with
  | PreCall => TelemetryEnhancer.main py_repr
  | PostCall => TelemetryCollector.main py_repr isoformat
  end.

(** One invocation by the host: a fresh process reads the envelope [j] at
    clock value [t], in the environment and on the files of [w]. *)
Definition invoke (c : M unit) (j : JSON) (t : Z) (w : World) : World :=
  (c (with_now t (with_stdin (Some j) w))).2.

Fixpoint run_events (py_repr : JSON -> string) (isoformat : Z -> string)
    (es : list event) (w : World) : World :=
  match es with
  | [] => w
  | e :: rest =>
      run_events py_repr isoformat rest
        (invoke (hook py_repr isoformat (phase_of e)) (envelope_of e) (time_of e) w)
  end.

(** A line of a log that is one JSON document. *)
Definition json_line (c : Chunk) : Prop := exists j, c = CJson j.

(** A line of a log that is one document of JSON text proper. *)
Definition valid_json_line (c : Chunk) : Prop :=
  exists j, c = CJson j /\ valid_json_text j = true.

(** The envelope of the event has no number that is NaN or infinite. *)
Definition finite_event (e : event) : Prop := valid_json_text (envelope_of e) = true.

(** What a run of events relies on: the session is active and its log can
    be appended to. *)
Definition recording (w : World) (sid : string) : Prop :=
  session_active w sid /\ dir_available w telemetry_dir /\
  faulty w (OpAppend (log_file sid)) = false.


(** ** What a statement does to the standard streams *)

(** The statement neither prints to standard output nor reads standard input. *)
Definition silent {A} (c : M A) : Prop :=
  forall w, stdout (c w).2 = stdout w /\ stdin (c w).2 = stdin w.

(** The statement prints exactly one document, which satisfies [P], when
    it returns, and none when it raises; it does not read standard input. *)
Definition prints_once (P : JSON -> Prop) (c : M unit) : Prop :=
  forall w,
    match c w with
    | (Ok _, w') => (exists j, stdout w' = stdout w ++ [j] /\ P j) /\ stdin w' = stdin w
    | (Raise _, w') => stdout w' = stdout w /\ stdin w' = stdin w
    end.

(** The shape shared by the [main] of the three tool hooks. *)
Definition tool_hook_main (rest : JSON -> M unit) (flag msg : string) (fallback : JSON)
  : M unit :=
  try_except (bind Os.read_stdin_json rest)
    (fun _ =>
       Os.debug flag msg ;;
       try_except
         (let* input_data := Os.read_stdin_json in Os.print_json input_data)
         (fun _ => Os.print_json fallback)).

(** ** Passing an envelope through *)

(** The entry point returns normally, writes [j] and nothing else to
    standard output, and leaves files, directories and the environment as
    they were. *)
Definition passes_through (c : M unit) (w : World) (j : JSON) : Prop :=
  exists w',
    c w = (Ok tt, w') /\ stdout w' = stdout w ++ [j] /\
    files w' = files w /\ dirs w' = dirs w /\ environ w' = environ w.

(** The envelope of a call to the Task tool with the prompt [prompt]. *)
Definition task_request (j : JSON) (prompt : string) : Prop :=
  exists kvs tool args,
    j = JObj kvs /\
    Py.get j "tool" (JObj []) = Ok (JObj tool) /\
    Py.get (JObj tool) "name" (JStr "") = Ok (JStr "Task") /\
    Py.get (JObj tool) "arguments" (JObj []) = Ok (JObj args) /\
    Py.get (JObj args) "prompt" (JStr "") = Ok (JStr prompt).

(** The identifier [setup_evolution_session] makes up in the world [w]. *)
Definition new_session_id (w : World) : string :=
  PyStr.of_Z (Z.quot (now_ms w) 1000) +:+ "-evolution-" +:+ PyStr.take 8 (next_uuid w).

(* ===================================================================== *)
(** * Concrete worlds *)
(* ===================================================================== *)

Module Scenario.

(** Stand-ins for the interpreter's [repr] and the two date formats. *)
Definition repr0 (j : JSON) : string := "<value>".
Definition iso0 (t : Z) : string := "T" +:+ PyStr.of_Z t.
Definition strf0 (t : Z) : string := "D" +:+ PyStr.of_Z t.

Definition no_faults (op : IOop) : bool := false.

Definition clock0 : Z := 1700000000123.

(** A Task request whose prompt has four phrases of the vocabulary. *)
Definition qualifying_prompt : string :=
  "Recreate this InDesign page with the MCP tools. Reference image: cover.png".

Definition task_envelope : JSON :=
  JObj [("tool", JObj [("name", JStr "Task");
                       ("arguments", JObj [("prompt", JStr qualifying_prompt)])])].

(** A call of the observed toolset and its completion. *)
Definition tool_call : JSON :=
  JObj [("name", JStr "mcp__indesign__create_textframe");
        ("arguments", JObj [("x", JNum 10); ("y", JNum 20); ("text", JStr "Title")])].

Definition pre_call : JSON := JObj [("tool", tool_call)].

Definition post_call : JSON :=
  JObj [("tool", tool_call);
        ("result", JObj [("content", JStr "ok")]);
        ("timing", JObj [("total_ms", JNum 42)])].

Definition stop_envelope : JSON := JObj [("hook", JStr "Stop")].

(** A completed call whose timing overflowed: the host wrote [1e999],
    which [json.loads] reads as infinity. *)
Definition overflow_call : JSON :=
  JObj [("tool", tool_call);
        ("result", JObj [("content", JStr "ok")]);
        ("timing", JObj [("total_ms", JNonFinite PosInf)])].

(** An input that is JSON but not an object. *)
Definition list_input : JSON := JArr [JNum 1].

(** A label with nothing but a blank after it on its line. *)
Definition label_then_next_line : string :=
  "Reference: " +:+ String PyStr.newline "next line".

(** A numeral of 4301 digits. *)
Fixpoint nines (n : nat) : string :=
  match n with
  | O => EmptyString
  | S n' => String "9" (nines n')
  end.

Definition long_generation : string := nines 4301.

(** No session, empty scratch and telemetry directories. *)
Definition idle (input : JSON) : World :=
  mkWorld ∅ {[tmp_dir; telemetry_dir]} ∅ no_faults clock0
          "deadbeef-1234-4abc-8def-001122334455" (Some input) [] [].

(** The session "s1" is active; the active flag is set when [flag] says so. *)
Definition session_env (flag : bool) : gmap string string :=
  if flag
  then <["EVOLUTION_SESSION_ACTIVE" := "true"]> {["EVOLUTION_SESSION_ID" := "s1"]}
  else {["EVOLUTION_SESSION_ID" := "s1"]}.

Definition in_session (faults : IOop -> bool) (input : JSON) : World :=
  mkWorld (session_env false) {[tmp_dir; telemetry_dir]} ∅ faults clock0
          "deadbeef-1234-4abc-8def-001122334455" (Some input) [] [].

(** The log of "s1" cannot be appended to. *)
Definition log_refused (op : IOop) : bool :=
  match op with
  | OpAppend p => String.eqb p.2 "s1.jsonl"
  | _ => false
  end.


(** Scratch files of earlier sessions, 30 and 90 minutes old. *)
Definition young_scratch : path := (tmp_dir, "evolution-young.json").
Definition stale_scratch : path := (tmp_dir, "evolution-stale.json").

Definition scratch_files : gmap path File :=
  <[young_scratch := mkFile [CJson (JObj [])] (clock0 - 30 * 60 * 1000)]>
    {[stale_scratch := mkFile [CJson (JObj [])] (clock0 - 90 * 60 * 1000)]}.

Definition with_scratch (input : JSON) : World :=
  mkWorld ∅ {[tmp_dir; telemetry_dir]} scratch_files no_faults clock0
          "deadbeef-1234-4abc-8def-001122334455" (Some input) [] [].

(** The archive root cannot be created. *)
Definition archive_root_refused (op : IOop) : bool :=
  match op with
  | OpMakedirs d => String.eqb d archive_root
  | _ => false
  end.

(** The archive summary cannot be written. *)
Definition summary_refused (op : IOop) : bool :=
  match op with
  | OpWrite p => String.eqb p.2 "archive-summary.json"
  | _ => false
  end.

(** A checkpoint is due: session "s1" is active and flagged, a stale
    scratch file of another session lies in the scratch directory. *)
Definition at_checkpoint (faults : IOop -> bool) : World :=
  mkWorld (session_env true) {[tmp_dir; telemetry_dir]} scratch_files faults clock0
          "deadbeef-1234-4abc-8def-001122334455" (Some stop_envelope) [] [].

End Scenario.

Module Events.

(** One call of the observed toolset: the pre-capture hook, then the
    post-capture hook 42 ms later. *)
Definition one_call : list event :=
  [ mkEvent PreCall Scenario.pre_call Scenario.clock0;
    mkEvent PostCall Scenario.post_call (Scenario.clock0 + 42) ].

End Events.

(* ===================================================================== *)
(** * Further vocabulary: the hooks across a session *)
(* ===================================================================== *)

(** The mapping [args] has the key [k]. *)
Definition has_key (args : list (string * JSON)) (k : string) : Prop :=
  is_Some (Py.assoc k args).

(** One of [keys] is a key of [args]. *)
Definition has_any_key (args : list (string * JSON)) (keys : list string) : Prop :=
  exists k, In k keys /\ has_key args k.

(** The text has no blank at either end. *)
Definition trimmed (s : string) : Prop := PyStr.strip s = s.

(** A statistics file the update cannot work with: its contents are not
    one JSON document, or the document is not a mapping, or the counter
    in it is not a number. *)
Definition unusable_stats (f : File) : Prop :=
  match chunks f with
  | [CJson (JObj st)] =>
      match Py.assoc "total_tools" st with
      | None | Some (JNum _) | Some (JBool _) | Some (JFloat _ _)
      | Some (JNonFinite _) => False
      | Some _ => True
      end
  | _ => True
  end.

(** ** Counting completed calls *)

(** The statistics file of the session can be read and written, and it is
    absent (then [n] is 0) or holds a mapping whose counter is [n]. *)
Definition counted (w : World) (sid : string) (n : Z) : Prop :=
  faulty w (OpRead (session_stats sid)) = false /\
  exists st, stats_usable w sid st n.

(** The statistics file holds a mapping whose counter is [n]. *)
Definition counter_is (w : World) (sid : string) (n : Z) : Prop :=
  exists f st,
    files w !! session_stats sid = Some f /\
    chunks f = [CJson (JObj st)] /\
    Py.assoc "total_tools" st = Some (JNum n).

(** The envelope of a call to the Task tool whose arguments are the
    mapping [args]. *)
Definition task_call (j : JSON) (args : list (string * JSON)) : Prop :=
  exists kvs tool,
    j = JObj kvs /\
    Py.get j "tool" (JObj []) = Ok (JObj tool) /\
    Py.get (JObj tool) "name" (JStr "") = Ok (JStr "Task") /\
    Py.get (JObj tool) "arguments" (JObj []) = Ok (JObj args).

Definition is_text (j : JSON) : bool :=
  match j with JStr _ => true | _ => false end.

(** ** The steps of a checkpoint *)

(** Everything but the files and the diagnostics is as before, and no
    directory is gone. *)
Definition same_context (w w' : World) : Prop :=
  environ w' = environ w /\ faulty w' = faulty w /\ now_ms w' = now_ms w /\
  next_uuid w' = next_uuid w /\ stdin w' = stdin w /\ stdout w' = stdout w /\
  dirs w ⊆ dirs w'.

Definition keeps_context {A} (c : M A) : Prop := forall w, same_context w (c w).2.

(** No exception leaves the statement. *)
Definition never_raises {A} (c : M A) : Prop := forall w, exists a w', c w = (Ok a, w').

(** The same directories, too. *)
Definition same_directories (w w' : World) : Prop :=
  same_context w w' /\ dirs w' = dirs w.

(** The archive directory of a session archived at the clock of [w]. *)
Definition archive_dir (strftime : Z -> string) (w : World) (sid : string) : string :=
  join archive_root (strftime (now_ms w) +:+ "_" +:+ sid).

(** The guarded block of [archive_evolution_data]. *)
Definition archive_body (isoformat : Z -> string) (session_id session_archive : string)
  : M (option string) :=
  let* have_telemetry := Os.dir_exists telemetry_dir in
  let* archived_files :=
    if have_telemetry then
      let* names := Os.listdir telemetry_dir in
      CheckpointManager.copy_session_files session_id session_archive names []
    else ret [] in
  let* have_metadata := Os.file_exists (metadata_file session_id) in
  let* archived_files :=
    if have_metadata then
      Os.copy2 (metadata_file session_id) (session_archive, "session-metadata.json") ;;
      Os.remove (metadata_file session_id) ;;
      ret (archived_files ++ ["session-metadata.json"])
    else ret archived_files in
  let* now := Os.time_ms in
  let archive_summary :=
    JObj [ ("session_id", JStr session_id);
           ("archive_time", JStr (isoformat now));
           ("archive_path", JStr session_archive);
           ("archived_files", JArr (map JStr archived_files));
           ("total_files", JNum (Z.of_nat (length archived_files))) ] in
  Os.write_file (session_archive, "archive-summary.json") (CJson archive_summary) ;;
  Os.debug "DEBUG_EVOLUTION" ("Session archived: " +:+ session_archive) ;;
  Os.debug "DEBUG_EVOLUTION"
    ("Files archived: " +:+ PyStr.of_Z (Z.of_nat (length archived_files))) ;;
  ret (Some session_archive).

(** The system refuses nothing. *)
Definition fault_free (w : World) : Prop := forall op, faulty w op = false.

(** The telemetry files that belong to the session, as the archive step
    picks them: those with the session id in their name. *)
Definition session_files (w : World) (sid : string) : list string :=
  if Os.has_dir w telemetry_dir
  then List.filter (fun n => PyStr.contains n sid) (Os.names_in telemetry_dir (files w))
  else [].

(** The names the archive summary lists. *)
Definition archived_names (w : World) (sid : string) : list string :=
  session_files w sid ++
  match Os.lookup_file w (metadata_file sid) with
  | Some _ => ["session-metadata.json"]
  | None => []
  end.

Module Worlds.

(** A call of a tool outside the observed toolset. *)
Definition other_call : JSON :=
  JObj [("tool", JObj [("name", JStr "Bash");
                       ("arguments", JObj [("command", JStr "ls")])])].

(** The scratch file of session "s1", written two hours ago. *)
Definition old_metadata : File :=
  mkFile [CJson (JObj [("session_id", JStr "s1")])]
         (Scenario.clock0 - 2 * 3600 * 1000).

Definition after_two_hours : World :=
  mkWorld (Scenario.session_env true) {[tmp_dir; telemetry_dir]}
          {[metadata_file "s1" := old_metadata]} Scenario.no_faults Scenario.clock0
          "deadbeef-1234-4abc-8def-001122334455" (Some Scenario.stop_envelope) [] [].

(** The end of session "s1": its log, its statistics and its scratch
    file, beside the log of another session. *)
Definition s1_log : File :=
  mkFile [CJson (JObj [("tool", JStr "mcp__indesign__create_textframe")])]
         Scenario.clock0.

Definition s1_stats : File :=
  mkFile [CJson (JObj [("total_tools", JNum 1)])] Scenario.clock0.

Definition s2_log : File := mkFile [CJson (JObj [])] Scenario.clock0.

Definition session_end_files : gmap path File :=
  <[log_file "s1" := s1_log]>
    (<[TelemetryCollector.stats_file "s1" := s1_stats]>
       (<[metadata_file "s1" := old_metadata]> {[log_file "s2" := s2_log]})).

Definition end_of_session (faults : IOop -> bool) : World :=
  mkWorld (Scenario.session_env true) {[tmp_dir; telemetry_dir]} session_end_files
          faults (Scenario.clock0 + 60000)
          "deadbeef-1234-4abc-8def-001122334455" (Some Scenario.stop_envelope) [] [].

(** The statistics file of "s1" was cut short while being written. *)
Definition torn_stats : File := mkFile [CText "{ total_tools: 4"] Scenario.clock0.

Definition with_torn_stats : World :=
  mkWorld (Scenario.session_env false) {[tmp_dir; telemetry_dir]}
          {[TelemetryCollector.stats_file "s1" := torn_stats]} Scenario.no_faults
          (Scenario.clock0 + 1000)
          "deadbeef-1234-4abc-8def-001122334455" (Some Scenario.post_call) [] [].

(** A qualifying Task request arrives where there is no scratch directory. *)
Definition no_scratch_dir : World :=
  mkWorld ∅ {[telemetry_dir]} ∅ Scenario.no_faults Scenario.clock0
          "deadbeef-1234-4abc-8def-001122334455" (Some Scenario.task_envelope) [] [].

(** A Task request whose prompt is a number. *)
Definition numeric_task : JSON :=
  JObj [("tool", JObj [("name", JStr "Task");
                       ("arguments", JObj [("prompt", JNum 7)])])].

(** A completed call whose result is plain text. *)
Definition text_result_call : JSON :=
  JObj [("tool", Scenario.tool_call);
        ("result", JStr "done");
        ("timing", JObj [("total_ms", JNum 42)])].

(** Only [TELEMETRY_SESSION_ID] names a session. *)
Definition telemetry_only : World :=
  mkWorld {["TELEMETRY_SESSION_ID" := "s1"]} {[tmp_dir; telemetry_dir]} ∅
          Scenario.no_faults Scenario.clock0
          "deadbeef-1234-4abc-8def-001122334455" (Some Scenario.pre_call) [] [].



(** [EVOLUTION_SESSION_ID] names "s1", [TELEMETRY_SESSION_ID] names "s2". *)
Definition two_session_names : World :=
  mkWorld (<["TELEMETRY_SESSION_ID" := "s2"]> {["EVOLUTION_SESSION_ID" := "s1"]})
          {[tmp_dir; telemetry_dir]} ∅ Scenario.no_faults Scenario.clock0
          "deadbeef-1234-4abc-8def-001122334455" (Some Scenario.pre_call) [] [].

(** Session "s1" in its seventh generation. *)
Definition seventh_generation : World :=
  mkWorld (<["TELEMETRY_GENERATION" := "7"]> {["EVOLUTION_SESSION_ID" := "s1"]})
          {[tmp_dir; telemetry_dir]} ∅ Scenario.no_faults Scenario.clock0
          "deadbeef-1234-4abc-8def-001122334455" (Some Scenario.pre_call) [] [].

End Worlds.
(* ===================================================================== *)
(** * The session context and JSON text *)
(* ===================================================================== *)

Section ContextFacts.

Lemma context_reads_env (w w' : World) :
  environ w' = environ w -> context_reads w' = context_reads w.
Proof. unfold context_reads, generation_text. now intros ->. Qed.

Lemma generation_of_env (w w' : World) :
  environ w' = environ w -> generation_of w' = generation_of w.
Proof. unfold generation_of, generation_text. now intros ->. Qed.

(** What [get_session_info] does, case by case on the generation. *)
Lemma get_session_info_cases (w : World) :
  get_session_info w =
  let info g :=
    mkSessionInfo
      (env_or (environ w !! "EVOLUTION_SESSION_ID") (environ w !! "TELEMETRY_SESSION_ID"))
      (match environ w !! "TELEMETRY_AGENT_ID" with Some v => v | None => "unknown" end)
      g in
  if PyStr.isdigit (generation_text w)
  then match Py.int_of_digits (generation_text w) with
       | Ok g => (Ok (info g), w)
       | Raise e => (Raise e, w)
       end
  else (Ok (info 0%N), w).
Proof.
  unfold get_session_info, bind, Os.environ_get, Os.environ_get_default, generation_text.
  cbv beta iota zeta.
  destruct (PyStr.isdigit _); [| reflexivity].
  unfold lift. now destruct (Py.int_of_digits _).
Qed.

Lemma get_session_info_run (w : World) :
  context_reads w = true ->
  get_session_info w =
  (Ok (mkSessionInfo
         (env_or (environ w !! "EVOLUTION_SESSION_ID")
                 (environ w !! "TELEMETRY_SESSION_ID"))
         (match environ w !! "TELEMETRY_AGENT_ID" with Some v => v | None => "unknown" end)
         (generation_of w)),
   w).
Proof.
  intros H. rewrite get_session_info_cases. cbv zeta.
  unfold context_reads in H. apply andb_true_iff in H as [_ H].
  unfold generation_of, Py.int_of_digits, Py.int_max_str_digits.
  destruct (PyStr.isdigit (generation_text w)); [| reflexivity].
  cbn [negb orb] in H. now rewrite H.
Qed.

Lemma get_session_info_raises (w : World) :
  generation_too_long w = true -> get_session_info w = (Raise ValueError, w).
Proof.
  intros H. rewrite get_session_info_cases. cbv zeta.
  unfold generation_too_long in H. apply andb_true_iff in H as [-> H].
  unfold Py.int_of_digits, Py.int_max_str_digits.
  apply Z.ltb_lt in H.
  destruct (Z.leb_spec (Z.of_nat (String.length (generation_text w))) 4300);
    [lia | reflexivity].
Qed.

(** Either way [get_session_info] changes nothing. *)
Lemma get_session_info_same_world (w : World) :
  exists r, get_session_info w = (r, w).
Proof.
  rewrite get_session_info_cases. cbv zeta.
  destruct (PyStr.isdigit _); [destruct (Py.int_of_digits _) |]; eauto.
Qed.

Lemma valid_assoc (k : string) (kvs : list (string * JSON)) (v : JSON) :
  valid_json_text (JObj kvs) = true -> Py.assoc k kvs = Some v ->
  valid_json_text v = true.
Proof.
  cbn [valid_json_text]. induction kvs as [|[k' v'] kvs IH]; cbn [forallb Py.assoc];
    [discriminate |].
  intros H. apply andb_true_iff in H as [Hv H]. cbn [snd] in Hv.
  destruct (String.eqb k k'); [now intros [= <-] | now apply IH].
Qed.

Lemma valid_get (d : JSON) (k : string) (default v : JSON) :
  valid_json_text d = true -> valid_json_text default = true ->
  Py.get d k default = Ok v -> valid_json_text v = true.
Proof.
  intros Hd Hdef. destruct d as [| | | | | | |kvs]; try discriminate. cbn [Py.get].
  destruct (Py.assoc k kvs) as [v'|] eqn:E; intros [= <-];
    [now apply (valid_assoc k kvs) | exact Hdef].
Qed.

Lemma valid_setitem (kvs : list (string * JSON)) (k : string) (v : JSON) :
  valid_json_text (JObj kvs) = true -> valid_json_text v = true ->
  valid_json_text (JObj (Py.setitem kvs k v)) = true.
Proof.
  cbn [valid_json_text]. intros H Hv.
  induction kvs as [|[k' v'] kvs IH]; cbn [Py.setitem forallb snd].
  - now rewrite Hv.
  - cbn [forallb snd] in H. apply andb_true_iff in H as [Hv' H].
    destruct (String.eqb k k'); cbn [forallb snd].
    + now rewrite Hv, H.
    + now rewrite Hv', IH.
Qed.

Lemma valid_of_option_str (o : option string) :
  valid_json_text (Py.of_option_str o) = true.
Proof. now destruct o. Qed.

End ContextFacts.

(* ===================================================================== *)
(** * Facts about text *)
(* ===================================================================== *)

Module StrFacts.

Lemma app_assoc (a b c : string) : (a +:+ b) +:+ c = a +:+ (b +:+ c).
Proof. induction a as [|x a IH]; simpl; [reflexivity | now rewrite IH]. Qed.

Lemma startswith_spec (s p : string) :
  PyStr.startswith s p = true <-> exists rest, s = p +:+ rest.
Proof.
  revert s; induction p as [|a p IH]; intros s; simpl.
  - split; [intros _; now exists s | reflexivity].
  - destruct s as [|b s].
    + split; [discriminate | intros [rest H]; discriminate].
    + rewrite andb_true_iff, Ascii.eqb_eq, IH. split.
      * intros [-> [rest ->]]. now exists rest.
      * intros [rest H]. injection H as -> ->. split; [reflexivity | now exists rest].
Qed.

Lemma contains_spec (s k : string) :
  PyStr.contains s k = true <-> exists pre post, s = pre +:+ k +:+ post.
Proof.
  induction s as [|c s IH]; simpl.
  - rewrite orb_false_r, startswith_spec. split.
    + intros [rest H]. now exists "", rest.
    + intros [[|x pre] [post H]]; [now exists post | discriminate].
  - rewrite orb_true_iff, startswith_spec, IH. split.
    + intros [[rest H] | [pre [post H]]].
      * now exists "", rest.
      * exists (String c pre), post. simpl. now rewrite H.
    + intros [[|x pre] [post H]].
      * left. now exists post.
      * right. injection H as -> ->. now exists pre, post.
Qed.

Lemma lower_app (a b : string) :
  PyStr.lower (a +:+ b) = PyStr.lower a +:+ PyStr.lower b.
Proof. induction a as [|x a IH]; simpl; [reflexivity | now rewrite IH]. Qed.

Lemma lower_app_inv (s a b : string) :
  PyStr.lower s = a +:+ b ->
  exists s1 s2, s = s1 +:+ s2 /\ PyStr.lower s1 = a /\ PyStr.lower s2 = b.
Proof.
  revert s; induction a as [|x a IH]; intros s H; simpl in H.
  - now exists "", s.
  - destruct s as [|c s]; [discriminate |].
    simpl in H. injection H as Hc Hs.
    destruct (IH _ Hs) as (s1 & s2 & -> & H1 & H2).
    exists (String c s1), s2. simpl. now rewrite Hc, H1, H2.
Qed.

Lemma lower_char_idem (c : ascii) :
  PyStr.lower_char (PyStr.lower_char c) = PyStr.lower_char c.
Proof. destruct c as [[] [] [] [] [] [] [] []]; reflexivity. Qed.

Lemma lower_length (s : string) : String.length (PyStr.lower s) = String.length s.
Proof. induction s as [|c s IH]; simpl; [reflexivity | now rewrite IH]. Qed.

End StrFacts.

Lemma contains_lower_iff (text phrase : string) :
  PyStr.contains (PyStr.lower text) (PyStr.lower phrase) = true <-> occurs_ci phrase text.
Proof.
  rewrite StrFacts.contains_spec. split.
  - intros (pre & post & H).
    apply StrFacts.lower_app_inv in H as (s1 & s2 & -> & _ & H).
    apply StrFacts.lower_app_inv in H as (mid & s3 & -> & Hm & _).
    now exists s1, mid, s3.
  - intros (pre & mid & post & -> & Hm).
    exists (PyStr.lower pre), (PyStr.lower post).
    now rewrite !StrFacts.lower_app, Hm.
Qed.

(* ===================================================================== *)
(** * The classifier *)
(* ===================================================================== *)

Section Classifier.
Import TaskInterceptor.

(** The vocabulary is written in lower case and has no repeated phrase. *)
Lemma keywords_lower :
  forall k, In k evolution_keywords -> PyStr.lower k = k.
Proof.
  intros k Hk. unfold evolution_keywords in Hk. simpl in Hk.
  repeat (destruct Hk as [<- | Hk]; [reflexivity |]). destruct Hk.
Qed.

Lemma keywords_nodup : List.NoDup evolution_keywords.
Proof.
  unfold evolution_keywords.
  repeat (constructor; [simpl; intros H; repeat (destruct H as [H | H]; [discriminate H |]); exact H |]).
  constructor.
Qed.

Lemma keyword_hit (prompt k : string) :
  In k evolution_keywords ->
  PyStr.contains (PyStr.lower prompt) k = true <-> occurs_ci k prompt.
Proof.
  intros Hk. rewrite <- (keywords_lower k Hk) at 1. apply contains_lower_iff.
Qed.

Lemma is_evolution_prompt_iff (prompt : string) :
  is_evolution_prompt prompt = true <->
  exists ps, distinct_matches prompt ps /\ 3 <= length ps.
Proof.
  unfold is_evolution_prompt, count_matches.
  rewrite Nat.leb_le. split.
  - intros H.
    exists (List.filter (fun keyword => PyStr.contains (PyStr.lower prompt) keyword)
                        evolution_keywords).
    split; [split |]; [| | exact H].
    + apply List.NoDup_filter, keywords_nodup.
    + intros p Hp. apply filter_In in Hp as [Hin Hc].
      split; [exact Hin | now apply keyword_hit].
  - intros (ps & [Hnd Hps] & Hlen).
    eapply Nat.le_trans; [exact Hlen |].
    apply List.NoDup_incl_length; [exact Hnd |].
    intros p Hp. destruct (Hps p Hp) as [Hin Hoc].
    apply filter_In. split; [exact Hin | now apply keyword_hit].
Qed.


End Classifier.

(* ===================================================================== *)
(** * The error classifier *)
(* ===================================================================== *)

Lemma occurs_ci_lower (phrase msg : string) :
  PyStr.lower phrase = phrase ->
  PyStr.contains (PyStr.lower msg) phrase = true <-> occurs_ci phrase msg.
Proof. intros H. rewrite <- H at 1. apply contains_lower_iff. Qed.

Lemma occurs_ci_false (phrase msg : string) :
  PyStr.lower phrase = phrase ->
  PyStr.contains (PyStr.lower msg) phrase = false <-> ~ occurs_ci phrase msg.
Proof.
  intros H. rewrite <- (occurs_ci_lower _ _ H).
  destruct (PyStr.contains _ _); split; intros; congruence.
Qed.

(** A phrase that occurs carries along every phrase occurring in it. *)
Lemma occurs_ci_within (inner outer msg : string) :
  occurs_ci inner outer -> occurs_ci outer msg -> occurs_ci inner msg.
Proof.
  intros Hin Hout.
  apply contains_lower_iff in Hin. apply contains_lower_iff in Hout.
  apply contains_lower_iff.
  apply StrFacts.contains_spec in Hin as (a & b & Hin).
  apply StrFacts.contains_spec in Hout as (c & d & Hout).
  apply StrFacts.contains_spec.
  exists (c +:+ a), (b +:+ d).
  rewrite Hout, Hin, !StrFacts.app_assoc. reflexivity.
Qed.

Section ErrorClassifier.
Import TelemetryCollector.
Variable py_repr : JSON -> string.
Variable isoformat : Z -> string.

Lemma error_type_of_classified (msg : string) :
  classified_as msg (error_type_of (PyStr.lower msg)).
Proof.
  unfold classified_as, error_type_of.
  destruct (PyStr.contains (PyStr.lower msg) "timeout") eqn:T;
    [left; split; [reflexivity | now apply occurs_ci_lower] |].
  apply occurs_ci_false in T; [| reflexivity].
  destruct (PyStr.contains (PyStr.lower msg) "permission") eqn:P1.
  { apply occurs_ci_lower in P1; [| reflexivity]. right; left. simpl. tauto. }
  destruct (PyStr.contains (PyStr.lower msg) "access") eqn:P2.
  { apply occurs_ci_lower in P2; [| reflexivity]. right; left. simpl. tauto. }
  apply occurs_ci_false in P1, P2; try reflexivity.
  destruct (PyStr.contains (PyStr.lower msg) "not found") eqn:N1.
  { apply occurs_ci_lower in N1; [| reflexivity]. right; right; left. simpl. tauto. }
  destruct (PyStr.contains (PyStr.lower msg) "missing") eqn:N2.
  { apply occurs_ci_lower in N2; [| reflexivity]. right; right; left. simpl. tauto. }
  apply occurs_ci_false in N1, N2; try reflexivity.
  destruct (PyStr.contains (PyStr.lower msg) "invalid") eqn:A1.
  { apply occurs_ci_lower in A1; [| reflexivity]. right; right; right; left. simpl. tauto. }
  destruct (PyStr.contains (PyStr.lower msg) "parameter") eqn:A2.
  { apply occurs_ci_lower in A2; [| reflexivity]. right; right; right; left. simpl. tauto. }
  apply occurs_ci_false in A1, A2; try reflexivity.
  right; right; right; right. simpl. tauto.
Qed.

Lemma classified_in_categories (msg c : string) :
  classified_as msg c -> In c error_categories.
Proof.
  unfold classified_as, error_categories.
  intros [[-> _] | [[-> _] | [[-> _] | [[-> _] | [-> _]]]]]; simpl; tauto.
Qed.

Lemma classified_timeout (msg c : string) :
  classified_as msg c -> occurs_ci "timeout" msg -> c = "timeout".
Proof. unfold classified_as. intros H Ht. tauto. Qed.

Lemma classified_permission (msg c : string) :
  classified_as msg c -> occurs_ci "permission" msg -> ~ occurs_ci "timeout" msg ->
  c = "permission".
Proof. unfold classified_as. intros H Hp Ht. tauto. Qed.

Lemma classified_unknown (msg c : string) :
  classified_as msg c -> (forall p, In p category_phrases -> ~ occurs_ci p msg) ->
  c = "unknown".
Proof.
  unfold classified_as, category_phrases. intros H Hn.
  assert (~ occurs_ci "timeout" msg) by (apply Hn; simpl; tauto).
  assert (~ occurs_ci "permission" msg) by (apply Hn; simpl; tauto).
  assert (~ occurs_ci "access" msg) by (apply Hn; simpl; tauto).
  assert (~ occurs_ci "not found" msg) by (apply Hn; simpl; tauto).
  assert (~ occurs_ci "missing" msg) by (apply Hn; simpl; tauto).
  assert (~ occurs_ci "invalid" msg) by (apply Hn; simpl; tauto).
  assert (~ occurs_ci "parameter" msg) by (apply Hn; simpl; tauto).
  tauto.
Qed.

(** What [analyze_tool_result] returns on a dict. *)
Lemma analyze_tool_result_error (tool_name result error : JSON) :
  Py.get result "error" JNull = Ok error ->
  Py.truthy error = true ->
  exists analysis,
    analyze_tool_result py_repr tool_name result = Ok analysis /\
    field "success" analysis = Some (JBool false) /\
    field "error_type" analysis =
      Some (JStr (error_type_of (PyStr.lower (py_str py_repr error)))).
Proof.
  intros Hget Htr. destruct result; try discriminate Hget.
  unfold analyze_tool_result. rewrite Hget. simpl Py.get. cbv iota. rewrite Htr.
  eexists. split; [reflexivity |]. split; reflexivity.
Qed.

Lemma analyze_tool_result_success (tool_name result error : JSON) :
  Py.get result "error" JNull = Ok error ->
  Py.truthy error = false ->
  exists analysis,
    analyze_tool_result py_repr tool_name result = Ok analysis /\
    field "success" analysis = Some (JBool true) /\
    field "error_type" analysis = Some JNull.
Proof.
  intros Hget Htr. destruct result; try discriminate Hget.
  unfold analyze_tool_result. rewrite Hget. simpl Py.get. cbv iota. rewrite Htr.
  eexists. split; [reflexivity |]. split; reflexivity.
Qed.

Lemma analyze_tool_result_valid (tool_name result analysis : JSON) :
  analyze_tool_result py_repr tool_name result = Ok analysis ->
  valid_json_text analysis = true.
Proof.
  unfold analyze_tool_result.
  destruct (Py.get result "error" JNull) as [error|]; [| discriminate].
  destruct (Py.get result "content" JNull) as [content|]; [| discriminate].
  destruct (Py.truthy error); intros [= <-]; reflexivity.
Qed.

Lemma complete_telemetry_record_result (tool_call : list (string * JSON))
    (result error execution_time : JSON) (w : World) :
  context_reads w = true ->
  Py.get result "error" JNull = Ok error ->
  exists record analysis,
    complete_telemetry_record py_repr (JObj tool_call) result execution_time w
      = (Ok record, w) /\
    field "result" record =
      Some (JStr (if Py.truthy error then "error" else "success")) /\
    field "capture_source" record = Some (JStr "hook_postuse") /\
    field "session_id" record =
      Some (Py.of_option_str (env_or (environ w !! "EVOLUTION_SESSION_ID")
                                      (environ w !! "TELEMETRY_SESSION_ID"))) /\
    analyze_tool_result py_repr
      (match Py.assoc "name" tool_call with Some v => v | None => JStr "" end) result
      = Ok analysis /\
    field "result_analysis" record = Some analysis /\
    (valid_json_text (JObj tool_call) = true -> valid_json_text execution_time = true ->
     valid_json_text record = true).
Proof.
  intros Hctx Hget.
  assert (exists analysis,
             analyze_tool_result py_repr
               (match Py.assoc "name" tool_call with Some v => v | None => JStr "" end)
               result = Ok analysis /\
             valid_json_text analysis = true) as (analysis & Ha & Hva).
  { destruct (Py.truthy error) eqn:Htr.
    - destruct (analyze_tool_result_error
                  (match Py.assoc "name" tool_call with Some v => v | None => JStr "" end)
                  result error Hget Htr) as (analysis & Ha & _).
      exists analysis. split; [exact Ha | exact (analyze_tool_result_valid _ _ _ Ha)].
    - destruct (analyze_tool_result_success
                  (match Py.assoc "name" tool_call with Some v => v | None => JStr "" end)
                  result error Hget Htr) as (analysis & Ha & _).
      exists analysis. split; [exact Ha | exact (analyze_tool_result_valid _ _ _ Ha)]. }
  assert (Hvalid : valid_json_text (JObj tool_call) = true ->
                   valid_json_text execution_time = true ->
                   forall k default,
                     valid_json_text default = true ->
                     valid_json_text
                       (match Py.assoc k tool_call with Some v => v | None => default end)
                     = true).
  { intros Ht _ k default Hd. destruct (Py.assoc k tool_call) as [v|] eqn:E;
      [exact (valid_assoc k tool_call v Ht E) | exact Hd]. }
  unfold complete_telemetry_record.
  unfold bind at 1. rewrite (get_session_info_run w Hctx). cbv beta iota.
  unfold bind, Os.time_ms, lift, ret. cbn [Py.get]. rewrite Hget. cbv beta iota zeta.
  rewrite Ha. cbv beta iota.
  eexists _, analysis. split; [reflexivity |].
  cbn [session_id agent_id generation].
  destruct (Py.truthy error); cbn [negb];
    (split; [reflexivity |]; split; [reflexivity |]; split; [reflexivity |];
     split; [reflexivity |]; split; [reflexivity |];
     intros Ht He;
     apply valid_setitem; [| exact Hva];
     cbn [valid_json_text forallb snd Py.setitem String.eqb Ascii.eqb Bool.eqb andb];
     rewrite He, valid_of_option_str, !(Hvalid Ht He) by reflexivity; reflexivity).
Qed.

(** C6 (amended): on an error result the classifier puts the message, read
    case-insensitively, into one of timeout, permission, not_found,
    parameter and unknown, the first category in that order with a phrase
    in the message; so "Timeout after 30s" gives timeout, "permission
    denied" gives permission when "timeout" does not occur too, and a
    message with no category phrase gives unknown.  Without an error the
    error type is null and the result of the record the hook builds,
    wherever the session context can be read, is "success". *)
Theorem C6_error_categories (tool_name result error : JSON) :
  Py.get result "error" JNull = Ok error ->
  exists analysis,
    analyze_tool_result py_repr tool_name result = Ok analysis /\
    (Py.truthy error = true ->
     let msg := py_str py_repr error in
     exists c,
       field "error_type" analysis = Some (JStr c) /\
       classified_as msg c /\ In c error_categories /\
       (occurs_ci "Timeout after 30s" msg -> c = "timeout") /\
       (occurs_ci "permission denied" msg -> ~ occurs_ci "timeout" msg ->
        c = "permission") /\
       ((forall p, In p category_phrases -> ~ occurs_ci p msg) -> c = "unknown")) /\
    (Py.truthy error = false ->
     field "error_type" analysis = Some JNull /\
     forall tool_call execution_time w,
     context_reads w = true ->
     exists record,
       complete_telemetry_record py_repr (JObj tool_call) result execution_time w
         = (Ok record, w) /\
       field "result" record = Some (JStr "success")).
Proof.
  intros Hget. destruct (Py.truthy error) eqn:Htr.
  - destruct (analyze_tool_result_error tool_name result error Hget Htr)
      as (analysis & Ha & _ & Hty).
    exists analysis. split; [exact Ha |]. split; [| discriminate].
    intros _ msg.
    pose proof (error_type_of_classified msg) as Hc.
    exists (error_type_of (PyStr.lower msg)).
    split; [exact Hty |]. split; [exact Hc |].
    split; [now apply classified_in_categories with msg |].
    split; [| split].
    + intros H. apply (classified_timeout msg); [exact Hc |].
      apply occurs_ci_within with "Timeout after 30s"; [| exact H].
      exists "", "Timeout", " after 30s". split; reflexivity.
    + intros H Hnt. apply (classified_permission msg); [exact Hc | | exact Hnt].
      apply occurs_ci_within with "permission denied"; [| exact H].
      exists "", "permission", " denied". split; reflexivity.
    + now apply classified_unknown.
  - destruct (analyze_tool_result_success tool_name result error Hget Htr)
      as (analysis & Ha & _ & Hty).
    exists analysis. split; [exact Ha |]. split; [discriminate |].
    intros _. split; [exact Hty |].
    intros tool_call execution_time w Hctx.
    destruct (complete_telemetry_record_result tool_call result error execution_time w
                Hctx Hget)
      as (record & a & Hrun & Hres & _).
    exists record. split; [exact Hrun |]. now rewrite Htr in Hres.
Qed.

End ErrorClassifier.

(* ===================================================================== *)
(** * Reading the reference label *)
(* ===================================================================== *)

Section Reference.
Import TaskInterceptor.

Lemma newline_is_space : PyStr.is_space PyStr.newline = true.
Proof. reflexivity. Qed.

Lemma not_space_not_newline (c : ascii) :
  PyStr.is_space c = false -> Ascii.eqb c PyStr.newline = false.
Proof.
  intros H. destruct (Ascii.eqb_spec c PyStr.newline) as [-> |]; [| reflexivity].
  now rewrite newline_is_space in H.
Qed.

Lemma line_prefix_split (s : string) :
  exists rest, s = line_prefix s +:+ rest /\ at_line_end rest.
Proof.
  induction s as [|c s (rest & IH & Hend)]; simpl.
  - exists "". split; [reflexivity | now left].
  - destruct (Ascii.eqb_spec c PyStr.newline) as [-> | Hc].
    + exists (String PyStr.newline s). split; [reflexivity | right; now exists s].
    + exists rest. simpl. split; [now rewrite <- IH | exact Hend].
Qed.

Lemma line_prefix_one_line (s : string) : one_line (line_prefix s).
Proof.
  unfold one_line. induction s as [|c s IH]; simpl; [reflexivity |].
  destruct (Ascii.eqb c PyStr.newline) eqn:E; simpl; [reflexivity |].
  now rewrite E, IH.
Qed.

(** A stretch of one line that runs to the end of the line is the line. *)
Lemma line_prefix_unique (g rest : string) :
  one_line g -> at_line_end rest -> line_prefix (g +:+ rest) = g.
Proof.
  unfold one_line. induction g as [|c g IH]; simpl; intros Hg Hend.
  - destruct Hend as [-> | [r ->]]; reflexivity.
  - apply andb_true_iff in Hg as [Hc Hg].
    apply negb_true_iff in Hc. rewrite Hc. now rewrite IH.
Qed.

Lemma group_more_line (s : string) :
  Re.group_more Re.NotNewline (Re.match_here []) s = Some (line_prefix s).
Proof.
  induction s as [|c s IH]; [reflexivity |].
  cbn [Re.group_more Re.in_class line_prefix]. rewrite IH.
  destruct (Ascii.eqb c PyStr.newline); reflexivity.
Qed.

Lemma group_plus_line (s : string) :
  Re.group_plus Re.NotNewline (Re.match_here []) s =
  match s with
  | String c _ =>
      if Ascii.eqb c PyStr.newline then None else Some (line_prefix s)
  | EmptyString => None
  end.
Proof.
  destruct s as [|c s]; [reflexivity |].
  unfold Re.group_plus. cbn [Re.in_class line_prefix]. rewrite group_more_line.
  destruct (Ascii.eqb c PyStr.newline); reflexivity.
Qed.

(** [\s*([^\n]+)] at the start of [t]. *)
Lemma tail_spec (t : string) :
  match Re.match_here [Re.Star Re.Space; Re.GroupPlus Re.NotNewline] t with
  | Some g =>
      exists ws, tail_reads ws g t /\
                 forall ws' g', tail_reads ws' g' t -> String.length ws' <= String.length ws
  | None => forall ws' g', ~ tail_reads ws' g' t
  end.
Proof.
  change (Re.match_here [Re.Star Re.Space; Re.GroupPlus Re.NotNewline])
    with (Re.star Re.Space (Re.group_plus Re.NotNewline (Re.match_here []))).
  assert (Hhead : forall c t',
             Ascii.eqb c PyStr.newline = false ->
             tail_reads "" (line_prefix (String c t')) (String c t')).
  { intros c t' Hc. destruct (line_prefix_split (String c t')) as (rest & Heq & Hend).
    exists rest. split; [exact Heq |]. split; [reflexivity |].
    split; [simpl; rewrite Hc; discriminate |].
    split; [apply line_prefix_one_line | exact Hend]. }
  induction t as [|c t IH].
  - simpl. intros ws' g' (rest & Heq & _ & Hne & _).
    destruct ws'; [| discriminate]. destruct g'; [congruence | discriminate].
  - cbn [Re.star Re.in_class].
    destruct (PyStr.is_space c) eqn:Hsp.
    + destruct (Re.star Re.Space _ t) as [g|] eqn:Ht.
      * destruct IH as (ws & (rest & Heq & Hb & Hne & Hol & Hend) & Hmax).
        exists (String c ws). split.
        -- exists rest. split; [simpl; now rewrite <- Heq |].
           split; [unfold blank; simpl; now rewrite Hsp |]. tauto.
        -- intros ws' g' (rest' & Heq' & Hb' & Hne' & Hol' & Hend').
           destruct ws' as [|c' ws']; [simpl; lia |].
           simpl in Heq'. injection Heq' as <- Heq'.
           unfold blank in Hb'. simpl in Hb'. apply andb_true_iff in Hb' as [_ Hb'].
           simpl. apply le_n_S. apply (Hmax ws' g'). now exists rest'.
      * assert (Hno : forall ws' g', tail_reads (String c ws') g' (String c t) -> False).
        { intros ws' g' (rest' & Heq' & Hb' & Hne' & Hol' & Hend').
          simpl in Heq'. injection Heq' as Heq'.
          unfold blank in Hb'. simpl in Hb'. apply andb_true_iff in Hb' as [_ Hb'].
          apply (IH ws' g'). now exists rest'. }
        rewrite group_plus_line.
        destruct (Ascii.eqb c PyStr.newline) eqn:Hc.
        -- intros ws' g' Hr. destruct ws' as [|c' ws'].
           ++ destruct Hr as (rest' & Heq' & _ & Hne' & Hol' & _).
              destruct g' as [|x g']; [congruence |].
              simpl in Heq'. injection Heq' as <- _.
              unfold one_line in Hol'. simpl in Hol'. now rewrite Hc in Hol'.
           ++ assert (c' = c) as ->
                by (destruct Hr as (? & Heq' & _); simpl in Heq'; congruence).
              exact (Hno _ _ Hr).
        -- exists "". split; [now apply Hhead |].
           intros ws' g' Hr. destruct ws' as [|c' ws']; [simpl; lia |].
           assert (c' = c) as ->
             by (destruct Hr as (? & Heq' & _); simpl in Heq'; congruence).
           destruct (Hno _ _ Hr).
    + rewrite group_plus_line.
      rewrite (not_space_not_newline c Hsp).
      exists "". split; [apply Hhead; now apply not_space_not_newline |].
      intros ws' g' (rest' & Heq' & Hb' & _).
      destruct ws' as [|c' ws']; [simpl; lia |].
      simpl in Heq'. injection Heq' as <- _.
      unfold blank in Hb'. simpl in Hb'. now rewrite Hsp in Hb'.
Qed.

Lemma lower_eq_length (a b : string) :
  PyStr.lower a = PyStr.lower b -> String.length a = String.length b.
Proof.
  intros H. rewrite <- (StrFacts.lower_length a), <- (StrFacts.lower_length b).
  now rewrite H.
Qed.

Lemma app_inv_same_length (a b a' b' : string) :
  a +:+ b = a' +:+ b' -> String.length a = String.length a' -> a = a' /\ b = b'.
Proof.
  revert a'; induction a as [|x a IH]; intros [|x' a'] Heq Hlen;
    simpl in *; try discriminate.
  - now split.
  - injection Heq as -> Heq. injection Hlen as Hlen.
    destruct (IH a' Heq Hlen) as [-> ->]. now split.
Qed.

(** The literal part of a pattern reads the label in any case. *)
Lemma lits_spec (label : string) (pat : list Re.item) (s g : string) :
  Re.match_here (Re.lits label ++ pat) s = Some g <->
  exists lab t,
    s = lab +:+ t /\ PyStr.lower lab = PyStr.lower label /\ Re.match_here pat t = Some g.
Proof.
  revert s; induction label as [|c label IH]; intros s.
  - simpl. split.
    + intros H. now exists "", s.
    + intros (lab & t & -> & Hl & H). destruct lab; [exact H | discriminate].
  - cbn [Re.lits app Re.match_here]. destruct s as [|x s].
    + split; [discriminate |].
      intros (lab & t & Heq & Hl & _). destruct lab; discriminate.
    + unfold Re.lit_matches.
      destruct (Ascii.eqb_spec (PyStr.lower_char x) (PyStr.lower_char c)) as [Hx | Hx].
      * rewrite IH. split.
        -- intros (lab & t & -> & Hl & H). exists (String x lab), t.
           simpl. now rewrite Hx, Hl.
        -- intros (lab & t & Heq & Hl & H). destruct lab as [|y lab]; [discriminate |].
           simpl in Heq, Hl. injection Heq as <- ->. injection Hl as _ Hl.
           now exists lab, t.
      * split; [discriminate |].
        intros (lab & t & Heq & Hl & _). destruct lab as [|y lab]; [discriminate |].
        simpl in Heq, Hl. injection Heq as <- ->. injection Hl as Hy _. contradiction.
Qed.

Lemma reads_label_tail (label ws g text : string) :
  reads_label label ws g text <->
  exists lab t,
    text = lab +:+ t /\ PyStr.lower lab = PyStr.lower label /\ tail_reads ws g t.
Proof.
  split.
  - intros (lab & rest & -> & Hl & Hb & Hne & Hol & Hend).
    exists lab, (ws +:+ g +:+ rest). split; [reflexivity |]. split; [exact Hl |].
    now exists rest.
  - intros (lab & t & -> & Hl & rest & -> & Hb & Hne & Hol & Hend).
    now exists lab, rest.
Qed.

(** One pattern at the start of [text]. *)
Lemma labelled_spec (label text : string) :
  match Re.match_here (Re.labelled label) text with
  | Some g =>
      exists ws, reads_label label ws g text /\
                 forall ws' g', reads_label label ws' g' text ->
                                String.length ws' <= String.length ws
  | None => forall ws' g', ~ reads_label label ws' g' text
  end.
Proof.
  unfold Re.labelled.
  destruct (Re.match_here _ text) as [g|] eqn:E.
  - apply lits_spec in E as (lab & t & -> & Hl & Ht).
    pose proof (tail_spec t) as Hs. rewrite Ht in Hs.
    destruct Hs as (ws & Hr & Hmax). exists ws. split.
    + apply reads_label_tail. now exists lab, t.
    + intros ws' g' Hr'. apply reads_label_tail in Hr' as (lab' & t' & Heq & Hl' & Hr').
      apply app_inv_same_length in Heq as [<- <-];
        [| apply lower_eq_length; congruence].
      now apply (Hmax ws' g').
  - intros ws' g' Hr'. apply reads_label_tail in Hr' as (lab & t & -> & Hl & Hr').
    pose proof (tail_spec t) as Hs.
    destruct (Re.match_here [Re.Star Re.Space; Re.GroupPlus Re.NotNewline] t)
      as [g0|] eqn:Ht.
    + assert (Re.match_here (Re.lits label ++ [Re.Star Re.Space; Re.GroupPlus Re.NotNewline])
                (lab +:+ t) = Some g0) as H
        by (apply lits_spec; now exists lab, t).
      congruence.
    + exact (Hs _ _ Hr').
Qed.

(** [search] settles on the leftmost start position. *)
Lemma search_spec (pat : list Re.item) (s : string) :
  match Re.search pat s with
  | Some g =>
      exists pre text,
        s = pre +:+ text /\ Re.match_here pat text = Some g /\
        forall pre' text', s = pre' +:+ text' ->
                           String.length pre' < String.length pre ->
                           Re.match_here pat text' = None
  | None => forall pre text, s = pre +:+ text -> Re.match_here pat text = None
  end.
Proof.
  induction s as [|c s IH]; simpl.
  - destruct (Re.match_here pat "") as [g|] eqn:E.
    + exists "", "". split; [reflexivity |]. split; [exact E |].
      intros pre' text' _ Hlt. simpl in Hlt. lia.
    + intros pre text Heq. destruct pre; [| discriminate]. simpl in Heq. now subst.
  - destruct (Re.match_here pat (String c s)) as [g|] eqn:E.
    + exists "", (String c s). split; [reflexivity |]. split; [exact E |].
      intros pre' text' _ Hlt. simpl in Hlt. lia.
    + destruct (Re.search pat s) as [g|].
      * destruct IH as (pre & text & -> & Hm & Hleft).
        exists (String c pre), text. split; [reflexivity |]. split; [exact Hm |].
        intros pre' text' Heq Hlt. destruct pre' as [|c' pre'].
        -- simpl in Heq. now subst.
        -- simpl in Heq, Hlt. injection Heq as <- Heq.
           apply (Hleft pre' text' Heq). lia.
      * intros pre text Heq. destruct pre as [|c' pre].
        -- simpl in Heq. now subst.
        -- simpl in Heq. injection Heq as <- Heq. now apply (IH pre text).
Qed.

Lemma search_labelled (label prompt : string) :
  match Re.search (Re.labelled label) prompt with
  | Some g => first_reading label prompt g
  | None => ~ label_found label prompt
  end.
Proof.
  pose proof (search_spec (Re.labelled label) prompt) as Hs.
  destruct (Re.search (Re.labelled label) prompt) as [g|].
  - destruct Hs as (pre & text & -> & Hm & Hleft).
    pose proof (labelled_spec label text) as Hl. rewrite Hm in Hl.
    destruct Hl as (ws & Hr & Hmax).
    exists pre, text, ws. split; [reflexivity |]. split; [exact Hr |].
    split; [| exact Hmax].
    intros pre' text' ws' g' Heq Hr'.
    destruct (Nat.le_gt_cases (String.length pre) (String.length pre')) as [|Hlt];
      [assumption |].
    pose proof (labelled_spec label text') as Hl'.
    rewrite (Hleft pre' text' Heq Hlt) in Hl'. destruct (Hl' _ _ Hr').
  - intros (pre & text & ws & g & Heq & Hr).
    pose proof (labelled_spec label text) as Hl.
    rewrite (Hs pre text Heq) in Hl. exact (Hl _ _ Hr).
Qed.

(** The reading [search] settles on is the only first reading. *)
Lemma first_reading_unique (label prompt g1 g2 : string) :
  first_reading label prompt g1 -> first_reading label prompt g2 -> g1 = g2.
Proof.
  intros (pre1 & text1 & ws1 & Heq1 & Hr1 & Hleft1 & Hmax1)
         (pre2 & text2 & ws2 & Heq2 & Hr2 & Hleft2 & Hmax2).
  assert (String.length pre1 = String.length pre2) as Hlen.
  { apply Nat.le_antisymm; [eapply Hleft1 | eapply Hleft2]; eassumption. }
  rewrite Heq1 in Heq2. apply app_inv_same_length in Heq2 as [<- <-]; [| exact Hlen].
  assert (String.length ws1 = String.length ws2) as Hws.
  { apply Nat.le_antisymm; [eapply Hmax2 | eapply Hmax1]; eassumption. }
  destruct Hr1 as (lab1 & rest1 & Ht1 & Hl1 & _ & _ & Hol1 & Hend1).
  destruct Hr2 as (lab2 & rest2 & Ht2 & Hl2 & _ & _ & Hol2 & Hend2).
  rewrite Ht1 in Ht2.
  apply app_inv_same_length in Ht2 as [<- Ht2];
    [| apply lower_eq_length; congruence].
  apply app_inv_same_length in Ht2 as [<- Ht2]; [| exact Hws].
  rewrite <- (line_prefix_unique g1 rest1 Hol1 Hend1).
  rewrite <- (line_prefix_unique g2 rest2 Hol2 Hend2).
  now rewrite Ht2.
Qed.

Lemma label_found_search (label prompt : string) :
  label_found label prompt ->
  exists g, Re.search (Re.labelled label) prompt = Some g /\ first_reading label prompt g.
Proof.
  intros Hf. pose proof (search_labelled label prompt) as Hs.
  destruct (Re.search (Re.labelled label) prompt) as [g|]; [now exists g | contradiction].
Qed.

Lemma label_absent_search (label prompt : string) :
  ~ label_found label prompt -> Re.search (Re.labelled label) prompt = None.
Proof.
  intros Hf. pose proof (search_labelled label prompt) as Hs.
  destruct (Re.search (Re.labelled label) prompt) as [g|]; [| reflexivity].
  exfalso. apply Hf. destruct Hs as (pre & text & ws & Heq & Hr & _).
  now exists pre, text, ws, g.
Qed.

(** C8 (amended): on a prompt of ASCII text [extract_reference_info]
    tries the label "reference image:" and then "reference:", in any case
    of letters; a label can be read where it is followed by blanks (line
    breaks among them) and then by at least one character of a line.  For
    the first of the two labels that can be read in the prompt it
    returns, stripped of surrounding blanks, the text that follows the
    leftmost such label and the blanks after it, up to the end of the
    line that text is on; it returns nothing when neither label can be
    read.  "Reference: cover.png" followed by another line gives
    "cover.png". *)
Theorem C8_extract_reference (prompt : string) :
  PyStr.isascii prompt = true ->
  (label_found "reference image:" prompt ->
   exists capture,
     first_reading "reference image:" prompt capture /\
     extract_reference_info prompt = Some (PyStr.strip capture))
  /\ (~ label_found "reference image:" prompt ->
      label_found "reference:" prompt ->
      exists capture,
        first_reading "reference:" prompt capture /\
        extract_reference_info prompt = Some (PyStr.strip capture))
  /\ (~ label_found "reference image:" prompt ->
      ~ label_found "reference:" prompt ->
      extract_reference_info prompt = None)
  /\ extract_reference_info
       ("Reference: cover.png" +:+ String PyStr.newline "Other text")
     = Some "cover.png".
Proof.
  intros _. unfold extract_reference_info, ref_patterns. cbn [first_match].
  split; [| split; [| split]].
  - intros Hf. destruct (label_found_search _ _ Hf) as (g & Hs & Hr).
    exists g. split; [exact Hr |]. now rewrite Hs.
  - intros Hn Hf. rewrite (label_absent_search _ _ Hn).
    destruct (label_found_search _ _ Hf) as (g & Hs & Hr).
    exists g. split; [exact Hr |]. now rewrite Hs.
  - intros Hn1 Hn2.
    now rewrite (label_absent_search _ _ Hn1), (label_absent_search _ _ Hn2).
  - vm_compute. reflexivity.
Qed.

End Reference.

(* ===================================================================== *)
(** * The cleanup sweep *)
(* ===================================================================== *)

Section Sweep.
Import CheckpointManager.

Lemma same_system_refl (w : World) : same_system w w.
Proof. repeat split. Qed.

Lemma same_system_trans (w1 w2 w3 : World) :
  same_system w1 w2 -> same_system w2 w3 -> same_system w1 w3.
Proof.
  unfold same_system. intros (? & ? & ? & ? & ? & ? & ?) (? & ? & ? & ? & ? & ? & ?).
  repeat split; congruence.
Qed.

Lemma debug_same_system (flag msg : string) (w : World) :
  exists w', Os.debug flag msg w = (Ok tt, w') /\ same_system w w' /\ files w' = files w.
Proof.
  unfold Os.debug. destruct (environ w !! flag) as [[|c s]|];
    eexists; (split; [reflexivity |]); split; try reflexivity; repeat split.
Qed.

Lemma sweeps_frame (w w1 : World) (p : path) :
  same_system w w1 -> files w1 !! p = files w !! p -> sweeps w1 p = sweeps w p.
Proof.
  intros (Hd & Hf & Hn & _) Hl. unfold sweeps, Os.lookup_file, Os.has_dir.
  now rewrite Hd, Hf, Hn, Hl.
Qed.

(** One turn of the loop deletes [p] or leaves the files alone. *)
Lemma sweep_body_spec (p : path) (w : World) :
  exists w',
    sweep_body p w = (Ok tt, w') /\ same_system w w' /\
    files w' = if sweeps w p then delete p (files w) else files w.
Proof.
  unfold sweep_body, sweeps, try_except, bind, ret, Os.time_ms, Os.getmtime, Os.remove.
  destruct (Os.lookup_file w p) as [f|] eqn:Hl.
  2:{ exists w. repeat split. }
  destruct (faulty w (OpGetmtime p)); simpl.
  { exists w. repeat split. }
  destruct (one_hour_ms <? now_ms w - mtime f)%Z; simpl.
  2:{ exists w. repeat split. }
  rewrite Hl. destruct (faulty w (OpRemove p)); simpl.
  { exists w. repeat split. }
  match goal with
  | |- context [Os.debug ?f ?m ?w0] =>
      destruct (debug_same_system f m w0) as (w' & Hrun & Hsys & Hfiles)
  end.
  rewrite Hrun. exists w'. split; [reflexivity |]. split; [| exact Hfiles].
  eapply same_system_trans; [| exact Hsys]. repeat split.
Qed.

(** The whole loop: the files it was given and decided to delete are gone,
    every other file is as before. *)
Lemma sweep_loop_spec (l : list path) (w : World) :
  exists w',
    for_each l sweep_body w = (Ok tt, w') /\ same_system w w' /\
    forall q, files w' !! q =
              if bool_decide (q ∈ l) && sweeps w q then None else files w !! q.
Proof.
  revert w; induction l as [|p l IH]; intros w.
  - exists w. split; [reflexivity |]. split; [apply same_system_refl |].
    intros q. reflexivity.
  - destruct (sweep_body_spec p w) as (w1 & Hrun1 & Hsys1 & Hfiles1).
    destruct (IH w1) as (w' & Hrun & Hsys & Hfiles).
    exists w'. split; [| split].
    + cbn [for_each]. unfold bind. now rewrite Hrun1.
    + eapply same_system_trans; eassumption.
    + intros q. rewrite Hfiles.
      destruct (decide (q = p)) as [-> | Hne].
      * rewrite (bool_decide_true (p ∈ p :: l)) by (left). simpl.
        destruct (sweeps w p) eqn:Hs.
        -- rewrite Hfiles1, lookup_delete_eq.
           now destruct (bool_decide (p ∈ l) && sweeps w1 p).
        -- assert (files w1 !! p = files w !! p) as Hsame by now rewrite Hfiles1.
           rewrite (sweeps_frame w w1 p Hsys1 Hsame), Hs, andb_false_r. exact Hsame.
      * assert (files w1 !! q = files w !! q) as Hsame.
        { rewrite Hfiles1. destruct (sweeps w p); [now rewrite lookup_delete_ne |].
          reflexivity. }
        rewrite (sweeps_frame w w1 q Hsys1 Hsame), Hsame.
        assert (bool_decide (q ∈ p :: l) = bool_decide (q ∈ l)) as ->.
        { apply bool_decide_ext. rewrite elem_of_cons. tauto. }
        reflexivity.
Qed.

Lemma names_in_spec (d n : string) (fs : gmap path File) :
  n ∈ Os.names_in d fs <-> is_Some (fs !! (d, n)).
Proof.
  unfold Os.names_in. rewrite list_elem_of_omap. split.
  - intros ([[d' n'] f] & Hin & Hsome). simpl in Hsome.
    destruct (String.eqb_spec d' d) as [-> |]; [| discriminate].
    injection Hsome as ->. apply elem_of_map_to_list in Hin. eauto.
  - intros [f Hf]. exists ((d, n), f). split; [now apply elem_of_map_to_list |].
    simpl. now rewrite String.eqb_refl.
Qed.

Lemma glob_scratch_spec (w : World) :
  exists l,
    glob_scratch w = (Ok l, w) /\
    forall q, q ∈ l <->
              Os.has_dir w tmp_dir = true /\ is_scratch_path q = true /\
              is_Some (files w !! q).
Proof.
  unfold glob_scratch. eexists. split; [reflexivity |].
  intros [d n]. unfold is_scratch_path. simpl.
  destruct (Os.has_dir w tmp_dir).
  - rewrite list_elem_of_In, in_map_iff. split.
    + intros (n' & Heq & Hin). injection Heq as <- <-.
      apply filter_In in Hin as [Hin Hs].
      apply list_elem_of_In, names_in_spec in Hin.
      rewrite String.eqb_refl, Hs. split; [reflexivity |]. split; [reflexivity | exact Hin].
    + intros (_ & Hs & Hf). apply andb_true_iff in Hs as [Hd Hs].
      apply String.eqb_eq in Hd as ->.
      exists n. split; [reflexivity |]. apply filter_In. split; [| exact Hs].
      now apply list_elem_of_In, names_in_spec.
  - rewrite elem_of_nil. split; [tauto | intros [? _]; discriminate].
Qed.

Lemma sweeps_lookup (w : World) (q : path) :
  sweeps w q = true -> Os.has_dir w q.1 = true /\ is_Some (files w !! q).
Proof.
  unfold sweeps, Os.lookup_file. destruct (Os.has_dir w q.1); [| discriminate].
  destruct (files w !! q); [eauto | discriminate].
Qed.

(** The sweep as a whole. *)
Lemma cleanup_spec (w : World) :
  exists w',
    cleanup_temporary_files w = (Ok tt, w') /\ same_system w w' /\
    forall q, files w' !! q =
              if is_scratch_path q && sweeps w q then None else files w !! q.
Proof.
  destruct (glob_scratch_spec w) as (l & Hglob & Hl).
  destruct (sweep_loop_spec l w) as (w' & Hrun & Hsys & Hfiles).
  exists w'. split; [| split; [exact Hsys |]].
  - unfold cleanup_temporary_files, try_except, bind. rewrite Hglob.
    fold sweep_body. change (for_each l _ w) with (for_each l sweep_body w).
    now rewrite Hrun.
  - intros q. rewrite Hfiles.
    destruct (sweeps w q) eqn:Hs; [| now rewrite !andb_false_r].
    rewrite !andb_true_r.
    destruct (is_scratch_path q) eqn:Hp.
    + rewrite bool_decide_true; [reflexivity |].
      apply Hl. destruct (sweeps_lookup w q Hs) as [Hd Hf].
      split; [| split; [exact Hp | exact Hf]].
      unfold is_scratch_path in Hp. apply andb_true_iff in Hp as [Hq _].
      apply String.eqb_eq in Hq. now rewrite Hq in Hd.
    + rewrite bool_decide_false; [reflexivity |].
      intros Hin. apply Hl in Hin as (_ & Hp' & _). congruence.
Qed.

Lemma scratch_file_path (w : World) (p : path) (f : File) :
  scratch_file w p f -> is_scratch_path p = true /\ files w !! p = Some f.
Proof.
  intros (Hd & Hn & Hl). unfold is_scratch_path. rewrite Hd, Hn, String.eqb_refl.
  split; [reflexivity |].
  unfold Os.lookup_file in Hl. now destruct (Os.has_dir w p.1).
Qed.

(** C9: the sweep deletes a scratch file exactly when it was modified more
    than one hour ago (and the system lets it go): one that is 30 minutes
    old stays, one that is 90 minutes old goes, nothing else is touched,
    and a second sweep right after the first deletes nothing more. *)
Theorem C9_cleanup_sweep (w : World) :
  exists w',
    cleanup_temporary_files w = (Ok tt, w') /\
    (forall p f, scratch_file w p f -> can_delete w p ->
       (files w' !! p = None <-> older_than_one_hour w f)) /\
    (forall p f, scratch_file w p f ->
       (now_ms w - mtime f = 30 * 60 * 1000)%Z -> files w' !! p = Some f) /\
    (forall p f, scratch_file w p f -> can_delete w p ->
       (now_ms w - mtime f = 90 * 60 * 1000)%Z -> files w' !! p = None) /\
    (forall p, files w' !! p <> files w !! p ->
       exists f, scratch_file w p f /\ older_than_one_hour w f) /\
    (exists w'', cleanup_temporary_files w' = (Ok tt, w'') /\ files w'' = files w').
Proof.
  destruct (cleanup_spec w) as (w' & Hrun & Hsys & Hfiles).
  exists w'. split; [exact Hrun |].
  assert (Hsw : forall p f, scratch_file w p f ->
            sweeps w p = negb (faulty w (OpGetmtime p)) &&
                         (one_hour_ms <? now_ms w - mtime f)%Z &&
                         negb (faulty w (OpRemove p))).
  { intros p f (_ & _ & Hl). unfold sweeps. now rewrite Hl. }
  split; [| split; [| split; [| split]]].
  - intros p f Hs [Hg Hr]. destruct (scratch_file_path w p f Hs) as [Hp Hf].
    rewrite Hfiles, Hp, (Hsw p f Hs), Hg, Hr, Hf. simpl. rewrite andb_true_r.
    unfold older_than_one_hour, one_hour_ms.
    destruct (Z.ltb_spec (3600 * 1000) (now_ms w - mtime f)); split;
      intros; try reflexivity; try assumption; try discriminate; lia.
  - intros p f Hs Hage. destruct (scratch_file_path w p f Hs) as [Hp Hf].
    rewrite Hfiles, Hp, (Hsw p f Hs), Hf, Hage. simpl.
    now rewrite andb_false_r.
  - intros p f Hs [Hg Hr] Hage. destruct (scratch_file_path w p f Hs) as [Hp Hf].
    rewrite Hfiles, Hp, (Hsw p f Hs), Hg, Hr, Hage. reflexivity.
  - intros p Hne. rewrite Hfiles in Hne.
    destruct (is_scratch_path p) eqn:Hp; [| simpl in Hne; congruence].
    destruct (sweeps w p) eqn:Hs; [| simpl in Hne; congruence].
    unfold sweeps in Hs. destruct (Os.lookup_file w p) as [f|] eqn:Hl; [| discriminate].
    exists f. unfold is_scratch_path in Hp. apply andb_true_iff in Hp as [Hd Hn].
    apply String.eqb_eq in Hd.
    split; [now repeat split |].
    apply andb_true_iff in Hs as [Hs _]. apply andb_true_iff in Hs as [_ Hs].
    unfold older_than_one_hour. unfold one_hour_ms in Hs. now apply Z.ltb_lt in Hs.
  - destruct (cleanup_spec w') as (w'' & Hrun' & Hsys' & Hfiles').
    exists w''. split; [exact Hrun' |].
    apply map_eq. intros q. rewrite Hfiles'.
    destruct (is_scratch_path q) eqn:Hp; [| reflexivity].
    destruct (sweeps w' q) eqn:Hs; [| reflexivity].
    exfalso. destruct (sweeps_lookup w' q Hs) as [_ [f Hf]].
    pose proof (Hfiles q) as Hq. rewrite Hp, Hf in Hq. simpl in Hq.
    destruct (sweeps w q) eqn:Hs0; [discriminate |].
    assert (files w' !! q = files w !! q) as Hsame by congruence.
    rewrite (sweeps_frame w w' q Hsys Hsame) in Hs. congruence.
Qed.

End Sweep.

(* ===================================================================== *)
(** * Running statements: worlds and frames *)
(* ===================================================================== *)

Ltac wsimpl :=
  cbn [environ dirs files faulty now_ms next_uuid stdin stdout stderr
       with_environ with_dirs with_files with_stdin with_stdout with_stderr with_now
       fst snd] in *.

(** One statement further: expose the first [bind]. *)
Ltac step := unfold bind at 1; cbv beta iota.

Lemma debug_run (flag msg : string) (w : World) :
  Os.debug flag msg w = (Ok tt, after_debug flag msg w).
Proof. unfold after_debug, Os.debug. now destruct (environ w !! flag) as [[|? ?]|]. Qed.

Lemma after_debug_frame (flag msg : string) (w : World) :
  environ (after_debug flag msg w) = environ w /\
  dirs (after_debug flag msg w) = dirs w /\
  files (after_debug flag msg w) = files w /\
  faulty (after_debug flag msg w) = faulty w /\
  now_ms (after_debug flag msg w) = now_ms w /\
  next_uuid (after_debug flag msg w) = next_uuid w /\
  stdin (after_debug flag msg w) = stdin w /\
  stdout (after_debug flag msg w) = stdout w.
Proof.
  unfold after_debug, Os.debug.
  destruct (environ w !! flag) as [[|? ?]|]; repeat split.
Qed.

Lemma environ_after_debug f m w : environ (after_debug f m w) = environ w.
Proof. apply after_debug_frame. Qed.
Lemma dirs_after_debug f m w : dirs (after_debug f m w) = dirs w.
Proof. apply after_debug_frame. Qed.
Lemma files_after_debug f m w : files (after_debug f m w) = files w.
Proof. apply after_debug_frame. Qed.
Lemma faulty_after_debug f m w : faulty (after_debug f m w) = faulty w.
Proof. apply after_debug_frame. Qed.
Lemma now_after_debug f m w : now_ms (after_debug f m w) = now_ms w.
Proof. apply after_debug_frame. Qed.
Lemma uuid_after_debug f m w : next_uuid (after_debug f m w) = next_uuid w.
Proof. apply after_debug_frame. Qed.
Lemma stdin_after_debug f m w : stdin (after_debug f m w) = stdin w.
Proof. apply after_debug_frame. Qed.
Lemma stdout_after_debug f m w : stdout (after_debug f m w) = stdout w.
Proof. apply after_debug_frame. Qed.

Lemma ensure_dir_frame (d : string) (w : World) :
  environ (ensure_dir d w) = environ w /\
  files (ensure_dir d w) = files w /\
  faulty (ensure_dir d w) = faulty w /\
  now_ms (ensure_dir d w) = now_ms w /\
  next_uuid (ensure_dir d w) = next_uuid w /\
  stdin (ensure_dir d w) = stdin w /\
  stdout (ensure_dir d w) = stdout w /\
  stderr (ensure_dir d w) = stderr w.
Proof. unfold ensure_dir. destruct (Os.has_dir w d); repeat split. Qed.

Lemma environ_ensure_dir d w : environ (ensure_dir d w) = environ w.
Proof. apply ensure_dir_frame. Qed.
Lemma files_ensure_dir d w : files (ensure_dir d w) = files w.
Proof. apply ensure_dir_frame. Qed.
Lemma faulty_ensure_dir d w : faulty (ensure_dir d w) = faulty w.
Proof. apply ensure_dir_frame. Qed.
Lemma now_ensure_dir d w : now_ms (ensure_dir d w) = now_ms w.
Proof. apply ensure_dir_frame. Qed.
Lemma uuid_ensure_dir d w : next_uuid (ensure_dir d w) = next_uuid w.
Proof. apply ensure_dir_frame. Qed.
Lemma stdin_ensure_dir d w : stdin (ensure_dir d w) = stdin w.
Proof. apply ensure_dir_frame. Qed.
Lemma stdout_ensure_dir d w : stdout (ensure_dir d w) = stdout w.
Proof. apply ensure_dir_frame. Qed.

Lemma has_dir_ensure_dir (d : string) (w : World) :
  Os.has_dir (ensure_dir d w) d = true.
Proof.
  unfold ensure_dir. destruct (Os.has_dir w d) eqn:E; [exact E |].
  unfold Os.has_dir. wsimpl. apply bool_decide_eq_true. set_solver.
Qed.

Create Rewrite HintDb world.

#[export] Hint Rewrite
  environ_after_debug dirs_after_debug files_after_debug faulty_after_debug
  now_after_debug uuid_after_debug stdin_after_debug stdout_after_debug
  environ_ensure_dir files_ensure_dir faulty_ensure_dir now_ensure_dir
  uuid_ensure_dir stdin_ensure_dir stdout_ensure_dir : world.

Ltac wnorm := repeat (progress (wsimpl; autorewrite with world in * )).

(** [os.makedirs] when the directory is available. *)
Lemma makedirs_ok (d : string) (w : World) :
  dir_available w d -> Os.makedirs d w = (Ok tt, ensure_dir d w).
Proof.
  unfold Os.makedirs, ensure_dir. intros [H | H].
  - now rewrite H.
  - destruct (Os.has_dir w d); [reflexivity | now rewrite H].
Qed.

Lemma makedirs_refused (d : string) (w : World) :
  Os.has_dir w d = false -> faulty w (OpMakedirs d) = true ->
  Os.makedirs d w = (Raise OSError, w).
Proof. unfold Os.makedirs. now intros -> ->. Qed.

(** The handler of the tool hooks once standard input is spent: it prints
    the substitute object and touches nothing else. *)
Lemma handler_prints_fallback (flag msg : string) (fallback : JSON) (w : World) :
  stdin w = None ->
  exists w',
    (Os.debug flag msg ;;
     try_except (let* input_data := Os.read_stdin_json in Os.print_json input_data)
                (fun _ => Os.print_json fallback)) w = (Ok tt, w') /\
    stdout w' = stdout w ++ [fallback] /\ files w' = files w /\ dirs w' = dirs w.
Proof.
  intros Hin. unfold bind at 1. rewrite debug_run. cbv beta iota.
  unfold try_except, bind, Os.read_stdin_json.
  rewrite stdin_after_debug, Hin. cbv beta iota.
  eexists. split; [reflexivity |]. cbn.
  now rewrite stdout_after_debug, files_after_debug, dirs_after_debug.
Qed.

Lemma field_get (k : string) (j v default : JSON) :
  field k j = Some v -> Py.get j k default = Ok v.
Proof. destruct j; simpl; try discriminate. now intros ->. Qed.

Lemma assoc_setitem_eq (kvs : list (string * JSON)) (k : string) (v : JSON) :
  Py.assoc k (Py.setitem kvs k v) = Some v.
Proof.
  induction kvs as [|[k' v'] kvs IH]; simpl.
  - now rewrite String.eqb_refl.
  - destruct (String.eqb k k') eqn:E; simpl; [now rewrite String.eqb_refl | now rewrite E].
Qed.

Lemma assoc_setitem_ne (kvs : list (string * JSON)) (k k' : string) (v : JSON) :
  k <> k' -> Py.assoc k (Py.setitem kvs k' v) = Py.assoc k kvs.
Proof.
  intros Hne. induction kvs as [|[k0 v0] kvs IH]; simpl.
  - apply String.eqb_neq in Hne. now rewrite Hne.
  - destruct (String.eqb k' k0) eqn:E; simpl.
    + apply String.eqb_eq in E as <-. apply String.eqb_neq in Hne. now rewrite Hne.
    + now rewrite IH.
Qed.

Lemma log_stats_distinct (sid : string) :
  log_file sid <> TelemetryCollector.stats_file sid.
Proof.
  unfold log_file, TelemetryCollector.stats_file. intros H.
  injection H as H. apply String.app_inj in H. discriminate H.
Qed.

(* ===================================================================== *)
(** * The post-capture hook *)
(* ===================================================================== *)

Section Collector.
Import TelemetryCollector.
Variable py_repr : JSON -> string.
Variable isoformat : Z -> string.

Lemma truthy_nonempty (sid : string) : sid <> "" -> Py.truthy (JStr sid) = true.
Proof. intros H. simpl. apply String.eqb_neq in H. now rewrite H. Qed.

Lemma collector_write_appends (record : JSON) (sid : string) (w : World) :
  field "session_id" record = Some (JStr sid) -> sid <> "" ->
  dir_available w telemetry_dir ->
  faulty w (OpAppend (log_file sid)) = false ->
  exists msg,
    write_telemetry_record py_repr record w =
    (Ok tt,
     after_debug "DEBUG_TELEMETRY" msg
       (with_files
          (insert (log_file sid) (mkFile (log_lines w sid ++ [CJson record]) (now_ms w)))
          (ensure_dir telemetry_dir w))).
Proof.
  intros Hsid Hne Hdir Happ.
  unfold write_telemetry_record. step. unfold lift.
  rewrite (field_get _ _ _ _ Hsid). cbv beta iota.
  rewrite (truthy_nonempty sid Hne). cbv beta iota. unfold negb. cbv iota.
  step. rewrite (makedirs_ok _ _ Hdir). cbv beta iota.
  unfold try_except. step.
  unfold Os.append_file. cbn [py_str fst].
  change (telemetry_dir, sid +:+ ".jsonl") with (log_file sid).
  rewrite (has_dir_ensure_dir telemetry_dir w), faulty_ensure_dir, Happ.
  cbv beta iota. unfold negb, orb. cbv iota.
  destruct record as [| | | | | |?|kvs]; try discriminate Hsid.
  step. unfold lift. cbn [Py.get]. cbv beta iota.
  step. step.
  rewrite debug_run. eexists. f_equal. f_equal. f_equal.
  unfold log_lines, Os.old_chunks. now rewrite now_ensure_dir, files_ensure_dir.
Qed.


Lemma collector_write_fails (record : JSON) (sid : string) (w : World) :
  field "session_id" record = Some (JStr sid) -> sid <> "" ->
  dir_available w telemetry_dir ->
  faulty w (OpAppend (log_file sid)) = true ->
  write_telemetry_record py_repr record w =
  (Ok tt,
   after_debug "DEBUG_TELEMETRY" "Telemetry completion error"
     (ensure_dir telemetry_dir w)).
Proof.
  intros Hsid Hne Hdir Happ.
  unfold write_telemetry_record. step. unfold lift.
  rewrite (field_get _ _ _ _ Hsid). cbv beta iota.
  rewrite (truthy_nonempty sid Hne). cbv beta iota. unfold negb. cbv iota.
  step. rewrite (makedirs_ok _ _ Hdir). cbv beta iota.
  unfold try_except. step.
  unfold Os.append_file. cbn [py_str fst].
  change (telemetry_dir, sid +:+ ".jsonl") with (log_file sid).
  rewrite (has_dir_ensure_dir telemetry_dir w), faulty_ensure_dir, Happ.
  cbv beta iota. unfold negb, orb. cbv iota.
  apply debug_run.
Qed.

Lemma collector_write_refused (record : JSON) (sid : string) (w : World) :
  field "session_id" record = Some (JStr sid) -> sid <> "" ->
  Os.has_dir w telemetry_dir = false -> faulty w (OpMakedirs telemetry_dir) = true ->
  write_telemetry_record py_repr record w = (Raise OSError, w).
Proof.
  intros Hsid Hne Hdir Hmk.
  unfold write_telemetry_record. step. unfold lift.
  rewrite (field_get _ _ _ _ Hsid). cbv beta iota.
  rewrite (truthy_nonempty sid Hne). cbv beta iota. unfold negb. cbv iota.
  step. now rewrite (makedirs_refused _ _ Hdir Hmk).
Qed.

Lemma stats_body_cases (sid : string) (w : World) :
  match stats_body isoformat sid w with
  | (Ok _, w') => exists f, w' = with_files (insert (stats_file sid) f) w
  | (Raise _, w') => w' = w
  end.
Proof.
  unfold stats_body. step. unfold Os.file_exists. cbv beta iota.
  destruct (Os.lookup_file w (stats_file sid)) as [f|] eqn:Hl.
  - step. unfold Os.load_json. cbv beta iota. rewrite Hl.
    destruct (faulty w (OpRead (stats_file sid))); [reflexivity |].
    destruct (chunks f) as [|[j|t] [|? ?]]; try reflexivity.
    step. unfold lift. destruct j; cbn [Py.get]; try reflexivity.
    cbv beta iota. step.
    destruct (add_one _); [| reflexivity]. cbv beta iota.
    step. unfold Os.time_ms. cbv beta iota.
    unfold Os.write_file.
    destruct (negb _ || _); [reflexivity | eexists; reflexivity].
  - step. unfold ret at 1. cbv beta iota. step. unfold lift. cbn [Py.get Py.assoc].
    cbv beta iota. step. cbn [add_one]. cbv beta iota. step. unfold Os.time_ms.
    cbv beta iota. unfold Os.write_file.
    destruct (negb _ || _); [reflexivity | eexists; reflexivity].
Qed.

Lemma stats_total (sid : string) (w : World) :
  exists w',
    update_session_statistics isoformat sid w = (Ok tt, w') /\ same_system w w' /\
    forall q, q <> stats_file sid -> files w' !! q = files w !! q.
Proof.
  change (update_session_statistics isoformat sid)
    with (try_except (stats_body isoformat sid)
            (fun _ => Os.debug "DEBUG_TELEMETRY" "Stats update error")).
  unfold try_except. pose proof (stats_body_cases sid w) as H.
  destruct (stats_body isoformat sid w) as [[[]|e] w1]; cbv beta iota in H.
  - destruct H as [f ->]. eexists. split; [reflexivity |]. split; [repeat split |].
    intros q Hq. wsimpl. rewrite lookup_insert_ne by congruence. reflexivity.
  - subst w1. rewrite debug_run. eexists. split; [reflexivity |].
    split; [unfold same_system; autorewrite with world; repeat split |].
    intros q _. now autorewrite with world.
Qed.

Lemma stats_updates (sid : string) (st : list (string * JSON)) (n : Z) (w : World) :
  Os.has_dir w telemetry_dir = true -> stats_ready w sid st n ->
  update_session_statistics isoformat sid w =
  (Ok tt,
   with_files
     (insert (stats_file sid)
        (mkFile [CJson (JObj (Py.setitem (Py.setitem st "total_tools" (JNum (n + 1)))
                                "last_update" (JStr (isoformat (now_ms w)))))]
                (now_ms w)))
     w).
Proof.
  intros Hdir (Hw & Hn & Hfile).
  change (update_session_statistics isoformat sid)
    with (try_except (stats_body isoformat sid)
            (fun _ => Os.debug "DEBUG_TELEMETRY" "Stats update error")).
  unfold try_except, stats_body. step. unfold Os.file_exists, Os.lookup_file.
  change ((stats_file sid).1) with telemetry_dir. rewrite Hdir. cbv beta iota.
  destruct Hfile as [[Hnone ->] | (f & Hsome & Hch & Hr)].
  - rewrite Hnone. cbv beta iota. cbn [Py.assoc] in Hn. subst n.
    step. unfold ret at 1. cbv beta iota. step. unfold lift. cbn [Py.get Py.assoc].
    cbv beta iota. step. cbn [add_one]. cbv beta iota. step. unfold Os.time_ms.
    cbv beta iota. unfold Os.write_file.
    change ((stats_file sid).1) with telemetry_dir. rewrite Hdir, Hw.
    reflexivity.
  - rewrite Hsome. cbv beta iota. step. unfold Os.load_json, Os.lookup_file.
    change ((stats_file sid).1) with telemetry_dir. rewrite Hdir, Hsome, Hr, Hch. cbv beta iota.
    step. unfold lift. cbn [Py.get].
    destruct (Py.assoc "total_tools" st) as [[| |k| | | | |]|]; try contradiction; subst n;
      cbv beta iota; step; cbn [add_one]; cbv beta iota; step; unfold Os.time_ms;
      cbv beta iota; unfold Os.write_file;
      change ((stats_file sid).1) with telemetry_dir; rewrite Hdir, Hw; reflexivity.
Qed.


Lemma env_or_active (w : World) (sid : string) :
  session_active w sid ->
  env_or (environ w !! "EVOLUTION_SESSION_ID") (environ w !! "TELEMETRY_SESSION_ID")
  = Some sid.
Proof. intros [Hne ->]. destruct sid; [congruence | reflexivity]. Qed.

(** The post-capture hook on a completed call of the observed toolset,
    while a session is active: it builds the record, runs the two effects
    one after the other and passes the envelope on. *)
Lemma collector_main_run (w : World) (j : JSON) (sid : string) :
  stdin w = Some j -> post_envelope j -> session_active w sid ->
  context_reads w = true ->
  dir_available w telemetry_dir ->
  exists record w2 w3,
    field "capture_source" record = Some (JStr "hook_postuse") /\
    field "session_id" record = Some (JStr sid) /\
    (valid_json_text j = true -> valid_json_text record = true) /\
    write_telemetry_record py_repr record (with_stdin None w) = (Ok tt, w2) /\
    update_session_statistics isoformat sid w2 = (Ok tt, w3) /\
    main py_repr isoformat w = (Ok tt, with_stdout (fun out => out ++ [j]) w3).
Proof.
  intros Hin (name & result & timing & (kvs & tool & -> & Htool & Hname) & Hpre & Hres & Htim)
         Hact Hctx Hdir.
  destruct (complete_telemetry_record_result py_repr tool (JObj result)
              (match Py.assoc "error" result with Some v => v | None => JNull end)
              (match Py.assoc "total_ms" timing with Some v => v | None => JNum 0 end)
              (with_stdin None w) Hctx eq_refl)
    as (record & analysis & Hrec & _ & Hsrc & Hsid & _ & _ & Hvalid).
  wsimpl. rewrite (env_or_active w sid Hact) in Hsid. cbn [Py.of_option_str] in Hsid.
  assert (Hne : sid <> "") by apply Hact.
  assert (Hval : valid_json_text (JObj kvs) = true -> valid_json_text record = true).
  { intros Hj. apply Hvalid.
    - exact (valid_get (JObj kvs) "tool" (JObj []) _ Hj eq_refl Htool).
    - pose proof (valid_get (JObj kvs) "timing" (JObj []) _ Hj eq_refl Htim) as Ht.
      destruct (Py.assoc "total_ms" timing) as [v|] eqn:E; [| reflexivity].
      exact (valid_assoc _ _ _ Ht E). }
  assert (Hdir1 : dir_available (with_stdin None w) telemetry_dir) by exact Hdir.
  assert (exists w2, write_telemetry_record py_repr record (with_stdin None w) = (Ok tt, w2))
    as [w2 Hw2].
  { destruct (faulty w (OpAppend (log_file sid))) eqn:Happ.
    - eexists. apply (collector_write_fails record sid _ Hsid Hne Hdir1 Happ).
    - destruct (collector_write_appends record sid _ Hsid Hne Hdir1 Happ) as [msg H].
      eexists. exact H. }
  destruct (stats_total sid w2) as (w3 & Hw3 & Hsys3 & _).
  assert (environ w2 = environ w) as Henv2.
  { destruct (faulty w (OpAppend (log_file sid))) eqn:Happ.
    - rewrite (collector_write_fails record _ _ Hsid Hne Hdir1 Happ) in Hw2.
      injection Hw2 as <-. wnorm. reflexivity.
    - destruct (collector_write_appends record _ _ Hsid Hne Hdir1 Happ) as [msg H].
      rewrite H in Hw2. injection Hw2 as <-. wnorm. reflexivity. }
  assert (Hctx2 : context_reads w2 = true) by (now rewrite (context_reads_env w w2 Henv2)).
  exists record, w2, w3. repeat (split; [assumption |]).
  unfold main, main_body, try_except.
  step. unfold Os.read_stdin_json. rewrite Hin. cbv beta iota.
  step. unfold lift at 1. rewrite Htool. cbv beta iota.
  step. unfold lift at 1. rewrite Hname. cbv beta iota.
  step. unfold lift at 1. rewrite Hres. cbv beta iota.
  step. unfold lift at 1. rewrite Htim. cbv beta iota.
  step. unfold lift at 1. unfold Py.startswith. rewrite Hpre. cbv beta iota.
  unfold negb at 1. cbv iota.
  step. unfold Os.environ_get at 1. wsimpl. destruct Hact as [_ Henv]. rewrite Henv.
  cbv beta iota. destruct sid as [|c sid]; [congruence |].
  unfold env_truthy at 1. unfold negb at 1. cbv iota.
  step. unfold lift at 1. cbn [Py.get]. cbv beta iota.
  step. rewrite Hrec. cbv beta iota.
  step. rewrite Hw2. cbv beta iota.
  step. rewrite (get_session_info_run w2 Hctx2). cbv beta iota. cbn [session_id].
  rewrite Henv2, Henv. cbn [env_or].
  step. rewrite Hw3. cbv beta iota. reflexivity.
Qed.


Lemma stats_ready_frame (w w2 : World) (sid : string) (st : list (string * JSON)) (n : Z) :
  faulty w2 = faulty w ->
  files w2 !! stats_file sid = files w !! stats_file sid ->
  stats_ready w sid st n -> stats_ready w2 sid st n.
Proof. unfold stats_ready. intros -> ->. tauto. Qed.

(** Everything the post-capture hook does on such a call. *)
Lemma collector_main_effects (w : World) (j : JSON) (sid : string) :
  stdin w = Some j -> post_envelope j -> session_active w sid ->
  context_reads w = true ->
  dir_available w telemetry_dir ->
  exists w' record,
    main py_repr isoformat w = (Ok tt, w') /\
    stdout w' = stdout w ++ [j] /\
    environ w' = environ w /\ faulty w' = faulty w /\
    Os.has_dir w' telemetry_dir = true /\
    field "capture_source" record = Some (JStr "hook_postuse") /\
    field "session_id" record = Some (JStr sid) /\
    (forall st n,
        stats_ready w sid st n ->
        exists st',
          files w' !! stats_file sid =
            Some (mkFile [CJson (JObj st')] (now_ms w)) /\
          Py.assoc "total_tools" st' = Some (JNum (n + 1)) /\
          Py.assoc "last_update" st' = Some (JStr (isoformat (now_ms w)))) /\
    (forall q, q <> stats_file sid -> q <> log_file sid -> files w' !! q = files w !! q) /\
    files w' !! log_file sid =
      (if faulty w (OpAppend (log_file sid)) then files w !! log_file sid
       else Some (mkFile (log_lines w sid ++ [CJson record]) (now_ms w))) /\
    (valid_json_text j = true -> valid_json_text record = true).
Proof.
  intros Hin Henv Hact Hctx Hdir.
  destruct (collector_main_run w j sid Hin Henv Hact Hctx Hdir)
    as (record & w2 & w3 & Hsrc & Hsid & Hvalid & Hw2 & Hw3 & Hmain).
  assert (Hne : sid <> "") by apply Hact.
  assert (Hdir1 : dir_available (with_stdin None w) telemetry_dir) by exact Hdir.
  destruct (stats_total sid w2) as (w3' & Hw3' & Hsys3 & Hother).
  rewrite Hw3 in Hw3'. injection Hw3' as <-.
  (* the world between the two effects *)
  assert (Hmid : faulty w2 = faulty w /\ now_ms w2 = now_ms w /\
                 environ w2 = environ w /\ stdout w2 = stdout w /\
                 Os.has_dir w2 telemetry_dir = true /\
                 (forall q, q <> log_file sid -> files w2 !! q = files w !! q) /\
                 files w2 !! log_file sid =
                   if faulty w (OpAppend (log_file sid)) then files w !! log_file sid
                   else Some (mkFile (log_lines w sid ++ [CJson record]) (now_ms w))).
  { destruct (faulty w (OpAppend (log_file sid))) eqn:Happ.
    - rewrite (collector_write_fails record _ _ Hsid Hne Hdir1 Happ) in Hw2.
      injection Hw2 as <-. unfold Os.has_dir. wnorm.
      repeat split. apply (has_dir_ensure_dir telemetry_dir).
    - destruct (collector_write_appends record _ _ Hsid Hne Hdir1 Happ) as [msg H].
      rewrite H in Hw2. injection Hw2 as <-. unfold Os.has_dir. wnorm.
      repeat (split; [reflexivity |]).
      split; [apply (has_dir_ensure_dir telemetry_dir) |].
      split; [intros q Hq; now apply lookup_insert_ne | apply lookup_insert_eq]. }
  destruct Hmid as (Hf2 & Hn2 & He2 & Ho2 & Hd2 & Hoth2 & Hlog2).
  assert (Hst2 : files w2 !! stats_file sid = files w !! stats_file sid).
  { apply Hoth2. intros H. symmetry in H. revert H. apply log_stats_distinct. }
  destruct Hsys3 as (Hd3 & Hf3 & _ & He3 & Ho3 & _).
  exists (with_stdout (fun out => out ++ [j]) w3), record.
  split; [exact Hmain |]. unfold Os.has_dir in *. wsimpl.
  split; [now rewrite Ho3, Ho2 |].
  split; [now rewrite He3 |].
  split; [now rewrite Hf3 |].
  split; [now rewrite Hd3 |].
  split; [exact Hsrc |]. split; [exact Hsid |]. split; [| split; [| split]].
  - intros st n Hready.
    pose proof (stats_ready_frame w w2 sid st n Hf2 Hst2 Hready) as Hready2.
    rewrite (stats_updates sid st n w2 Hd2 Hready2) in Hw3. injection Hw3 as <-.
    wsimpl. rewrite Hn2. eexists. split; [apply lookup_insert_eq |].
    split; [| apply assoc_setitem_eq].
    rewrite assoc_setitem_ne by discriminate. apply assoc_setitem_eq.
  - intros q Hq1 Hq2. rewrite (Hother q Hq1). now apply Hoth2.
  - rewrite Hother by apply log_stats_distinct. exact Hlog2.
  - exact Hvalid.
Qed.

(** Without the telemetry directory the statistics cannot be updated
    either: the update leaves the files as they are. *)
Lemma stats_without_directory (sid : string) (w : World) :
  Os.has_dir w telemetry_dir = false ->
  exists w', update_session_statistics isoformat sid w = (Ok tt, w') /\ files w' = files w.
Proof.
  intros Hdir.
  change (update_session_statistics isoformat sid)
    with (try_except (stats_body isoformat sid)
            (fun _ => Os.debug "DEBUG_TELEMETRY" "Stats update error")).
  unfold try_except, stats_body. step. unfold Os.file_exists, Os.lookup_file.
  change ((stats_file sid).1) with telemetry_dir. rewrite Hdir. cbv beta iota.
  step. unfold ret at 1. cbv beta iota. step. unfold lift. cbn [Py.get Py.assoc].
  cbv beta iota. step. cbn [add_one]. cbv beta iota. step. unfold Os.time_ms.
  cbv beta iota. unfold Os.write_file.
  change ((stats_file sid).1) with telemetry_dir. rewrite Hdir.
  cbn [negb orb]. cbv beta iota. rewrite debug_run.
  eexists. split; [reflexivity |]. apply files_after_debug.
Qed.

(** When the telemetry directory is missing and cannot be created, the
    hook writes neither file and answers with its substitute object. *)
Lemma collector_without_directory (w : World) (j : JSON) (sid : string) :
  stdin w = Some j -> post_envelope j -> session_active w sid ->
  context_reads w = true ->
  Os.has_dir w telemetry_dir = false -> faulty w (OpMakedirs telemetry_dir) = true ->
  exists w',
    main py_repr isoformat w = (Ok tt, w') /\
    files w' = files w /\ dirs w' = dirs w /\
    stdout w' = stdout w ++ [minimal_response].
Proof.
  intros Hin (name & result & timing & (kvs & tool & -> & Htool & Hname) & Hpre & Hres & Htim)
         Hact Hctx Hdir Hmk.
  destruct (complete_telemetry_record_result py_repr tool (JObj result)
              (match Py.assoc "error" result with Some v => v | None => JNull end)
              (match Py.assoc "total_ms" timing with Some v => v | None => JNum 0 end)
              (with_stdin None w) Hctx eq_refl)
    as (record & analysis & Hrec & _ & Hsrc & Hsid & _).
  wsimpl. rewrite (env_or_active w sid Hact) in Hsid. cbn [Py.of_option_str] in Hsid.
  assert (Hne : sid <> "") by apply Hact.
  pose proof (collector_write_refused record sid (with_stdin None w) Hsid Hne Hdir Hmk)
    as Hw2.
  unfold main, main_body, try_except at 1.
  step. unfold Os.read_stdin_json at 1. rewrite Hin. cbv beta iota.
  step. unfold lift at 1. rewrite Htool. cbv beta iota.
  step. unfold lift at 1. rewrite Hname. cbv beta iota.
  step. unfold lift at 1. rewrite Hres. cbv beta iota.
  step. unfold lift at 1. rewrite Htim. cbv beta iota.
  step. unfold lift at 1. unfold Py.startswith. rewrite Hpre. cbv beta iota.
  unfold negb at 1. cbv iota.
  step. unfold Os.environ_get at 1. wsimpl. destruct Hact as [_ Henv]. rewrite Henv.
  cbv beta iota. destruct sid as [|c sid]; [congruence |].
  unfold env_truthy at 1. unfold negb at 1. cbv iota.
  step. unfold lift at 1. cbn [Py.get]. cbv beta iota.
  step. rewrite Hrec. cbv beta iota.
  step. rewrite Hw2. cbv beta iota.
  destruct (handler_prints_fallback "DEBUG_TELEMETRY" "Telemetry collector error"
              minimal_response (with_stdin None w) eq_refl) as (w' & Hrun & Hout & Hf & Hd).
  rewrite Hrun. exists w'. repeat split; assumption.
Qed.


End Collector.

(* ===================================================================== *)
(** * The pre-capture hook *)
(* ===================================================================== *)

Section Enhancer.
Import TelemetryEnhancer.
Variable py_repr : JSON -> string.

Lemma any_in_object (args : list (string * JSON)) (keys : list string) :
  exists b, Py.any_in (JObj args) keys = Ok b.
Proof.
  induction keys as [|k keys [b IH]]; simpl; [now exists false |].
  destruct (Py.assoc k args); [now exists true | now exists b].
Qed.

Lemma analyze_tool_usage_object (tool_name : JSON) (args : list (string * JSON)) :
  exists usage, analyze_tool_usage py_repr tool_name (JObj args) = Ok usage.
Proof.
  unfold analyze_tool_usage. cbn [Py.len].
  destruct (any_in_object args ["x"; "y"; "width"; "height"]) as [b1 ->].
  destruct (any_in_object args ["text"; "content"; "description"]) as [b2 ->].
  destruct (any_in_object args ["style"; "font"; "alignment"]) as [b3 ->].
  eexists. reflexivity.
Qed.

Lemma enhancer_write_appends (record : JSON) (sid : string) (w : World) :
  field "session_id" record = Some (JStr sid) -> sid <> "" ->
  dir_available w telemetry_dir ->
  faulty w (OpAppend (log_file sid)) = false ->
  exists msg,
    write_telemetry_record py_repr record w =
    (Ok tt,
     after_debug "DEBUG_TELEMETRY" msg
       (with_files
          (insert (log_file sid) (mkFile (log_lines w sid ++ [CJson record]) (now_ms w)))
          (ensure_dir telemetry_dir w))).
Proof.
  intros Hsid Hne Hdir Happ.
  unfold write_telemetry_record. step. unfold lift.
  rewrite (field_get _ _ _ _ Hsid). cbv beta iota.
  rewrite (truthy_nonempty sid Hne). cbv beta iota. unfold negb. cbv iota.
  step. rewrite (makedirs_ok _ _ Hdir). cbv beta iota.
  unfold try_except. step.
  unfold Os.append_file. cbn [py_str fst].
  change (telemetry_dir, sid +:+ ".jsonl") with (log_file sid).
  rewrite (has_dir_ensure_dir telemetry_dir w), faulty_ensure_dir, Happ.
  cbv beta iota. unfold negb, orb. cbv iota.
  destruct record as [| | | | | |?|kvs]; try discriminate Hsid.
  step. unfold lift. cbn [Py.get]. cbv beta iota.
  rewrite debug_run. eexists. f_equal. f_equal. f_equal.
  unfold log_lines, Os.old_chunks. now rewrite now_ensure_dir, files_ensure_dir.
Qed.

Lemma enhancer_write_fails (record : JSON) (sid : string) (w : World) :
  field "session_id" record = Some (JStr sid) -> sid <> "" ->
  dir_available w telemetry_dir ->
  faulty w (OpAppend (log_file sid)) = true ->
  write_telemetry_record py_repr record w =
  (Ok tt,
   after_debug "DEBUG_TELEMETRY" "Telemetry write error" (ensure_dir telemetry_dir w)).
Proof.
  intros Hsid Hne Hdir Happ.
  unfold write_telemetry_record. step. unfold lift.
  rewrite (field_get _ _ _ _ Hsid). cbv beta iota.
  rewrite (truthy_nonempty sid Hne). cbv beta iota. unfold negb. cbv iota.
  step. rewrite (makedirs_ok _ _ Hdir). cbv beta iota.
  unfold try_except. step.
  unfold Os.append_file. cbn [py_str fst].
  change (telemetry_dir, sid +:+ ".jsonl") with (log_file sid).
  rewrite (has_dir_ensure_dir telemetry_dir w), faulty_ensure_dir, Happ.
  cbv beta iota. unfold negb, orb. cbv iota.
  apply debug_run.
Qed.

Lemma analyze_tool_usage_valid (tool_name parameters usage : JSON) :
  analyze_tool_usage py_repr tool_name parameters = Ok usage ->
  valid_json_text usage = true.
Proof.
  unfold analyze_tool_usage.
  destruct (Py.len parameters); [| discriminate].
  destruct (Py.any_in parameters _); [| discriminate].
  destruct (Py.any_in parameters _); [| discriminate].
  destruct (Py.any_in parameters _); [| discriminate].
  intros [= <-]. reflexivity.
Qed.

(** The pre-capture hook on a call of the observed toolset while a session
    is active. *)
Lemma enhancer_main_effects (w : World) (j : JSON) (sid : string) :
  stdin w = Some j -> pre_envelope j -> session_active w sid ->
  context_reads w = true ->
  dir_available w telemetry_dir ->
  exists w' record,
    main py_repr w = (Ok tt, w') /\
    stdout w' = stdout w ++ [j] /\
    environ w' = environ w /\ faulty w' = faulty w /\
    Os.has_dir w' telemetry_dir = true /\
    field "capture_source" record = Some (JStr "hook_preuse") /\
    field "session_id" record = Some (JStr sid) /\
    (forall q, q <> log_file sid -> files w' !! q = files w !! q) /\
    files w' !! log_file sid =
      (if faulty w (OpAppend (log_file sid)) then files w !! log_file sid
       else Some (mkFile (log_lines w sid ++ [CJson record]) (now_ms w))) /\
    (valid_json_text j = true -> valid_json_text record = true) /\
    field "timestamp" record = Some (JNum (now_ms w)) /\
    field "generation" record = Some (JNum (Z.of_N (generation_of w))) /\
    is_Some (field "usage_analysis" record).
Proof.
  intros Hin (kvs & tool & name & args & -> & Htool & Hname & Hpre & Hargs) Hact Hctx Hdir.
  assert (Hne : sid <> "") by apply Hact.
  destruct (analyze_tool_usage_object (JStr name) args) as [usage Husage].
  pose (fields :=
          [ ("timestamp", JNum (now_ms w));
            ("tool", match Py.assoc "name" tool with Some v => v | None => JStr "unknown" end);
            ("parameters", JObj args);
            ("session_id", JStr sid);
            ("agent_id",
              JStr (match environ w !! "TELEMETRY_AGENT_ID" with
                    | Some v => v | None => "unknown" end));
            ("generation", JNum (Z.of_N (generation_of w)));
            ("capture_source", JStr "hook_preuse") ]).
  pose (record := JObj (Py.setitem fields "usage_analysis" usage)).
  assert (Hsid : field "session_id" record = Some (JStr sid)) by reflexivity.
  assert (Hdir1 : dir_available (with_stdin None w) telemetry_dir) by exact Hdir.
  assert (Hvalid : valid_json_text (JObj kvs) = true -> valid_json_text record = true).
  { intros Hj.
    pose proof (valid_get (JObj kvs) "tool" (JObj []) _ Hj eq_refl Htool) as Ht.
    pose proof (valid_get (JObj tool) "arguments" (JObj []) _ Ht eq_refl Hargs) as Ha.
    apply valid_setitem; [| exact (analyze_tool_usage_valid _ _ _ Husage)].
    unfold fields. cbn [valid_json_text forallb snd] in *.
    cbn [Py.get] in Hname. injection Hname as Hname.
    destruct (Py.assoc "name" tool) as [v|]; [| now rewrite Ha].
    subst v. now rewrite Ha. }
  assert (Hrun : forall w2,
             write_telemetry_record py_repr record (with_stdin None w) = (Ok tt, w2) ->
             main py_repr w = (Ok tt, with_stdout (fun out => out ++ [JObj kvs]) w2)).
  { intros w2 Hw2. unfold main, main_body, try_except.
    step. unfold Os.read_stdin_json. rewrite Hin. cbv beta iota.
    step. unfold lift at 1. rewrite Htool. cbv beta iota.
    step. unfold lift at 1. rewrite Hname. cbv beta iota.
    step. unfold lift at 1. unfold Py.startswith. rewrite Hpre. cbv beta iota.
    unfold negb at 1. cbv iota.
    step. unfold Os.environ_get at 1. wsimpl. destruct Hact as [_ Henv]. rewrite Henv.
    cbv beta iota. destruct sid as [|c sid]; [congruence |].
    unfold env_truthy at 1. unfold negb at 1. cbv iota.
    step. unfold enhance_telemetry_capture. step.
    rewrite (get_session_info_run (with_stdin None w) Hctx).
    cbv beta iota. step. unfold Os.time_ms at 1. cbv beta iota.
    cbn [Py.get] in Hargs. injection Hargs as Hargs.
    step. unfold lift at 1. cbn [Py.get]. cbv beta iota.
    step. unfold lift at 1. rewrite Hargs. cbv beta iota. unfold ret at 1. cbv beta iota.
    step. unfold lift at 1. cbv beta iota.
    step. unfold lift at 1. rewrite Husage. cbv beta iota.
    step. wsimpl. rewrite Henv. cbn [env_or session_id agent_id generation Py.of_option_str].
    change (generation_of (with_stdin None w)) with (generation_of w).
    fold fields. fold record. rewrite Hw2. reflexivity. }
  assert (Huse : is_Some (field "usage_analysis" record)).
  { exists usage. unfold record, field. apply assoc_setitem_eq. }
  destruct (faulty w (OpAppend (log_file sid))) eqn:Happ.
  - pose proof (enhancer_write_fails record sid _ Hsid Hne Hdir1 Happ) as Hw2.
    eexists _, record. split; [exact (Hrun _ Hw2) |]. unfold Os.has_dir. wnorm.
    split_and!; try reflexivity; try assumption.
    apply (has_dir_ensure_dir telemetry_dir).
  - destruct (enhancer_write_appends record sid _ Hsid Hne Hdir1 Happ) as [msg Hw2].
    eexists _, record. split; [exact (Hrun _ Hw2) |]. unfold Os.has_dir. wnorm.
    split_and!; try reflexivity; try assumption.
    + apply (has_dir_ensure_dir telemetry_dir).
    + intros q Hq. now rewrite lookup_insert_ne.
    + apply lookup_insert_eq.
Qed.

End Enhancer.

(* ===================================================================== *)
(** * The log of a session *)
(* ===================================================================== *)

Section SessionLog.
Variable py_repr : JSON -> string.
Variable isoformat : Z -> string.

Lemma log_lines_lookup (w : World) (sid : string) (f : File) :
  files w !! log_file sid = Some f -> log_lines w sid = chunks f.
Proof. unfold log_lines, Os.old_chunks. now intros ->. Qed.

(** One invocation appends one record with the hook's own source tag. *)
Lemma invoke_appends (e : event) (w : World) (sid : string) :
  recording w sid -> context_reads w = true -> well_formed_event e ->
  exists record,
    let w' := invoke (hook py_repr isoformat (phase_of e)) (envelope_of e) (time_of e) w in
    log_lines w' sid = log_lines w sid ++ [CJson record] /\
    field "capture_source" record = Some (JStr (capture_source_of (phase_of e))) /\
    field "session_id" record = Some (JStr sid) /\
    (finite_event e -> valid_json_text record = true) /\
    recording w' sid /\ context_reads w' = true.
Proof.
  intros (Hact & Hdir & Happ) Hctx Hwf.
  destruct e as [p j t]. unfold well_formed_event in Hwf. unfold finite_event.
  cbn [phase_of envelope_of time_of] in *.
  set (w0 := with_now t (with_stdin (Some j) w)).
  assert (Hin : stdin w0 = Some j) by reflexivity.
  assert (Hact0 : session_active w0 sid) by exact Hact.
  assert (Hctx0 : context_reads w0 = true) by exact Hctx.
  assert (Hdir0 : dir_available w0 telemetry_dir) by exact Hdir.
  assert (Hlog0 : log_lines w0 sid = log_lines w sid) by reflexivity.
  unfold invoke. fold w0.
  destruct p; cbn [hook capture_source_of].
  - destruct (enhancer_main_effects py_repr w0 j sid Hin Hwf Hact0 Hctx0 Hdir0)
      as (w' & record & Hmain & _ & Henv & Hf & Hd & Hsrc & Hsid & _ & Hlog & Hvalid & _).
    exists record. rewrite Hmain. cbn [snd].
    change (faulty w0) with (faulty w) in Hlog. rewrite Happ in Hlog.
    split; [now rewrite (log_lines_lookup _ _ _ Hlog), Hlog0 |].
    split; [exact Hsrc |]. split; [exact Hsid |]. split; [exact Hvalid |].
    split; [| now rewrite (context_reads_env w0 w' Henv)].
    split; [split; [apply Hact | now rewrite Henv; apply Hact] |].
    split; [now left | now rewrite Hf].
  - destruct (collector_main_effects py_repr isoformat w0 j sid Hin Hwf Hact0 Hctx0 Hdir0)
      as (w' & record & Hmain & _ & Henv & Hf & Hd & Hsrc & Hsid & _ & _ & Hlog & Hvalid).
    exists record. rewrite Hmain. cbn [snd].
    change (faulty w0) with (faulty w) in Hlog. rewrite Happ in Hlog.
    split; [now rewrite (log_lines_lookup _ _ _ Hlog), Hlog0 |].
    split; [exact Hsrc |]. split; [exact Hsid |]. split; [exact Hvalid |].
    split; [| now rewrite (context_reads_env w0 w' Henv)].
    split; [split; [apply Hact | now rewrite Henv; apply Hact] |].
    split; [now left | now rewrite Hf].
Qed.

Lemma run_events_appends (es : list event) (w : World) (sid : string) :
  recording w sid -> context_reads w = true -> Forall well_formed_event es ->
  exists records,
    log_lines (run_events py_repr isoformat es w) sid
      = log_lines w sid ++ map CJson records /\
    Forall2 (fun e record =>
               field "capture_source" record
                 = Some (JStr (capture_source_of (phase_of e))) /\
               field "session_id" record = Some (JStr sid) /\
               (finite_event e -> valid_json_text record = true))
            es records.
Proof.
  intros Hrec Hctx Hwf. revert w Hrec Hctx.
  induction Hwf as [|e es He Hes IH]; intros w Hrec Hctx.
  - exists []. split; [cbn; now rewrite app_nil_r | constructor].
  - destruct (invoke_appends e w sid Hrec Hctx He)
      as (record & Hlog & Hsrc & Hsid & Hvalid & Hrec' & Hctx').
    cbv zeta in Hlog, Hrec', Hctx'.
    destruct (IH _ Hrec' Hctx') as (records & Hlogs & Hall).
    exists (record :: records). split.
    + cbn [run_events]. rewrite Hlogs, Hlog, <- app_assoc. reflexivity.
    + constructor; [now split | exact Hall].
Qed.

Lemma count_phases (es : list event) :
  length es = length (List.filter is_pre es) + length (List.filter is_post es).
Proof.
  induction es as [|[[] j t] es IH]; cbn; [reflexivity | |]; rewrite IH; lia.
Qed.

Lemma valid_lines (es : list event) (records : list JSON) :
  Forall2 (fun e record => finite_event e -> valid_json_text record = true) es records ->
  Forall finite_event es -> Forall valid_json_line (map CJson records).
Proof.
  intros Hall. induction Hall as [|e r es' rs Hv _ IH]; intros Hfin; cbn [map];
    [constructor |].
  apply Forall_cons in Hfin as [He Hfin].
  constructor; [exists r; split; [reflexivity | now apply Hv] | now apply IH].
Qed.

(** C5 (amended): during a session whose context can be read and whose
    log can be appended to, a run of N pre-capture and N post-capture
    invocations, in any order, adds exactly 2N lines to the session's log
    (so a log that was empty has 2N lines), each line one JSON document,
    and JSON text proper when the envelopes hold no number that is NaN or
    infinite; a line written by the post-capture hook carries
    capture_source = "hook_postuse" and a line written by the pre-capture
    hook carries capture_source = "hook_preuse". *)
Theorem C5_log_grows_by_one_line_per_capture
    (es : list event) (w : World) (sid : string) (N : nat) :
  recording w sid -> context_reads w = true -> Forall well_formed_event es ->
  length (List.filter is_pre es) = N -> length (List.filter is_post es) = N ->
  exists records,
    log_lines (run_events py_repr isoformat es w) sid
      = log_lines w sid ++ map CJson records /\
    length records = 2 * N /\
    (log_lines w sid = [] ->
     length (log_lines (run_events py_repr isoformat es w) sid) = 2 * N /\
     Forall json_line (log_lines (run_events py_repr isoformat es w) sid)) /\
    (Forall finite_event es -> Forall valid_json_line (map CJson records)) /\
    Forall2 (fun e record =>
               field "capture_source" record = Some (JStr (capture_source_of (phase_of e)))
               /\ field "session_id" record = Some (JStr sid)
               /\ (is_post e = true ->
                   field "capture_source" record = Some (JStr "hook_postuse"))
               /\ (is_pre e = true ->
                   field "capture_source" record = Some (JStr "hook_preuse")))
            es records.
Proof.
  intros Hrec Hctx Hwf Hpre Hpost.
  destruct (run_events_appends es w sid Hrec Hctx Hwf) as (records & Hlog & Hall).
  exists records. split; [exact Hlog |].
  assert (Hlen : length records = 2 * N).
  { rewrite <- (Forall2_length _ _ _ Hall), (count_phases es), Hpre, Hpost. lia. }
  split; [exact Hlen |]. split; [| split].
  - intros Hempty. rewrite Hlog, Hempty. cbn [app]. rewrite length_map.
    split; [exact Hlen |].
    apply Forall_forall. intros c Hc.
    apply list_elem_of_In, in_map_iff in Hc as (r & <- & _).
    now exists r.
  - intros Hfin. eapply valid_lines; [| exact Hfin].
    eapply Forall2_impl; [exact Hall |]. intros e record (_ & _ & Hv). exact Hv.
  - eapply Forall2_impl; [exact Hall |].
    intros [p j t] record (Hsrc & Hsid & _). unfold is_post, is_pre. cbn [phase_of] in *.
    split; [exact Hsrc |]. split; [exact Hsid |].
    destruct p; cbn [capture_source_of] in Hsrc;
      (split; intros H; [try discriminate H; exact Hsrc | try discriminate H; exact Hsrc]).
Qed.

End SessionLog.

(* ===================================================================== *)
(** * Every hook terminates with one document on standard output *)
(* ===================================================================== *)

Section Streams.

Lemma silent_ret {A} (a : A) : silent (ret a).
Proof. intros w. split; reflexivity. Qed.

Lemma silent_raise {A} (e : Exn) : silent (@raise A e).
Proof. intros w. split; reflexivity. Qed.

Lemma silent_lift {A} (r : Res A) : silent (lift r).
Proof. intros w. split; reflexivity. Qed.

Lemma silent_bind {A B} (c : M A) (k : A -> M B) :
  silent c -> (forall a, silent (k a)) -> silent (bind c k).
Proof.
  intros Hc Hk w. unfold bind. specialize (Hc w).
  destruct (c w) as [[a|e] w1]; cbn [snd] in *.
  - destruct (Hk a w1) as [H1 H2]. rewrite H1, H2. exact Hc.
  - exact Hc.
Qed.

Lemma silent_try {A} (c : M A) (h : Exn -> M A) :
  silent c -> (forall e, silent (h e)) -> silent (try_except c h).
Proof.
  intros Hc Hh w. unfold try_except. specialize (Hc w).
  destruct (c w) as [[a|e] w1]; cbn [snd] in *.
  - exact Hc.
  - destruct (Hh e w1) as [H1 H2]. rewrite H1, H2. exact Hc.
Qed.

Lemma silent_for_each {A} (l : list A) (body : A -> M unit) :
  (forall a, silent (body a)) -> silent (for_each l body).
Proof.
  intros Hb. induction l as [|a l IH]; cbn [for_each].
  - apply silent_ret.
  - apply silent_bind; [apply Hb | intros _; exact IH].
Qed.

Ltac silent_op :=
  intros w;
  repeat match goal with
         | |- context [match ?x with _ => _ end] => destruct x
         end;
  split; reflexivity.

Lemma silent_environ_get k : silent (Os.environ_get k).
Proof. silent_op. Qed.
Lemma silent_environ_get_default k d : silent (Os.environ_get_default k d).
Proof. silent_op. Qed.
Lemma silent_environ_set k v : silent (Os.environ_set k v).
Proof. silent_op. Qed.
Lemma silent_environ_discard k : silent (Os.environ_discard k).
Proof. silent_op. Qed.
Lemma silent_makedirs d : silent (Os.makedirs d).
Proof. unfold Os.makedirs. silent_op. Qed.
Lemma silent_dir_exists d : silent (Os.dir_exists d).
Proof. silent_op. Qed.
Lemma silent_file_exists p : silent (Os.file_exists p).
Proof. silent_op. Qed.
Lemma silent_append_file p c : silent (Os.append_file p c).
Proof. unfold Os.append_file. silent_op. Qed.
Lemma silent_write_file p c : silent (Os.write_file p c).
Proof. unfold Os.write_file. silent_op. Qed.
Lemma silent_load_json p : silent (Os.load_json p).
Proof. unfold Os.load_json. silent_op. Qed.
Lemma silent_listdir d : silent (Os.listdir d).
Proof. unfold Os.listdir. silent_op. Qed.
Lemma silent_copy2 p q : silent (Os.copy2 p q).
Proof. unfold Os.copy2. silent_op. Qed.
Lemma silent_remove p : silent (Os.remove p).
Proof. unfold Os.remove. silent_op. Qed.
Lemma silent_getmtime p : silent (Os.getmtime p).
Proof. unfold Os.getmtime. silent_op. Qed.
Lemma silent_time_ms : silent Os.time_ms.
Proof. silent_op. Qed.
Lemma silent_uuid4 : silent Os.uuid4.
Proof. silent_op. Qed.
Lemma silent_debug f m : silent (Os.debug f m).
Proof. unfold Os.debug. silent_op. Qed.
Lemma silent_glob_scratch : silent CheckpointManager.glob_scratch.
Proof. silent_op. Qed.

End Streams.

Create HintDb silent.

#[export] Hint Resolve
  silent_ret silent_raise silent_lift
  silent_environ_get silent_environ_get_default silent_environ_set
  silent_environ_discard silent_makedirs silent_dir_exists silent_file_exists
  silent_append_file silent_write_file silent_load_json silent_listdir silent_copy2
  silent_remove silent_getmtime silent_time_ms silent_uuid4 silent_debug
  silent_glob_scratch : silent.

(** Statement by statement: binds, handlers, loops and branches. *)
Ltac silence :=
  repeat first
    [ solve [auto with silent]
    | apply silent_bind; [| intros ?]
    | apply silent_try; [| intros ?]
    | apply silent_for_each; intros ?
    | match goal with
      | |- silent (match ?x with _ => _ end) => destruct x
      | |- silent (if ?b then _ else _) => destruct b
      | |- silent (let _ := _ in _) => cbv zeta
      end ].

Section Functions.
Variable py_repr : JSON -> string.
Variable isoformat : Z -> string.
Variable strftime : Z -> string.

Lemma silent_get_session_info : silent get_session_info.
Proof. unfold get_session_info. silence. Qed.

Lemma silent_enhance (tool_call : JSON) :
  silent (TelemetryEnhancer.enhance_telemetry_capture tool_call).
Proof.
  unfold TelemetryEnhancer.enhance_telemetry_capture.
  pose proof silent_get_session_info. silence.
Qed.

Lemma silent_enhancer_write (record : JSON) :
  silent (TelemetryEnhancer.write_telemetry_record py_repr record).
Proof. unfold TelemetryEnhancer.write_telemetry_record. silence. Qed.

Lemma silent_complete (tool_call result execution_time : JSON) :
  silent (TelemetryCollector.complete_telemetry_record py_repr tool_call result
            execution_time).
Proof.
  unfold TelemetryCollector.complete_telemetry_record.
  pose proof silent_get_session_info. silence.
Qed.

Lemma silent_collector_write (record : JSON) :
  silent (TelemetryCollector.write_telemetry_record py_repr record).
Proof. unfold TelemetryCollector.write_telemetry_record. silence. Qed.

Lemma silent_update_stats (sid : string) :
  silent (TelemetryCollector.update_session_statistics isoformat sid).
Proof. unfold TelemetryCollector.update_session_statistics. silence. Qed.

Lemma silent_setup : silent TaskInterceptor.setup_evolution_session.
Proof. unfold TaskInterceptor.setup_evolution_session. silence. Qed.

Lemma silent_start_session (prompt_text : string) :
  silent (TaskInterceptor.start_session isoformat prompt_text).
Proof.
  unfold TaskInterceptor.start_session. pose proof silent_setup. silence.
Qed.

Lemma silent_finalize (sid : option string) :
  silent (CheckpointManager.finalize_telemetry_session isoformat sid).
Proof. unfold CheckpointManager.finalize_telemetry_session. silence. Qed.

Lemma silent_copy_session_files (sid archive : string) (names archived : list string) :
  silent (CheckpointManager.copy_session_files sid archive names archived).
Proof.
  revert archived. induction names as [|n names IH]; intros archived;
    cbn [CheckpointManager.copy_session_files]; silence; apply IH.
Qed.

Lemma silent_archive (sid : option string) :
  silent (CheckpointManager.archive_evolution_data isoformat strftime sid).
Proof.
  unfold CheckpointManager.archive_evolution_data.
  pose proof silent_copy_session_files. silence.
Qed.

Lemma silent_cleanup : silent CheckpointManager.cleanup_temporary_files.
Proof. unfold CheckpointManager.cleanup_temporary_files. silence. Qed.

Lemma silent_resume (sid : string) (archive_path : option string) :
  silent (CheckpointManager.generate_resume_instructions isoformat sid archive_path).
Proof. unfold CheckpointManager.generate_resume_instructions. silence. Qed.

Lemma silent_checkpoint (sid : string) :
  silent (CheckpointManager.checkpoint isoformat strftime sid).
Proof.
  unfold CheckpointManager.checkpoint.
  pose proof silent_finalize. pose proof silent_archive.
  pose proof silent_cleanup. pose proof silent_resume. silence.
Qed.

End Functions.

Section Once.

Lemma prints_once_print (P : JSON -> Prop) (j : JSON) :
  P j -> prints_once P (Os.print_json j).
Proof. intros HP w. cbn. split; [now exists j | reflexivity]. Qed.

Lemma prints_once_raise (P : JSON -> Prop) (e : Exn) : prints_once P (raise e).
Proof. intros w. cbn. split; reflexivity. Qed.

Lemma prints_once_bind {A} (P : JSON -> Prop) (c : M A) (k : A -> M unit) :
  silent c -> (forall a, prints_once P (k a)) -> prints_once P (bind c k).
Proof.
  intros Hc Hk w. unfold bind. specialize (Hc w).
  destruct (c w) as [[a|e] w1]; cbn [snd] in Hc; [| exact Hc].
  specialize (Hk a w1). destruct Hc as [Ho Hi].
  destruct (k a w1) as [[u|e] w2]; now rewrite <- Ho, <- Hi.
Qed.

Lemma prints_once_bind_raised {A} (P : JSON -> Prop) (e : Exn) (k : A -> M unit) :
  prints_once P (bind (lift (Raise e)) k).
Proof. intros w. cbn. split; reflexivity. Qed.

Lemma tool_hook_total (rest : JSON -> M unit) (flag msg : string) (fallback : JSON)
    (Q : JSON -> Prop) :
  (forall input, prints_once (fun j => j = input /\ Q j) (rest input)) ->
  forall w,
  exists w' j,
    tool_hook_main rest flag msg fallback w = (Ok tt, w') /\
    stdout w' = stdout w ++ [j] /\
    ((stdin w = Some j /\ Q j) \/ j = fallback).
Proof.
  intros Hrest w. unfold tool_hook_main, try_except at 1.
  unfold bind at 1, Os.read_stdin_json at 1.
  destruct (stdin w) as [j0|] eqn:Hin; cbv beta iota.
  - specialize (Hrest j0 (with_stdin None w)).
    destruct (rest j0 (with_stdin None w)) as [[[]|e] w1].
    + destruct Hrest as [(j & Hout & -> & HQ) _]. exists w1, j0. auto.
    + destruct Hrest as [Hout Hnone]. cbn [stdin stdout with_stdin] in Hout, Hnone.
      destruct (handler_prints_fallback flag msg fallback w1 Hnone)
        as (w' & Hrun & Hout' & _).
      exists w', fallback. split; [exact Hrun |]. split; [| now right].
      now rewrite Hout', Hout.
  - destruct (handler_prints_fallback flag msg fallback w Hin)
      as (w' & Hrun & Hout' & _).
    exists w', fallback. split; [exact Hrun |]. split; [exact Hout' | now right].
Qed.

End Once.

Ltac print_once :=
  repeat first
    [ apply prints_once_print; solve [auto]
    | apply prints_once_raise
    | apply prints_once_bind_raised
    | apply prints_once_bind; [solve [silence] | intros ?]
    | match goal with
      | |- prints_once _ (match ?x with _ => _ end) => destruct x
      | |- prints_once _ (if ?b then _ else _) => destruct b
      end ].

Section Totality.
Variable py_repr : JSON -> string.
Variable isoformat : Z -> string.
Variable strftime : Z -> string.

Lemma enhancer_total (w : World) :
  exists w' j,
    TelemetryEnhancer.main py_repr w = (Ok tt, w') /\
    stdout w' = stdout w ++ [j] /\
    ((stdin w = Some j /\ Py.is_object j = true) \/ j = TelemetryEnhancer.minimal_response).
Proof.
  apply (tool_hook_total _ "DEBUG_TELEMETRY" "Telemetry enhancer error"
           TelemetryEnhancer.minimal_response (fun j => Py.is_object j = true)).
  intros input.
  pose proof (silent_enhance). pose proof (silent_enhancer_write py_repr).
  destruct input; cbn [Py.get]; try apply prints_once_bind_raised.
  print_once.
Qed.

Lemma collector_total (w : World) :
  exists w' j,
    TelemetryCollector.main py_repr isoformat w = (Ok tt, w') /\
    stdout w' = stdout w ++ [j] /\
    ((stdin w = Some j /\ Py.is_object j = true) \/ j = TelemetryCollector.minimal_response).
Proof.
  apply (tool_hook_total _ "DEBUG_TELEMETRY" "Telemetry collector error"
           TelemetryCollector.minimal_response (fun j => Py.is_object j = true)).
  intros input.
  pose proof (silent_complete py_repr). pose proof (silent_collector_write py_repr).
  pose proof (silent_update_stats isoformat). pose proof silent_get_session_info.
  destruct input; cbn [Py.get]; try apply prints_once_bind_raised.
  print_once.
Qed.

Lemma interceptor_total (w : World) :
  exists w' j,
    TaskInterceptor.main isoformat w = (Ok tt, w') /\
    stdout w' = stdout w ++ [j] /\
    ((stdin w = Some j /\ Py.is_object j = true) \/ j = TaskInterceptor.minimal_response).
Proof.
  apply (tool_hook_total _ "DEBUG_EVOLUTION" "Task interceptor error"
           TaskInterceptor.minimal_response (fun j => Py.is_object j = true)).
  intros input.
  pose proof (silent_start_session isoformat).
  destruct input; cbn [Py.get]; try apply prints_once_bind_raised.
  print_once.
Qed.

Lemma checkpoint_total (w : World) :
  exists w' j,
    CheckpointManager.main isoformat strftime w = (Ok tt, w') /\
    stdout w' = stdout w ++ [j] /\
    (stdin w = Some j \/ j = JObj []).
Proof.
  assert (Hrest : forall input,
             prints_once (fun j => j = input)
               (let* session_info := get_session_info in
                let* active := Os.environ_get "EVOLUTION_SESSION_ACTIVE" in
                (match session_id session_info with
                 | Some (String c s) =>
                     if env_truthy active
                     then CheckpointManager.checkpoint isoformat strftime (String c s)
                     else ret tt
                 | _ => ret tt
                 end) ;;
                Os.print_json input)).
  { intros input. pose proof silent_get_session_info.
    pose proof (silent_checkpoint isoformat strftime). print_once. }
  unfold CheckpointManager.main, CheckpointManager.main_body, try_except at 1.
  unfold bind at 1, try_except at 1, Os.read_stdin_json at 1.
  destruct (stdin w) as [j0|] eqn:Hin; cbv beta iota.
  - specialize (Hrest j0 (with_stdin None w)). cbv beta in Hrest.
    match type of Hrest with
    | match ?c with _ => _ end => destruct c as [[[]|e] w1]
    end.
    + destruct Hrest as [(j & Hout & ->) _]. exists w1, j0. auto.
    + destruct Hrest as [Hout _]. cbn [stdout with_stdin] in Hout.
      unfold bind at 1. rewrite debug_run. cbv beta iota.
      eexists _, (JObj []). split; [reflexivity |]. cbn.
      rewrite stdout_after_debug, Hout. auto.
  - unfold ret at 1. cbv beta iota.
    specialize (Hrest (JObj []) w). cbv beta in Hrest.
    match type of Hrest with
    | match ?c with _ => _ end => destruct c as [[[]|e] w1]
    end.
    + destruct Hrest as [(j & Hout & ->) _]. exists w1, (JObj []). auto.
    + destruct Hrest as [Hout _].
      unfold bind at 1. rewrite debug_run. cbv beta iota.
      eexists _, (JObj []). split; [reflexivity |]. cbn.
      rewrite stdout_after_debug, Hout. auto.
Qed.

(** C2 (amended): whatever the input (readable or not), the environment,
    the files and the operations the system refuses, each of the four
    entry points returns normally, no exception escaping, having written
    exactly one JSON document to standard output: the input again, or a
    substitute object.  The three tool hooks always write an object; the
    checkpoint writes back what it read, an object whenever the input was
    one or could not be read.  What is written is JSON text proper
    whenever the input has no number that is NaN or infinite. *)
Theorem C2_one_json_document_no_exception (w : World) :
  (exists w' j,
      TelemetryEnhancer.main py_repr w = (Ok tt, w') /\
      stdout w' = stdout w ++ [j] /\ Py.is_object j = true /\
      (stdin w = Some j \/ j = TelemetryEnhancer.minimal_response) /\
      (finite_input w -> valid_json_text j = true))
  /\ (exists w' j,
      TelemetryCollector.main py_repr isoformat w = (Ok tt, w') /\
      stdout w' = stdout w ++ [j] /\ Py.is_object j = true /\
      (stdin w = Some j \/ j = TelemetryCollector.minimal_response) /\
      (finite_input w -> valid_json_text j = true))
  /\ (exists w' j,
      TaskInterceptor.main isoformat w = (Ok tt, w') /\
      stdout w' = stdout w ++ [j] /\ Py.is_object j = true /\
      (stdin w = Some j \/ j = TaskInterceptor.minimal_response) /\
      (finite_input w -> valid_json_text j = true))
  /\ (exists w' j,
      CheckpointManager.main isoformat strftime w = (Ok tt, w') /\
      stdout w' = stdout w ++ [j] /\
      (stdin w = Some j \/ j = JObj []) /\
      ((forall j0, stdin w = Some j0 -> Py.is_object j0 = true) ->
       Py.is_object j = true) /\
      (finite_input w -> valid_json_text j = true)).
Proof.
  split; [| split; [| split]].
  - destruct (enhancer_total w) as (w' & j & Hrun & Hout & [[Hin Hobj] | ->]);
      exists w'; eexists; split_and!; eauto.
  - destruct (collector_total w) as (w' & j & Hrun & Hout & [[Hin Hobj] | ->]);
      exists w'; eexists; split_and!; eauto.
  - destruct (interceptor_total w) as (w' & j & Hrun & Hout & [[Hin Hobj] | ->]);
      exists w'; eexists; split_and!; eauto.
  - destruct (checkpoint_total w) as (w' & j & Hrun & Hout & Hj).
    exists w', j. split_and!; try assumption.
    + intros Hobj. destruct Hj as [Hin | ->]; [now apply Hobj | reflexivity].
    + intros Hfin. destruct Hj as [Hin | ->]; [now apply Hfin | reflexivity].
Qed.

End Totality.

(* ===================================================================== *)
(** * Outside a session *)
(* ===================================================================== *)

Section NoSession.
Variable py_repr : JSON -> string.
Variable isoformat : Z -> string.
Variable strftime : Z -> string.

Lemma passes_through_intro (c : M unit) (w : World) (j : JSON) :
  c w = (Ok tt, with_stdout (fun out => out ++ [j]) (with_stdin None w)) ->
  passes_through c w j.
Proof. intros H. eexists. split; [exact H |]. repeat split. Qed.

Lemma no_session_lookup (w : World) :
  no_session w ->
  match env_or (environ w !! "EVOLUTION_SESSION_ID") (environ w !! "TELEMETRY_SESSION_ID") with
  | Some (String _ _) => False
  | _ => True
  end.
Proof.
  intros [H1 H2].
  destruct (environ w !! "EVOLUTION_SESSION_ID") as [[|? ?]|];
    destruct (environ w !! "TELEMETRY_SESSION_ID") as [[|? ?]|];
    cbn in *; try congruence; exact I.
Qed.

Lemma enhancer_passes_through (w : World) (j : JSON) (name : string) :
  stdin w = Some j -> no_session w -> envelope j name ->
  passes_through (TelemetryEnhancer.main py_repr) w j.
Proof.
  intros Hin [Hno _] (kvs & tool & -> & Htool & Hname).
  apply passes_through_intro.
  unfold TelemetryEnhancer.main, TelemetryEnhancer.main_body, try_except.
  step. unfold Os.read_stdin_json. rewrite Hin. cbv beta iota.
  step. unfold lift at 1. rewrite Htool. cbv beta iota.
  step. unfold lift at 1. rewrite Hname. cbv beta iota.
  step. unfold lift at 1. unfold Py.startswith. cbv beta iota.
  destruct (PyStr.startswith name "mcp__indesign__"); [| reflexivity].
  unfold negb at 1. cbv iota.
  step. unfold Os.environ_get at 1. wsimpl. rewrite Hno. reflexivity.
Qed.

Lemma collector_passes_through (w : World) (j : JSON) (name : string) :
  stdin w = Some j -> no_session w -> envelope j name ->
  passes_through (TelemetryCollector.main py_repr isoformat) w j.
Proof.
  intros Hin [Hno _] (kvs & tool & -> & Htool & Hname).
  apply passes_through_intro.
  unfold TelemetryCollector.main, TelemetryCollector.main_body, try_except.
  step. unfold Os.read_stdin_json. rewrite Hin. cbv beta iota.
  step. unfold lift at 1. rewrite Htool. cbv beta iota.
  step. unfold lift at 1. rewrite Hname. cbv beta iota.
  step. unfold lift at 1. cbn [Py.get]. cbv beta iota.
  step. unfold lift at 1. cbv beta iota.
  step. unfold lift at 1. unfold Py.startswith. cbv beta iota.
  destruct (PyStr.startswith name "mcp__indesign__"); [| reflexivity].
  unfold negb at 1. cbv iota.
  step. unfold Os.environ_get at 1. wsimpl. rewrite Hno. reflexivity.
Qed.

(** The checkpoint does nothing when no session id is set, and nothing
    when the flag [EVOLUTION_SESSION_ACTIVE] is not set. *)
Lemma checkpoint_idle (w : World) (j : JSON) :
  stdin w = Some j -> context_reads w = true ->
  no_session w \/ env_truthy (environ w !! "EVOLUTION_SESSION_ACTIVE") = false ->
  CheckpointManager.main isoformat strftime w =
  (Ok tt, with_stdout (fun out => out ++ [j]) (with_stdin None w)).
Proof.
  intros Hin Hctx Hidle.
  unfold CheckpointManager.main, CheckpointManager.main_body, try_except at 1.
  step. unfold try_except at 1, Os.read_stdin_json. rewrite Hin. cbv beta iota.
  step. rewrite (get_session_info_run (with_stdin None w) Hctx). cbv beta iota.
  step. unfold Os.environ_get at 1. cbv beta iota. cbn [session_id]. wsimpl.
  destruct Hidle as [Hno | Hflag].
  - pose proof (no_session_lookup w Hno) as H.
    destruct (env_or _ _) as [[|? ?]|]; try contradiction; reflexivity.
  - rewrite Hflag. destruct (env_or _ _) as [[|? ?]|]; reflexivity.
Qed.

Lemma checkpoint_passes_through (w : World) (j : JSON) :
  stdin w = Some j -> context_reads w = true -> no_session w ->
  passes_through (CheckpointManager.main isoformat strftime) w j.
Proof.
  intros Hin Hctx Hno. apply passes_through_intro. apply checkpoint_idle; auto.
Qed.

(** When the generation cannot be converted the checkpoint manager ends
    in its handler, session or no session: it answers with the empty
    object and changes nothing. *)
Lemma checkpoint_context_unreadable (w : World) (j : JSON) :
  stdin w = Some j -> generation_too_long w = true ->
  CheckpointManager.main isoformat strftime w =
  (Ok tt,
   with_stdout (fun out => out ++ [JObj []])
     (after_debug "DEBUG_EVOLUTION" "Checkpoint manager error" (with_stdin None w))).
Proof.
  intros Hin Hlong.
  unfold CheckpointManager.main, CheckpointManager.main_body, try_except at 1.
  step. unfold try_except at 1, Os.read_stdin_json. rewrite Hin. cbv beta iota.
  step. rewrite (get_session_info_raises (with_stdin None w) Hlong). cbv beta iota.
  step. rewrite debug_run. reflexivity.
Qed.

Lemma interceptor_other_tool (w : World) (j : JSON) (name : string) :
  stdin w = Some j -> envelope j name -> name <> "Task" ->
  passes_through (TaskInterceptor.main isoformat) w j.
Proof.
  intros Hin (kvs & tool & -> & Htool & Hname) Hne.
  apply passes_through_intro.
  unfold TaskInterceptor.main, TaskInterceptor.main_body, try_except.
  step. unfold Os.read_stdin_json. rewrite Hin. cbv beta iota.
  step. unfold lift at 1. rewrite Htool. cbv beta iota.
  step. unfold lift at 1. rewrite Hname. cbv beta iota.
  step. unfold lift at 1. cbv beta iota.
  step. unfold lift at 1. cbn [Py.get]. cbv beta iota.
  unfold Py.ne_str, Py.is_str. apply String.eqb_neq in Hne. rewrite Hne. reflexivity.
Qed.

Lemma interceptor_plain_task (w : World) (j : JSON) (prompt : string) :
  stdin w = Some j -> task_request j prompt ->
  TaskInterceptor.is_evolution_prompt prompt = false ->
  passes_through (TaskInterceptor.main isoformat) w j.
Proof.
  intros Hin (kvs & tool & args & -> & Htool & Hname & Hargs & Hprompt) Hplain.
  apply passes_through_intro.
  unfold TaskInterceptor.main, TaskInterceptor.main_body, try_except.
  step. unfold Os.read_stdin_json. rewrite Hin. cbv beta iota.
  step. unfold lift at 1. rewrite Htool. cbv beta iota.
  step. unfold lift at 1. rewrite Hname. cbv beta iota.
  step. unfold lift at 1. cbv beta iota.
  step. unfold lift at 1. rewrite Hargs. cbv beta iota.
  cbn [Py.ne_str Py.is_str String.eqb Ascii.eqb Bool.eqb negb]. cbv iota.
  step. step. unfold lift at 1. rewrite Hprompt. cbv beta iota.
  rewrite Hplain. reflexivity.
Qed.

(** A qualifying Task request starts a session, whatever the environment
    held before. *)
Lemma interceptor_starts_session (w : World) (j : JSON) (prompt : string) :
  stdin w = Some j -> task_request j prompt ->
  TaskInterceptor.is_evolution_prompt prompt = true ->
  Os.has_dir w tmp_dir = true ->
  faulty w (OpWrite (metadata_file (new_session_id w))) = false ->
  exists w' metadata,
    TaskInterceptor.main isoformat w = (Ok tt, w') /\
    stdout w' = stdout w ++ [j] /\
    environ w' =
      <["TELEMETRY_SESSION_ID" := new_session_id w]>
        (<["TELEMETRY_ENABLED" := "true"]>
           (<["EVOLUTION_SESSION_ID" := new_session_id w]> (environ w))) /\
    files w' =
      <[metadata_file (new_session_id w) := mkFile [CJson metadata] (now_ms w)]> (files w) /\
    field "session_id" metadata = Some (JStr (new_session_id w)) /\
    dirs w' = dirs w.
Proof.
  intros Hin (kvs & tool & args & -> & Htool & Hname & Hargs & Hprompt) Hq Hdir Hw.
  unfold TaskInterceptor.main, TaskInterceptor.main_body, try_except.
  step. unfold Os.read_stdin_json. rewrite Hin. cbv beta iota.
  step. unfold lift at 1. rewrite Htool. cbv beta iota.
  step. unfold lift at 1. rewrite Hname. cbv beta iota.
  step. unfold lift at 1. cbv beta iota.
  step. unfold lift at 1. rewrite Hargs. cbv beta iota.
  cbn [Py.ne_str Py.is_str String.eqb Ascii.eqb Bool.eqb negb]. cbv iota.
  step. step. unfold lift at 1. rewrite Hprompt. cbv beta iota.
  rewrite Hq. unfold TaskInterceptor.start_session.
  step. unfold TaskInterceptor.setup_evolution_session.
  step. unfold Os.time_ms at 1. cbv beta iota.
  step. unfold Os.uuid4 at 1. cbv beta iota.
  step. unfold Os.environ_set at 1. cbv beta iota.
  step. unfold Os.environ_set at 1. cbv beta iota.
  step. unfold Os.environ_set at 1. cbv beta iota.
  unfold ret at 1. cbv beta iota.
  step. rewrite debug_run. cbv beta iota.
  step.
  match goal with
  | |- context [match TaskInterceptor.extract_reference_info prompt with _ => _ end ?w0] =>
      assert (exists m, (match TaskInterceptor.extract_reference_info prompt with
                         | Some (String c r) =>
                             Os.debug "DEBUG_EVOLUTION" ("Reference: " +:+ String c r)
                         | _ => ret tt
                         end) w0 = (Ok tt, after_debug "DEBUG_EVOLUTION" m w0)
                        \/ (match TaskInterceptor.extract_reference_info prompt with
                            | Some (String c r) =>
                                Os.debug "DEBUG_EVOLUTION" ("Reference: " +:+ String c r)
                            | _ => ret tt
                            end) w0 = (Ok tt, w0)) as [m Href]
  end.
  { destruct (TaskInterceptor.extract_reference_info prompt) as [[|c r]|];
      try (exists ""; right; reflexivity).
    eexists. left. apply debug_run. }
  destruct Href as [Href | Href]; rewrite Href; cbv beta iota;
    (step; unfold Os.time_ms at 1; cbv beta iota;
     unfold Os.write_file, Os.has_dir, metadata_file in *; wnorm; unfold new_session_id in *; rewrite Hdir, Hw;
     cbv beta iota;
     unfold negb, orb; cbv iota; cbv beta iota;
     step; eexists _, _; split; [reflexivity |]; wnorm;
     repeat split; reflexivity).
Qed.

(** C1 (amended): while no session id is in the environment, the
    pre-capture and the post-capture entry points write every input
    envelope back unchanged and touch neither files nor directories nor
    the environment, and so does the checkpoint entry point where it can
    read the session context.  The classify-and-start entry point passes
    through every envelope that is not a Task request with a qualifying
    prompt (of ASCII text), and on a qualifying Task request it starts a
    session: it publishes the new session id, writes the scratch metadata
    file and still writes the envelope back unchanged. *)
Theorem C1_no_session_pass_through (w : World) (j : JSON) (name : string) :
  stdin w = Some j -> no_session w -> envelope j name ->
  passes_through (TelemetryEnhancer.main py_repr) w j
  /\ passes_through (TelemetryCollector.main py_repr isoformat) w j
  /\ (context_reads w = true ->
      passes_through (CheckpointManager.main isoformat strftime) w j)
  /\ (name <> "Task" -> passes_through (TaskInterceptor.main isoformat) w j)
  /\ (forall prompt,
        task_request j prompt -> PyStr.isascii prompt = true ->
        TaskInterceptor.is_evolution_prompt prompt = false ->
        passes_through (TaskInterceptor.main isoformat) w j)
  /\ (forall prompt,
        task_request j prompt ->
        TaskInterceptor.is_evolution_prompt prompt = true ->
        Os.has_dir w tmp_dir = true ->
        faulty w (OpWrite (metadata_file (new_session_id w))) = false ->
        exists w',
          TaskInterceptor.main isoformat w = (Ok tt, w') /\
          stdout w' = stdout w ++ [j] /\
          environ w' !! "EVOLUTION_SESSION_ID" = Some (new_session_id w) /\
          is_Some (files w' !! metadata_file (new_session_id w))).
Proof.
  intros Hin Hno Henv.
  split; [now apply enhancer_passes_through with name |].
  split; [now apply collector_passes_through with name |].
  split; [intros Hctx; now apply checkpoint_passes_through |].
  split; [intros Hne; now apply interceptor_other_tool with name |].
  split; [intros prompt Ht _ Hp; now apply interceptor_plain_task with prompt |].
  intros prompt Ht Hq Hdir Hw.
  destruct (interceptor_starts_session w j prompt Hin Ht Hq Hdir Hw)
    as (w' & metadata & Hrun & Hout & Henv' & Hfiles & _).
  exists w'. split; [exact Hrun |]. split; [exact Hout |].
  rewrite Henv', Hfiles. split.
  - rewrite lookup_insert_ne by discriminate.
    rewrite lookup_insert_ne by discriminate. apply lookup_insert_eq.
  - rewrite lookup_insert_eq. eauto.
Qed.

End NoSession.

(* ===================================================================== *)
(** * The checkpoint *)
(* ===================================================================== *)

Section Checkpoint.
Import CheckpointManager.
Variable isoformat : Z -> string.
Variable strftime : Z -> string.

Lemma finalize_total (sid : option string) (w : World) :
  exists w', finalize_telemetry_session isoformat sid w = (Ok tt, w').
Proof.
  unfold finalize_telemetry_session.
  destruct sid as [[|c s]|]; try (eexists; reflexivity).
  step. unfold Os.time_ms at 1. cbv beta iota. unfold try_except, bind.
  destruct (Os.append_file _ _ w) as [[[]|e] w1]; rewrite debug_run; eauto.
Qed.

(** When the archive step returns no path, the resume guide is skipped
    and the sweep and the clearing of the context follow. *)
Lemma checkpoint_after_failed_archive (sid : string) (w : World) :
  exists w1,
    finalize_telemetry_session isoformat (Some sid)
      (after_debug "DEBUG_EVOLUTION"
         ("Evolution checkpoint triggered for session: " +:+ sid) w) = (Ok tt, w1) /\
    forall w2,
      archive_evolution_data isoformat strftime (Some sid) w1 = (Ok None, w2) ->
      exists w3,
        cleanup_temporary_files w2 = (Ok tt, w3) /\
        checkpoint isoformat strftime sid w =
        (Ok tt,
         after_debug "DEBUG_EVOLUTION" "Evolution checkpoint complete"
           (with_environ (delete "EVOLUTION_SESSION_ACTIVE")
              (with_environ (delete "EVOLUTION_SESSION_ID") w3))).
Proof.
  destruct (finalize_total (Some sid)
              (after_debug "DEBUG_EVOLUTION"
                 ("Evolution checkpoint triggered for session: " +:+ sid) w))
    as [w1 Hfin].
  exists w1. split; [exact Hfin |]. intros w2 Harch.
  destruct (cleanup_spec w2) as (w3 & Hclean & _).
  exists w3. split; [exact Hclean |].
  unfold checkpoint.
  step. rewrite debug_run. cbv beta iota.
  step. rewrite Hfin. cbv beta iota.
  step. rewrite Harch. cbv beta iota.
  step. unfold generate_resume_instructions, ret at 1. cbv beta iota.
  step. rewrite Hclean. cbv beta iota.
  step. unfold Os.environ_discard at 1. cbv beta iota.
  step. unfold Os.environ_discard at 1. cbv beta iota.
  apply debug_run.
Qed.

(** [setup_evolution_session] publishes the session id under two names
    and [TELEMETRY_ENABLED]; the flag the checkpoint tests is not among
    them. *)
Lemma setup_leaves_active_flag (w : World) :
  exists sid w',
    TaskInterceptor.setup_evolution_session w = (Ok sid, w') /\
    sid = new_session_id w /\
    environ w' !! "EVOLUTION_SESSION_ID" = Some sid /\
    environ w' !! "TELEMETRY_SESSION_ID" = Some sid /\
    environ w' !! "TELEMETRY_ENABLED" = Some "true" /\
    environ w' !! "EVOLUTION_SESSION_ACTIVE" = environ w !! "EVOLUTION_SESSION_ACTIVE".
Proof.
  exists (new_session_id w),
    (with_environ (insert "TELEMETRY_SESSION_ID" (new_session_id w))
       (with_environ (insert "TELEMETRY_ENABLED" "true")
          (with_environ (insert "EVOLUTION_SESSION_ID" (new_session_id w)) w))).
  split; [reflexivity |]. split; [reflexivity |]. wsimpl.
  split; [| split; [| split]].
  - rewrite lookup_insert_ne by discriminate.
    rewrite lookup_insert_ne by discriminate. apply lookup_insert_eq.
  - apply lookup_insert_eq.
  - rewrite lookup_insert_ne by discriminate. apply lookup_insert_eq.
  - now rewrite !lookup_insert_ne by discriminate.
Qed.

End Checkpoint.

Section Scenarios.
Import Scenario.

(** C3 (the code at the failing input): the interceptor accepts the
    request and publishes the session id and [TELEMETRY_ENABLED], but not
    [EVOLUTION_SESSION_ACTIVE]; the checkpoint that follows finds its flag
    unset and leaves log, archive, scratch file and context untouched.
    With the flag set by hand the same checkpoint archives the scratch
    file and clears the session id. *)
Theorem C3_checkpoint_skips_intercepted_session :
  let w1 := (TaskInterceptor.main iso0 (idle task_envelope)).2 in
  let w2 := invoke (CheckpointManager.main iso0 strf0) stop_envelope (clock0 + 60000) w1 in
  let flagged := with_environ (insert "EVOLUTION_SESSION_ACTIVE" "true") w1 in
  let w3 :=
    invoke (CheckpointManager.main iso0 strf0) stop_envelope (clock0 + 60000) flagged in
  let sid := "1700000000-evolution-deadbeef" in
  let archive := join archive_root (strf0 (clock0 + 60000) +:+ "_" +:+ sid) in
  (* what session creation publishes *)
  (TaskInterceptor.is_evolution_prompt qualifying_prompt = true /\
   environ w1 !! "EVOLUTION_SESSION_ID" = Some sid /\
   environ w1 !! "TELEMETRY_SESSION_ID" = Some sid /\
   environ w1 !! "TELEMETRY_ENABLED" = Some "true" /\
   environ w1 !! "EVOLUTION_SESSION_ACTIVE" = None)
  /\
  (* the checkpoint that follows *)
  (files w2 = files w1 /\ dirs w2 = dirs w1 /\ environ w2 = environ w1 /\
   is_Some (files w2 !! metadata_file sid) /\
   files w2 !! log_file sid = None /\
   stdout w2 = [task_envelope; stop_envelope])
  /\
  (* the same checkpoint, had the flag been set *)
  (files w3 !! metadata_file sid = None /\
   is_Some (files w3 !! (archive, "session-metadata.json")) /\
   is_Some (files w3 !! (archive, "RESUME_INSTRUCTIONS.md")) /\
   length (log_lines w3 sid) = 1 /\
   environ w3 !! "EVOLUTION_SESSION_ID" = None).
Proof.
  cbv zeta. repeat split; try (vm_compute; reflexivity); vm_compute; eauto.
Qed.

(** C7 (the code at the failing input): the archive root cannot be
    created, [os.makedirs] raises before the guarded block of the archive
    step, and the checkpoint ends in the handler of [main]: the session
    marker had been appended, but the stale scratch file is still there,
    the session id and the active flag are still set, and the output is
    the empty object.  When the archive step fails inside its guarded
    block instead, the sweep and the clearing do follow. *)
Theorem C7_archive_root_failure_aborts_checkpoint :
  let w := at_checkpoint archive_root_refused in
  let w' := (CheckpointManager.main iso0 strf0 w).2 in
  let v := at_checkpoint summary_refused in
  let v' := (CheckpointManager.main iso0 strf0 v).2 in
  (* the archive root cannot be created *)
  ((CheckpointManager.main iso0 strf0 w).1 = Ok tt /\
   length (log_lines w' "s1") = 1 /\
   is_Some (files w' !! stale_scratch) /\
   environ w' !! "EVOLUTION_SESSION_ID" = Some "s1" /\
   environ w' !! "EVOLUTION_SESSION_ACTIVE" = Some "true" /\
   stdout w' = [JObj []])
  /\
  (* the summary cannot be written *)
  ((CheckpointManager.main iso0 strf0 v).1 = Ok tt /\
   length (log_lines v' "s1") = 1 /\
   files v' !! stale_scratch = None /\
   is_Some (files v' !! young_scratch) /\
   environ v' !! "EVOLUTION_SESSION_ID" = None /\
   environ v' !! "EVOLUTION_SESSION_ACTIVE" = None /\
   files v' !! (join archive_root (strf0 clock0 +:+ "_s1"), "RESUME_INSTRUCTIONS.md")
     = None /\
   stdout v' = [stop_envelope]).
Proof.
  cbv zeta. repeat split; try (vm_compute; reflexivity); vm_compute; eauto.
Qed.

End Scenarios.

(* ===================================================================== *)
(** * Further properties of the hooks *)
(* ===================================================================== *)

(** ** Text *)

Module TextFacts.

Lemma length_app (a b : string) :
  String.length (a +:+ b) = String.length a + String.length b.
Proof. induction a as [|c a IH]; simpl; [reflexivity | now rewrite IH]. Qed.

Lemma app_nil_r (a : string) : a +:+ "" = a.
Proof. induction a as [|c a IH]; simpl; [reflexivity | now rewrite IH]. Qed.

Lemma substring_app_r (a b : string) (n : nat) :
  String.substring (String.length a) n (a +:+ b) = String.substring 0 n b.
Proof. induction a as [|c a IH]; simpl; [reflexivity | exact IH]. Qed.

Lemma all_chars_app (P : ascii -> bool) (a b : string) :
  all_chars P (a +:+ b) = all_chars P a && all_chars P b.
Proof.
  induction a as [|c a IH]; simpl; [reflexivity |].
  now rewrite IH, andb_assoc.
Qed.

(** What [lstrip] cuts off, and what it leaves. *)
Lemma lstrip_split (s : string) :
  exists a, s = a +:+ PyStr.lstrip s.
Proof.
  induction s as [|c s [a IH]]; simpl.
  - now exists "".
  - destruct (PyStr.is_space c).
    + exists (String c a). simpl. now rewrite <- IH.
    + now exists "".
Qed.

Lemma lstrip_head (s : string) :
  match PyStr.lstrip s with
  | String c _ => PyStr.is_space c = false
  | EmptyString => True
  end.
Proof.
  induction s as [|c s IH]; simpl; [exact I |].
  destruct (PyStr.is_space c) eqn:E; [exact IH | exact E].
Qed.

Lemma rstrip_split (s : string) :
  exists b, s = PyStr.rstrip s +:+ b.
Proof.
  induction s as [|c s [b IH]]; simpl.
  - now exists "".
  - destruct (PyStr.rstrip s) as [|x r] eqn:E.
    + destruct (PyStr.is_space c).
      * exists (String c s). reflexivity.
      * exists s. reflexivity.
    + exists b. simpl in IH. now rewrite IH at 1.
Qed.

Lemma rstrip_cons (c : ascii) (s : string) :
  PyStr.is_space c = false -> PyStr.rstrip (String c s) = String c (PyStr.rstrip s).
Proof. intros H. simpl. rewrite H. now destruct (PyStr.rstrip s). Qed.

Lemma rstrip_idem (s : string) : PyStr.rstrip (PyStr.rstrip s) = PyStr.rstrip s.
Proof.
  induction s as [|c s IH]; simpl; [reflexivity |].
  destruct (PyStr.rstrip s) as [|x r] eqn:E.
  - destruct (PyStr.is_space c) eqn:Hc; simpl; [reflexivity | now rewrite Hc].
  - cbn [PyStr.rstrip]. cbn [PyStr.rstrip] in IH. rewrite IH. reflexivity.
Qed.

Lemma strip_idem (s : string) : PyStr.strip (PyStr.strip s) = PyStr.strip s.
Proof.
  unfold PyStr.strip. pose proof (lstrip_head s) as Hh.
  destruct (PyStr.lstrip s) as [|c t]; [reflexivity |].
  rewrite (rstrip_cons c t Hh). cbn [PyStr.lstrip]. rewrite Hh.
  rewrite (rstrip_cons c _ Hh). now rewrite rstrip_idem.
Qed.

Lemma strip_split (s : string) :
  exists a b, s = a +:+ PyStr.strip s +:+ b.
Proof.
  unfold PyStr.strip. destruct (lstrip_split s) as [a Ha].
  destruct (rstrip_split (PyStr.lstrip s)) as [b Hb].
  exists a, b. now rewrite <- Hb.
Qed.

End TextFacts.

(* ===================================================================== *)
(** ** Tools outside the observed toolset *)
(* ===================================================================== *)

Section Filter.
Variable py_repr : JSON -> string.
Variable isoformat : Z -> string.

Lemma enhancer_skips_other_tools (w : World) (j : JSON) (name : string) :
  stdin w = Some j -> envelope j name ->
  PyStr.startswith name "mcp__indesign__" = false ->
  passes_through (TelemetryEnhancer.main py_repr) w j.
Proof.
  intros Hin (kvs & tool & -> & Htool & Hname) Hpre.
  apply passes_through_intro.
  unfold TelemetryEnhancer.main, TelemetryEnhancer.main_body, try_except.
  step. unfold Os.read_stdin_json. rewrite Hin. cbv beta iota.
  step. unfold lift at 1. rewrite Htool. cbv beta iota.
  step. unfold lift at 1. rewrite Hname. cbv beta iota.
  step. unfold lift at 1. unfold Py.startswith. cbv beta iota.
  rewrite Hpre. reflexivity.
Qed.

Lemma collector_skips_other_tools (w : World) (j : JSON) (name : string) :
  stdin w = Some j -> envelope j name ->
  PyStr.startswith name "mcp__indesign__" = false ->
  passes_through (TelemetryCollector.main py_repr isoformat) w j.
Proof.
  intros Hin (kvs & tool & -> & Htool & Hname) Hpre.
  apply passes_through_intro.
  unfold TelemetryCollector.main, TelemetryCollector.main_body, try_except.
  step. unfold Os.read_stdin_json. rewrite Hin. cbv beta iota.
  step. unfold lift at 1. rewrite Htool. cbv beta iota.
  step. unfold lift at 1. rewrite Hname. cbv beta iota.
  step. unfold lift at 1. cbn [Py.get]. cbv beta iota.
  step. unfold lift at 1. cbv beta iota.
  step. unfold lift at 1. unfold Py.startswith. cbv beta iota.
  rewrite Hpre. reflexivity.
Qed.

(** X1: a call of a tool whose name does not start with [mcp__indesign__]
    is none of the recorder's business, session or no session: the
    pre-capture and the post-capture hook write the envelope back
    unchanged and touch neither files nor directories nor the
    environment. *)
Theorem X1_other_tools_pass_through (w : World) (j : JSON) (name : string) :
  stdin w = Some j -> envelope j name ->
  PyStr.startswith name "mcp__indesign__" = false ->
  passes_through (TelemetryEnhancer.main py_repr) w j /\
  passes_through (TelemetryCollector.main py_repr isoformat) w j.
Proof.
  intros Hin Henv Hpre. split.
  - now apply enhancer_skips_other_tools with name.
  - now apply collector_skips_other_tools with name.
Qed.

End Filter.

(* ===================================================================== *)
(** ** The classifier and the reference line *)
(* ===================================================================== *)

Section Prompt.
Import TaskInterceptor.

Lemma occurs_ci_context (phrase before text after : string) :
  occurs_ci phrase text -> occurs_ci phrase (before +:+ text +:+ after).
Proof.
  intros (pre & mid & post & -> & Hm).
  exists (before +:+ pre), mid, (post +:+ after). split; [| exact Hm].
  now rewrite !StrFacts.app_assoc.
Qed.

(** X2: text around a qualifying prompt does not disqualify it: when
    [is_evolution_prompt] accepts a prompt, it accepts every text that
    has the prompt in it. *)
Theorem X2_classifier_keeps_accepting (before prompt after : string) :
  is_evolution_prompt prompt = true ->
  is_evolution_prompt (before +:+ prompt +:+ after) = true.
Proof.
  intros H. apply is_evolution_prompt_iff in H as (ps & [Hnd Hps] & Hlen).
  apply is_evolution_prompt_iff. exists ps. split; [split |]; [exact Hnd | | exact Hlen].
  intros p Hp. destruct (Hps p Hp) as [Hin Hoc].
  split; [exact Hin | now apply occurs_ci_context].
Qed.

Lemma one_line_part (a b c : string) : one_line (a +:+ b +:+ c) -> one_line b.
Proof.
  unfold one_line. rewrite !TextFacts.all_chars_app.
  intros H. apply andb_true_iff in H as [_ H]. now apply andb_true_iff in H as [H _].
Qed.

Lemma first_match_found (patterns : list (list Re.item)) (prompt r : string) :
  first_match patterns prompt = Some r ->
  exists pattern g,
    In pattern patterns /\ Re.search pattern prompt = Some g /\ r = PyStr.strip g.
Proof.
  induction patterns as [|pattern rest IH]; cbn [first_match]; [discriminate |].
  destruct (Re.search pattern prompt) as [g|] eqn:E.
  - intros H. injection H as <-. exists pattern, g. split; [now left | now split].
  - intros H. destruct (IH H) as (p & g & Hin & Hs & Hr).
    exists p, g. split; [now right | now split].
Qed.

(** X3: whatever [extract_reference_info] returns is a piece of the
    prompt that lies on one line and has no blank at either end. *)
Theorem X3_reference_is_a_trimmed_piece_of_one_line (prompt r : string) :
  extract_reference_info prompt = Some r ->
  PyStr.contains prompt r = true /\ one_line r /\ trimmed r.
Proof.
  intros H. apply first_match_found in H as (pattern & g & Hin & Hs & ->).
  assert (exists label, pattern = Re.labelled label) as [label ->].
  { unfold ref_patterns in Hin. simpl in Hin.
    destruct Hin as [<- | [<- | []]]; eexists; reflexivity. }
  pose proof (search_labelled label prompt) as Hread. rewrite Hs in Hread.
  destruct Hread as (pre & text & ws & -> & (lab & rest & -> & _ & _ & _ & Hline & _) & _).
  destruct (TextFacts.strip_split g) as (a & b & Hg).
  split; [| split].
  - apply StrFacts.contains_spec.
    exists (pre +:+ lab +:+ ws +:+ a), (b +:+ rest).
    rewrite Hg at 1. now rewrite !StrFacts.app_assoc.
  - rewrite Hg in Hline. exact (one_line_part _ _ _ Hline).
  - apply TextFacts.strip_idem.
Qed.

End Prompt.

(* ===================================================================== *)
(** ** The scratch file of a session and the sweep *)
(* ===================================================================== *)

Section Scratch.
Import CheckpointManager.

Lemma metadata_file_is_scratch (sid : string) :
  is_scratch_path (metadata_file sid) = true.
Proof.
  unfold is_scratch_path, metadata_file, is_scratch_name. cbn [fst snd].
  rewrite String.eqb_refl. cbn [andb].
  apply andb_true_iff. split; [apply andb_true_iff; split |].
  - reflexivity.
  - apply Nat.leb_le. rewrite !TextFacts.length_app. simpl. lia.
  - apply String.eqb_eq.
    rewrite <- StrFacts.app_assoc.
    replace (String.length (("evolution-" +:+ sid) +:+ ".json") - 5)
      with (String.length ("evolution-" +:+ sid))
      by (rewrite (TextFacts.length_app ("evolution-" +:+ sid)); simpl; lia).
    now rewrite TextFacts.substring_app_r.
Qed.

(** X4: the scratch file the interceptor writes for a session,
    [/tmp/evolution-<id>.json], is one the sweep looks at, whatever the
    session id: once it is more than one hour old the sweep deletes it,
    and before that the sweep leaves it as it is. *)
Theorem X4_sweep_reclaims_session_scratch_file (w : World) (sid : string) (f : File) :
  Os.lookup_file w (metadata_file sid) = Some f ->
  can_delete w (metadata_file sid) ->
  exists w',
    cleanup_temporary_files w = (Ok tt, w') /\
    (older_than_one_hour w f -> files w' !! metadata_file sid = None) /\
    (~ older_than_one_hour w f -> files w' !! metadata_file sid = Some f).
Proof.
  intros Hl [Hg Hr].
  destruct (cleanup_spec w) as (w' & Hrun & _ & Hfiles).
  exists w'. split; [exact Hrun |].
  assert (Hf : files w !! metadata_file sid = Some f).
  { unfold Os.lookup_file in Hl. now destruct (Os.has_dir w (metadata_file sid).1). }
  rewrite Hfiles, metadata_file_is_scratch. unfold sweeps. rewrite Hl, Hg, Hr, Hf.
  cbn [negb andb]. rewrite andb_true_r.
  unfold older_than_one_hour, one_hour_ms.
  destruct (Z.ltb_spec (3600 * 1000) (now_ms w - mtime f)); split; intros; try reflexivity;
    try lia; contradiction.
Qed.

End Scratch.


(* ===================================================================== *)
(** ** What the records say *)
(* ===================================================================== *)

Section Records.
Variable py_repr : JSON -> string.
Variable isoformat : Z -> string.

Lemma any_in_object_spec (args : list (string * JSON)) (keys : list string) :
  exists b, Py.any_in (JObj args) keys = Ok b /\ (b = true <-> has_any_key args keys).
Proof.
  induction keys as [|k keys (b & IH & Hb)]; cbn [Py.any_in Py.contains].
  - exists false. split; [reflexivity |]. split; [discriminate | intros (k & [] & _)].
  - destruct (Py.assoc k args) as [v|] eqn:E.
    + exists true. split; [reflexivity |]. split; [| reflexivity].
      intros _. exists k. split; [now left |]. unfold has_key. rewrite E. eauto.
    + exists b. split; [exact IH |]. rewrite Hb. split.
      * intros (k' & Hin & Hk). exists k'. split; [now right | exact Hk].
      * intros (k' & [<- | Hin] & Hk).
        -- unfold has_key in Hk. rewrite E in Hk. now destruct Hk.
        -- now exists k'.
Qed.

(** X5: on a mapping of arguments [analyze_tool_usage] counts the
    arguments, says of each of its three groups of keys whether one of
    them is present, and gives as complexity score the length of the
    arguments' text, cut off at 1000, in hundredths: a score between 0
    and 10. *)
Theorem X5_usage_analysis_of_a_mapping (tool_name : JSON) (args : list (string * JSON)) :
  let score := Z.min (Z.of_nat (String.length (py_repr (JObj args)))) 1000 in
  exists coordinates text style,
    TelemetryEnhancer.analyze_tool_usage py_repr tool_name (JObj args) =
      Ok (JObj [ ("parameter_count", JNum (Z.of_nat (length args)));
                 ("has_coordinates", JBool coordinates);
                 ("has_text_content", JBool text);
                 ("has_style_info", JBool style);
                 ("complexity_score", JFloat score 100) ]) /\
    (coordinates = true <-> has_any_key args ["x"; "y"; "width"; "height"]) /\
    (text = true <-> has_any_key args ["text"; "content"; "description"]) /\
    (style = true <-> has_any_key args ["style"; "font"; "alignment"]) /\
    (0 <= score <= 10 * 100)%Z.
Proof.
  intros score.
  destruct (any_in_object_spec args ["x"; "y"; "width"; "height"]) as (b1 & H1 & Hb1).
  destruct (any_in_object_spec args ["text"; "content"; "description"]) as (b2 & H2 & Hb2).
  destruct (any_in_object_spec args ["style"; "font"; "alignment"]) as (b3 & H3 & Hb3).
  exists b1, b2, b3.
  unfold TelemetryEnhancer.analyze_tool_usage. cbn [Py.len py_str].
  rewrite H1, H2, H3.
  split; [| split; [exact Hb1 |]; split; [exact Hb2 |]; split; [exact Hb3 |];
            unfold score; lia].
  do 6 f_equal. unfold score. rewrite Nat2Z.inj_min. reflexivity.
Qed.

(** X6: where the session context can be read, the record the
    pre-capture hook builds for a call and the record the post-capture
    hook builds for its completion agree on the tool, the parameters, the
    session, the agent and the generation, as long as the environment is
    the same; they differ in [capture_source], and each carries the clock
    of its own invocation. *)
Theorem X6_pre_and_post_records_agree
    (tool_call result : list (string * JSON)) (execution_time : JSON) (w v : World) :
  context_reads w = true -> environ v = environ w ->
  exists pre post,
    TelemetryEnhancer.enhance_telemetry_capture (JObj tool_call) w = (Ok pre, w) /\
    TelemetryCollector.complete_telemetry_record py_repr (JObj tool_call) (JObj result)
      execution_time v = (Ok post, v) /\
    Forall (fun k => is_Some (field k pre) /\ field k post = field k pre)
           ["tool"; "parameters"; "session_id"; "agent_id"; "generation"] /\
    field "capture_source" pre = Some (JStr "hook_preuse") /\
    field "capture_source" post = Some (JStr "hook_postuse") /\
    field "timestamp" pre = Some (JNum (now_ms w)) /\
    field "timestamp" post = Some (JNum (now_ms v)) /\
    field "execution_time" post = Some execution_time.
Proof.
  intros Hctx Henv.
  assert (Hctxv : context_reads v = true) by (now rewrite (context_reads_env w v Henv)).
  pose (error := match Py.assoc "error" result with Some e => e | None => JNull end).
  assert (Hget : Py.get (JObj result) "error" JNull = Ok error) by reflexivity.
  assert (exists analysis,
             TelemetryCollector.analyze_tool_result py_repr
               (match Py.assoc "name" tool_call with Some n => n | None => JStr "" end)
               (JObj result) = Ok analysis) as [analysis Ha].
  { destruct (Py.truthy error) eqn:Htr.
    - destruct (analyze_tool_result_error py_repr
                  (match Py.assoc "name" tool_call with Some n => n | None => JStr "" end)
                  _ _ Hget Htr) as (a & Ha & _). eauto.
    - destruct (analyze_tool_result_success py_repr
                  (match Py.assoc "name" tool_call with Some n => n | None => JStr "" end)
                  _ _ Hget Htr) as (a & Ha & _). eauto. }
  eexists _, _. split.
  { unfold TelemetryEnhancer.enhance_telemetry_capture.
    step. rewrite (get_session_info_run w Hctx). cbv beta iota.
    step. unfold Os.time_ms at 1. cbv beta iota.
    step. unfold lift at 1. cbn [Py.get]. cbv beta iota.
    step. unfold lift at 1. cbv beta iota.
    unfold ret. reflexivity. }
  split.
  { unfold TelemetryCollector.complete_telemetry_record.
    step. rewrite (get_session_info_run v Hctxv). cbv beta iota.
    step. unfold Os.time_ms at 1. cbv beta iota.
    step. unfold lift at 1. cbn [Py.get]. cbv beta iota.
    step. unfold lift at 1. cbv beta iota.
    step. unfold lift at 1. cbv beta iota. fold error.
    step. unfold lift at 1. cbv beta iota.
    step. unfold lift at 1. rewrite Ha. cbv beta iota.
    unfold ret. reflexivity. }
  cbn [session_id agent_id generation]. rewrite Henv, (generation_of_env w v Henv).
  destruct (Py.truthy error); cbn [negb];
    repeat split; repeat constructor; cbn; eauto.
Qed.

End Records.

(* ===================================================================== *)
(** ** A statistics file that cannot be used *)
(* ===================================================================== *)

Section Statistics.
Import TelemetryCollector.
Variable isoformat : Z -> string.

Lemma stats_body_unusable (sid : string) (f : File) (w : World) :
  Os.lookup_file w (stats_file sid) = Some f -> unusable_stats f ->
  exists e, stats_body isoformat sid w = (Raise e, w).
Proof.
  intros Hl Hbad. unfold stats_body.
  step. unfold Os.file_exists. rewrite Hl. cbv beta iota.
  step. unfold Os.load_json. rewrite Hl.
  destruct (faulty w (OpRead (stats_file sid))); [eexists; reflexivity |].
  unfold unusable_stats in Hbad.
  destruct (chunks f) as [|[j|t] [|? ?]]; try (eexists; reflexivity).
  destruct j as [| | | | | | |st]; try (eexists; reflexivity).
  cbv beta iota. step. unfold lift at 1. cbn [Py.get]. cbv beta iota.
  destruct (Py.assoc "total_tools" st) as [[| | | | | | |]|];
    try contradiction; eexists; reflexivity.
Qed.

(** X7: a statistics file that is not one JSON mapping with a numeric (or
    absent) counter is never repaired: [update_session_statistics]
    returns normally and leaves every file as it is, so the next update
    finds the same file again. *)
Theorem X7_unusable_statistics_stay_as_they_are (sid : string) (f : File) (w : World) :
  Os.lookup_file w (stats_file sid) = Some f -> unusable_stats f ->
  exists w',
    update_session_statistics isoformat sid w = (Ok tt, w') /\
    files w' = files w /\ dirs w' = dirs w /\ environ w' = environ w /\
    Os.lookup_file w' (stats_file sid) = Some f.
Proof.
  intros Hl Hbad.
  destruct (stats_body_unusable sid f w Hl Hbad) as [e Hbody].
  change (update_session_statistics isoformat sid)
    with (try_except (stats_body isoformat sid)
            (fun _ => Os.debug "DEBUG_TELEMETRY" "Stats update error")).
  unfold try_except. rewrite Hbody, debug_run.
  eexists. split; [reflexivity |].
  unfold Os.lookup_file, Os.has_dir in *. wnorm. auto.
Qed.

End Statistics.


(* ===================================================================== *)
(** ** What a statement leaves alone *)
(* ===================================================================== *)

Section Context.

Lemma same_context_refl (w : World) : same_context w w.
Proof. unfold same_context. split_and!; reflexivity. Qed.

Lemma same_context_trans (w1 w2 w3 : World) :
  same_context w1 w2 -> same_context w2 w3 -> same_context w1 w3.
Proof.
  unfold same_context.
  intros (? & ? & ? & ? & ? & ? & ?) (? & ? & ? & ? & ? & ? & ?).
  split_and!; try congruence. set_solver.
Qed.

Lemma same_context_after_debug (flag msg : string) (w : World) :
  same_context w (after_debug flag msg w).
Proof. unfold same_context. autorewrite with world. split_and!; reflexivity. Qed.

Lemma same_context_ensure_dir (d : string) (w : World) :
  same_context w (ensure_dir d w).
Proof.
  unfold same_context. autorewrite with world. split_and!; try reflexivity.
  unfold ensure_dir. destruct (Os.has_dir w d); wsimpl; set_solver.
Qed.

Lemma has_dir_mono (w w' : World) (d : string) :
  same_context w w' -> Os.has_dir w d = true -> Os.has_dir w' d = true.
Proof.
  intros (_ & _ & _ & _ & _ & _ & Hsub). unfold Os.has_dir.
  rewrite !bool_decide_eq_true. set_solver.
Qed.

Lemma dir_available_mono (w w' : World) (d : string) :
  same_context w w' -> dir_available w d -> dir_available w' d.
Proof.
  intros Hc [H | H]; [left; now apply has_dir_mono with w |].
  right. destruct Hc as (_ & -> & _). exact H.
Qed.

Lemma keeps_ret {A} (a : A) : keeps_context (ret a).
Proof. intros w. apply same_context_refl. Qed.

Lemma keeps_raise {A} (e : Exn) : keeps_context (@raise A e).
Proof. intros w. apply same_context_refl. Qed.

Lemma keeps_lift {A} (r : Res A) : keeps_context (lift r).
Proof. intros w. apply same_context_refl. Qed.

Lemma keeps_bind {A B} (c : M A) (k : A -> M B) :
  keeps_context c -> (forall a, keeps_context (k a)) -> keeps_context (bind c k).
Proof.
  intros Hc Hk w. unfold bind. specialize (Hc w).
  destruct (c w) as [[a|e] w1]; cbn [snd] in *; [| exact Hc].
  eapply same_context_trans; [exact Hc | apply Hk].
Qed.

Lemma keeps_try {A} (c : M A) (h : Exn -> M A) :
  keeps_context c -> (forall e, keeps_context (h e)) -> keeps_context (try_except c h).
Proof.
  intros Hc Hh w. unfold try_except. specialize (Hc w).
  destruct (c w) as [[a|e] w1]; cbn [snd] in *; [exact Hc |].
  eapply same_context_trans; [exact Hc | apply Hh].
Qed.

Lemma keeps_for_each {A} (l : list A) (body : A -> M unit) :
  (forall a, keeps_context (body a)) -> keeps_context (for_each l body).
Proof.
  intros Hb. induction l as [|a l IH]; cbn [for_each].
  - apply keeps_ret.
  - apply keeps_bind; [apply Hb | intros _; exact IH].
Qed.

Ltac keeps_op :=
  intros w;
  repeat match goal with
         | |- context [match ?x with _ => _ end] => destruct x
         end;
  unfold same_context; wsimpl; split_and!; try reflexivity; set_solver.

Lemma keeps_environ_get k : keeps_context (Os.environ_get k).
Proof. keeps_op. Qed.
Lemma keeps_environ_get_default k d : keeps_context (Os.environ_get_default k d).
Proof. keeps_op. Qed.
Lemma keeps_makedirs d : keeps_context (Os.makedirs d).
Proof. unfold Os.makedirs. keeps_op. Qed.
Lemma keeps_dir_exists d : keeps_context (Os.dir_exists d).
Proof. keeps_op. Qed.
Lemma keeps_file_exists p : keeps_context (Os.file_exists p).
Proof. keeps_op. Qed.
Lemma keeps_append_file p c : keeps_context (Os.append_file p c).
Proof. unfold Os.append_file. keeps_op. Qed.
Lemma keeps_write_file p c : keeps_context (Os.write_file p c).
Proof. unfold Os.write_file. keeps_op. Qed.
Lemma keeps_load_json p : keeps_context (Os.load_json p).
Proof. unfold Os.load_json. keeps_op. Qed.
Lemma keeps_listdir d : keeps_context (Os.listdir d).
Proof. unfold Os.listdir. keeps_op. Qed.
Lemma keeps_copy2 p q : keeps_context (Os.copy2 p q).
Proof. unfold Os.copy2. keeps_op. Qed.
Lemma keeps_remove p : keeps_context (Os.remove p).
Proof. unfold Os.remove. keeps_op. Qed.
Lemma keeps_getmtime p : keeps_context (Os.getmtime p).
Proof. unfold Os.getmtime. keeps_op. Qed.
Lemma keeps_time_ms : keeps_context Os.time_ms.
Proof. keeps_op. Qed.
Lemma keeps_debug f m : keeps_context (Os.debug f m).
Proof. unfold Os.debug. keeps_op. Qed.
Lemma keeps_glob_scratch : keeps_context CheckpointManager.glob_scratch.
Proof. keeps_op. Qed.

(** Statements that cannot raise. *)
Lemma never_raises_ret {A} (a : A) : never_raises (ret a).
Proof. intros w. now exists a, w. Qed.

Lemma never_raises_bind {A B} (c : M A) (k : A -> M B) :
  never_raises c -> (forall a, never_raises (k a)) -> never_raises (bind c k).
Proof.
  intros Hc Hk w. unfold bind. destruct (Hc w) as (a & w1 & ->). apply Hk.
Qed.

Lemma never_raises_try {A} (c : M A) (h : Exn -> M A) :
  (forall e, never_raises (h e)) -> never_raises (try_except c h).
Proof.
  intros Hh w. unfold try_except.
  destruct (c w) as [[a|e] w1]; [now exists a, w1 | apply Hh].
Qed.

Lemma never_raises_debug (flag msg : string) : never_raises (Os.debug flag msg).
Proof. intros w. rewrite debug_run. eauto. Qed.

Lemma never_raises_time_ms : never_raises Os.time_ms.
Proof. intros w. now exists (now_ms w), w. Qed.

End Context.

Create HintDb context.

#[export] Hint Resolve
  keeps_ret keeps_raise keeps_lift
  keeps_environ_get keeps_environ_get_default keeps_makedirs keeps_dir_exists
  keeps_file_exists keeps_append_file keeps_write_file keeps_load_json keeps_listdir
  keeps_copy2 keeps_remove keeps_getmtime keeps_time_ms keeps_debug
  keeps_glob_scratch : context.

(** Statement by statement, as for the output streams. *)
Ltac framing :=
  repeat first
    [ solve [auto with context]
    | apply keeps_bind; [| intros ?]
    | apply keeps_try; [| intros ?]
    | apply keeps_for_each; intros ?
    | match goal with
      | |- keeps_context (match ?x with _ => _ end) => destruct x
      | |- keeps_context (if ?b then _ else _) => destruct b
      | |- keeps_context (let _ := _ in _) => cbv zeta
      end ].

Section Steps.
Import CheckpointManager.
Variable isoformat : Z -> string.
Variable strftime : Z -> string.

Lemma keeps_finalize (sid : option string) :
  keeps_context (finalize_telemetry_session isoformat sid).
Proof. unfold finalize_telemetry_session. framing. Qed.

Lemma keeps_copy_session_files (sid archive : string) (names archived : list string) :
  keeps_context (copy_session_files sid archive names archived).
Proof.
  revert archived. induction names as [|n names IH]; intros archived;
    cbn [copy_session_files]; framing; apply IH.
Qed.

Lemma keeps_archive (sid : option string) :
  keeps_context (archive_evolution_data isoformat strftime sid).
Proof.
  unfold archive_evolution_data. pose proof keeps_copy_session_files. framing.
Qed.

Lemma keeps_cleanup : keeps_context cleanup_temporary_files.
Proof. unfold cleanup_temporary_files. framing. Qed.

Lemma keeps_resume (sid : string) (archive_path : option string) :
  keeps_context (generate_resume_instructions isoformat sid archive_path).
Proof. unfold generate_resume_instructions. framing. Qed.

Lemma keeps_update_stats (sid : string) :
  keeps_context (TelemetryCollector.update_session_statistics isoformat sid).
Proof. unfold TelemetryCollector.update_session_statistics. framing. Qed.

Lemma never_raises_finalize (sid : option string) :
  never_raises (finalize_telemetry_session isoformat sid).
Proof.
  unfold finalize_telemetry_session.
  destruct sid as [[|c s]|]; try apply never_raises_ret.
  apply never_raises_bind; [apply never_raises_time_ms | intros now].
  apply never_raises_try. intros _. apply never_raises_debug.
Qed.

Lemma never_raises_resume (sid : string) (archive_path : option string) :
  never_raises (generate_resume_instructions isoformat sid archive_path).
Proof.
  unfold generate_resume_instructions.
  destruct archive_path as [[|c p]|]; try apply never_raises_ret.
  apply never_raises_bind; [apply never_raises_time_ms | intros now].
  apply never_raises_try. intros _. apply never_raises_debug.
Qed.

Lemma never_raises_cleanup : never_raises cleanup_temporary_files.
Proof.
  unfold cleanup_temporary_files. apply never_raises_try.
  intros _. apply never_raises_debug.
Qed.

Lemma never_raises_update_stats (sid : string) :
  never_raises (TelemetryCollector.update_session_statistics isoformat sid).
Proof.
  unfold TelemetryCollector.update_session_statistics. apply never_raises_try.
  intros _. apply never_raises_debug.
Qed.

(** X8: the best-effort steps keep their failures to themselves.
    Whatever the files and whatever the system refuses, marking the
    session complete, updating the statistics, writing the resume guide
    and sweeping the scratch directory return normally, and none of them
    changes the environment, reads or prints on the standard streams, or
    removes a directory. *)
Theorem X8_best_effort_steps_never_raise
    (sid : string) (archive_path : option string) (w : World) :
  (exists w', finalize_telemetry_session isoformat (Some sid) w = (Ok tt, w') /\
              same_context w w')
  /\ (exists w', TelemetryCollector.update_session_statistics isoformat sid w = (Ok tt, w') /\
                 same_context w w')
  /\ (exists w', generate_resume_instructions isoformat sid archive_path w = (Ok tt, w') /\
                 same_context w w')
  /\ (exists w', cleanup_temporary_files w = (Ok tt, w') /\ same_context w w').
Proof.
  split; [| split; [| split]].
  - pose proof (keeps_finalize (Some sid) w) as Hk.
    destruct (never_raises_finalize (Some sid) w) as ([] & w' & Hrun).
    rewrite Hrun in Hk. eauto.
  - pose proof (keeps_update_stats sid w) as Hk.
    destruct (never_raises_update_stats sid w) as ([] & w' & Hrun).
    rewrite Hrun in Hk. eauto.
  - pose proof (keeps_resume sid archive_path w) as Hk.
    destruct (never_raises_resume sid archive_path w) as ([] & w' & Hrun).
    rewrite Hrun in Hk. eauto.
  - pose proof (keeps_cleanup w) as Hk.
    destruct (never_raises_cleanup w) as ([] & w' & Hrun).
    rewrite Hrun in Hk. eauto.
Qed.

(** The completion marker of a session at the clock value [now]. *)
Lemma finalize_run (sid : string) (w : World) :
  sid <> "" ->
  let marker :=
    JObj [ ("timestamp", JNum (now_ms w));
           ("session_id", JStr sid);
           ("event", JStr "session_complete");
           ("completion_time", JStr (isoformat (now_ms w)));
           ("capture_source", JStr "hook_stop") ] in
  exists msg,
    finalize_telemetry_session isoformat (Some sid) w =
    (Ok tt,
     after_debug "DEBUG_TELEMETRY" msg
       (if Os.has_dir w telemetry_dir && negb (faulty w (OpAppend (log_file sid)))
        then with_files
               (insert (log_file sid) (mkFile (log_lines w sid ++ [CJson marker]) (now_ms w)))
               w
        else w)).
Proof.
  intros Hne marker. destruct sid as [|c s]; [congruence |].
  unfold finalize_telemetry_session.
  step. unfold Os.time_ms at 1. cbv beta iota.
  unfold try_except. step. unfold Os.append_file.
  change ((telemetry_dir, String c s +:+ ".jsonl")) with (log_file (String c s)).
  change ((log_file (String c s)).1) with telemetry_dir.
  destruct (Os.has_dir w telemetry_dir); cbn [negb orb andb].
  - destruct (faulty w (OpAppend (log_file (String c s)))); cbn [negb];
      cbv beta iota; rewrite debug_run; eexists; reflexivity.
  - cbv beta iota. rewrite debug_run. eexists; reflexivity.
Qed.

(** X9: marking a session complete appends exactly one line to the
    session's log, the [session_complete] marker with the session id and
    the clock, creating the log when there is none; when the telemetry
    directory is missing or the append is refused the log stays as it
    is.  No other file, no directory and no environment variable
    changes, and the step does not raise. *)
Theorem X9_finalize_appends_one_marker (sid : string) (w : World) :
  sid <> "" ->
  exists w' marker,
    finalize_telemetry_session isoformat (Some sid) w = (Ok tt, w') /\
    field "event" marker = Some (JStr "session_complete") /\
    field "session_id" marker = Some (JStr sid) /\
    field "capture_source" marker = Some (JStr "hook_stop") /\
    field "timestamp" marker = Some (JNum (now_ms w)) /\
    (forall q, q <> log_file sid -> files w' !! q = files w !! q) /\
    dirs w' = dirs w /\ environ w' = environ w /\
    files w' !! log_file sid =
      if Os.has_dir w telemetry_dir && negb (faulty w (OpAppend (log_file sid)))
      then Some (mkFile (log_lines w sid ++ [CJson marker]) (now_ms w))
      else files w !! log_file sid.
Proof.
  intros Hne. destruct (finalize_run sid w Hne) as [msg Hrun]. cbv zeta in Hrun.
  eexists _,
    (JObj [ ("timestamp", JNum (now_ms w));
            ("session_id", JStr sid);
            ("event", JStr "session_complete");
            ("completion_time", JStr (isoformat (now_ms w)));
            ("capture_source", JStr "hook_stop") ]).
  split; [exact Hrun |].
  do 4 (split; [reflexivity |]).
  destruct (Os.has_dir w telemetry_dir && negb (faulty w (OpAppend (log_file sid))));
    wnorm.
  - split; [intros q Hq; now rewrite lookup_insert_ne |].
    split; [reflexivity |]. split; [reflexivity |]. apply lookup_insert_eq.
  - repeat split.
Qed.

End Steps.


(* ===================================================================== *)
(** ** The archive step *)
(* ===================================================================== *)

Section Archive.
Import CheckpointManager.
Variable isoformat : Z -> string.
Variable strftime : Z -> string.

Lemma archive_dir_fresh (name : string) :
  join archive_root name <> telemetry_dir /\ join archive_root name <> tmp_dir /\
  join archive_root name <> archive_root.
Proof.
  unfold join, archive_root, telemetry_dir, tmp_dir. simpl.
  split; [| split]; discriminate.
Qed.

Lemma has_dir_ensure_dir_ne (d d' : string) (w : World) :
  d <> d' -> Os.has_dir (ensure_dir d w) d' = Os.has_dir w d'.
Proof.
  intros Hne. unfold ensure_dir. destruct (Os.has_dir w d); [reflexivity |].
  unfold Os.has_dir. wsimpl. apply bool_decide_ext.
  rewrite elem_of_union, elem_of_singleton.
  split; [intros [Heq | H]; [congruence | exact H] | now right].
Qed.

Lemma makedirs_run (d : string) (w : World) :
  Os.makedirs d w =
  if negb (Os.has_dir w d) && faulty w (OpMakedirs d)
  then (Raise OSError, w) else (Ok tt, ensure_dir d w).
Proof.
  unfold Os.makedirs, ensure_dir.
  destruct (Os.has_dir w d); [reflexivity |]. now destruct (faulty w (OpMakedirs d)).
Qed.

Lemma archive_unfold (sid : string) :
  sid <> "" ->
  archive_evolution_data isoformat strftime (Some sid) =
  (Os.makedirs archive_root ;;
   let* now := Os.time_ms in
   let session_archive := join archive_root (strftime now +:+ "_" +:+ sid) in
   Os.makedirs session_archive ;;
   try_except (archive_body isoformat sid session_archive)
     (fun _ => Os.debug "DEBUG_EVOLUTION" "Archive error" ;; ret None)).
Proof. intros Hne. destruct sid as [|c s]; [congruence | reflexivity]. Qed.

Lemma bind_result {A B} (P : B -> Prop) (c : M A) (k : A -> M B) :
  (forall a w, match k a w with (Ok b, _) => P b | (Raise _, _) => True end) ->
  forall w, match bind c k w with (Ok b, _) => P b | (Raise _, _) => True end.
Proof.
  intros Hk w. unfold bind. destruct (c w) as [[a|e] w1]; [apply Hk | exact I].
Qed.

(** The guarded block returns the archive directory or raises. *)
Lemma archive_body_result (sid a : string) (w : World) :
  match archive_body isoformat sid a w with
  | (Ok r, _) => r = Some a
  | (Raise _, _) => True
  end.
Proof.
  unfold archive_body.
  repeat (apply bind_result; intros ? ?). reflexivity.
Qed.

Lemma keeps_context_body (sid a : string) :
  keeps_context (archive_body isoformat sid a).
Proof. unfold archive_body. pose proof keeps_copy_session_files. framing. Qed.

(** The archive step, case by case on its two directories. *)
Lemma archive_cases (sid : string) (w : World) :
  sid <> "" ->
  let a := archive_dir strftime w sid in
  let w1 := ensure_dir archive_root w in
  let w2 := ensure_dir a w1 in
  archive_evolution_data isoformat strftime (Some sid) w =
  if negb (Os.has_dir w archive_root) && faulty w (OpMakedirs archive_root)
  then (Raise OSError, w)
  else if negb (Os.has_dir w1 a) && faulty w (OpMakedirs a)
  then (Raise OSError, w1)
  else match archive_body isoformat sid a w2 with
       | (Ok _, w3) => (Ok (Some a), w3)
       | (Raise _, w3) => (Ok None, after_debug "DEBUG_EVOLUTION" "Archive error" w3)
       end.
Proof.
  intros Hne a w1 w2. rewrite (archive_unfold sid Hne).
  step. rewrite makedirs_run.
  destruct (negb (Os.has_dir w archive_root) && faulty w (OpMakedirs archive_root));
    [reflexivity |].
  cbv beta iota. fold w1. step. unfold Os.time_ms at 1. cbv beta iota zeta.
  replace (now_ms w1) with (now_ms w) by (unfold w1; now rewrite now_ensure_dir).
  fold (archive_dir strftime w sid). fold a.
  step. rewrite makedirs_run.
  replace (faulty w1) with (faulty w) by (unfold w1; now rewrite faulty_ensure_dir).
  destruct (negb (Os.has_dir w1 a) && faulty w (OpMakedirs a)); [reflexivity |].
  cbv beta iota. fold w2.
  unfold try_except. pose proof (archive_body_result sid a w2) as Hres.
  destruct (archive_body isoformat sid a w2) as [[r|e] w3].
  - now rewrite Hres.
  - unfold bind. rewrite debug_run. reflexivity.
Qed.

(** With both directories at hand the archive step returns. *)
Lemma archive_returns (sid : string) (w : World) :
  sid <> "" ->
  let a := archive_dir strftime w sid in
  dir_available w archive_root -> dir_available w a ->
  exists r w',
    archive_evolution_data isoformat strftime (Some sid) w = (Ok r, w') /\
    (r = Some a \/ r = None) /\
    Os.has_dir w' archive_root = true /\ Os.has_dir w' a = true.
Proof.
  intros Hne a Hroot Ha.
  pose proof (archive_cases sid w Hne) as Hrun. cbv zeta in Hrun. fold a in Hrun.
  assert (Hfresh : archive_root <> a).
  { intros H. symmetry in H. revert H. apply archive_dir_fresh. }
  rewrite Hrun, (has_dir_ensure_dir_ne _ _ _ Hfresh).
  assert (negb (Os.has_dir w archive_root) && faulty w (OpMakedirs archive_root) = false)
    as -> by (destruct Hroot as [-> | ->]; [reflexivity | apply andb_false_r]).
  assert (negb (Os.has_dir w a) && faulty w (OpMakedirs a) = false)
    as -> by (destruct Ha as [-> | ->]; [reflexivity | apply andb_false_r]).
  pose proof (keeps_context_body sid a (ensure_dir a (ensure_dir archive_root w))) as Hk.
  assert (Hdirs : Os.has_dir (ensure_dir a (ensure_dir archive_root w)) archive_root = true
                  /\ Os.has_dir (ensure_dir a (ensure_dir archive_root w)) a = true).
  { split; [| apply has_dir_ensure_dir].
    apply has_dir_mono with (ensure_dir archive_root w);
      [apply same_context_ensure_dir | apply has_dir_ensure_dir]. }
  destruct (archive_body isoformat sid a _) as [[r|e] w3]; cbn [snd] in Hk.
  - eexists _, _. split; [reflexivity |]. split; [now left |].
    split; eapply has_dir_mono; try exact Hk; apply Hdirs.
  - eexists _, _. split; [reflexivity |]. split; [now right |].
    split; (eapply has_dir_mono;
            [eapply same_context_trans; [exact Hk | apply same_context_after_debug] |]);
      apply Hdirs.
Qed.

(** X10: [archive_evolution_data] lets an exception out exactly when it
    cannot make one of its two directories, and then it is [OSError]: when
    the archive root is missing and refused nothing has changed; when
    the session's directory is missing and refused the archive root has
    been made and is left behind.  In every other case the step returns,
    with the path of the session's directory or with no path. *)
Theorem X10_archive_raises_only_for_its_directories (sid : string) (w : World) :
  sid <> "" ->
  let a := archive_dir strftime w sid in
  (Os.has_dir w archive_root = false -> faulty w (OpMakedirs archive_root) = true ->
   archive_evolution_data isoformat strftime (Some sid) w = (Raise OSError, w))
  /\
  (dir_available w archive_root ->
   Os.has_dir w a = false -> faulty w (OpMakedirs a) = true ->
   archive_evolution_data isoformat strftime (Some sid) w =
     (Raise OSError, ensure_dir archive_root w))
  /\
  (dir_available w archive_root -> dir_available w a ->
   exists r w',
     archive_evolution_data isoformat strftime (Some sid) w = (Ok r, w') /\
     (r = Some a \/ r = None) /\
     Os.has_dir w' archive_root = true /\ Os.has_dir w' a = true).
Proof.
  intros Hne a. pose proof (archive_cases sid w Hne) as Hrun. cbv zeta in Hrun. fold a in Hrun.
  assert (Hfresh : archive_root <> a).
  { intros H. symmetry in H. revert H. apply archive_dir_fresh. }
  split; [| split].
  - intros Hd Hf. now rewrite Hrun, Hd, Hf.
  - intros Hroot Hd Hf. rewrite Hrun, (has_dir_ensure_dir_ne _ _ _ Hfresh), Hd, Hf.
    destruct Hroot as [-> | ->]; [reflexivity | now rewrite andb_false_r].
  - intros Hroot Ha. now apply archive_returns.
Qed.

(** The loop over the telemetry directory: the files with the session id
    in their name are copied under their own names, nothing else changes. *)
Lemma copy_session_files_spec (sid a : string) (names acc : list string) (w : World) :
  a <> telemetry_dir -> Os.has_dir w telemetry_dir = true -> Os.has_dir w a = true ->
  fault_free w ->
  (forall n, In n names -> is_Some (files w !! ((telemetry_dir, n) : path))) ->
  let picked := List.filter (fun n => PyStr.contains n sid) names in
  exists w',
    copy_session_files sid a names acc w = (Ok (acc ++ picked), w') /\
    same_directories w w' /\
    (forall n, In n picked ->
       files w' !! ((a, n) : path) = files w !! ((telemetry_dir, n) : path)) /\
    (forall q : path, ~ (q.1 = a /\ In q.2 picked) -> files w' !! q = files w !! q).
Proof.
  intros Ha Htel Harch. revert acc w Htel Harch.
  induction names as [|n0 names IH]; intros acc w Htel Harch Hfree Hnames picked.
  - exists w. cbn [copy_session_files]. subst picked. cbn [List.filter].
    rewrite app_nil_r. split; [reflexivity |].
    split; [split; [apply same_context_refl | reflexivity] |].
    split; [intros n [] | reflexivity].
  - cbn [copy_session_files]. subst picked. cbn [List.filter].
    destruct (PyStr.contains n0 sid) eqn:Hc.
    + destruct (Hnames n0 (or_introl eq_refl)) as [f0 Hf0].
      step. unfold Os.copy2, Os.lookup_file. cbn [fst snd].
      rewrite Htel, Hf0, Harch, (Hfree (OpCopy (telemetry_dir, n0) (a, n0))).
      cbn [negb orb]. cbv beta iota.
      set (w1 := with_files (insert ((a, n0) : path) f0) w).
      destruct (IH (acc ++ [n0]) w1) as (w' & Hrun & [Hctx Hdirs] & Hin & Hout).
      * exact Htel.
      * exact Harch.
      * exact Hfree.
      * intros n Hn. unfold w1. wsimpl. rewrite lookup_insert_ne by congruence.
        apply Hnames. now right.
      * exists w'. rewrite Hrun, <- app_assoc. split; [reflexivity |].
        split; [split; [exact Hctx | exact Hdirs] |]. split.
        -- intros n Hn.
           destruct (in_dec string_dec n
                       (List.filter (fun n => PyStr.contains n sid) names)) as [Hr | Hr].
           ++ rewrite (Hin n Hr). unfold w1. wsimpl. now rewrite lookup_insert_ne by congruence.
           ++ destruct Hn as [<- | Hn]; [| contradiction].
              rewrite Hout by (cbn [fst snd]; tauto).
              unfold w1. wsimpl. now rewrite lookup_insert_eq.
        -- intros q Hq. rewrite Hout by (cbn [In] in Hq; tauto).
           unfold w1. wsimpl. apply lookup_insert_ne.
           intros <-. apply Hq. cbn [fst snd In]. tauto.
    + destruct (IH acc w) as (w' & Hrun & Hdirs & Hin & Hout); try assumption.
      * intros n Hn. apply Hnames. now right.
      * exists w'. split; [exact Hrun |]. split; [exact Hdirs |]. split; assumption.
Qed.

Lemma lookup_file_frame (w w' : World) (p : path) :
  dirs w' = dirs w -> files w' !! p = files w !! p ->
  Os.lookup_file w' p = Os.lookup_file w p.
Proof. unfold Os.lookup_file, Os.has_dir. now intros -> ->. Qed.

Lemma lookup_file_files (w : World) (p : path) (f : File) :
  Os.lookup_file w p = Some f -> Os.has_dir w p.1 = true /\ files w !! p = Some f.
Proof. unfold Os.lookup_file. destruct (Os.has_dir w p.1); [auto | discriminate]. Qed.

(** The guarded block when nothing is refused. *)
Lemma archive_body_run (sid a : string) (w : World) :
  a <> telemetry_dir -> a <> tmp_dir -> Os.has_dir w a = true -> fault_free w ->
  exists w',
    archive_body isoformat sid a w = (Ok (Some a), w') /\
    (forall n, In n (session_files w sid) ->
       n <> "session-metadata.json" -> n <> "archive-summary.json" ->
       files w' !! ((a, n) : path) = files w !! ((telemetry_dir, n) : path)) /\
    (forall f, Os.lookup_file w (metadata_file sid) = Some f ->
       files w' !! ((a, "session-metadata.json") : path) = Some f /\
       files w' !! metadata_file sid = None) /\
    files w' !! ((a, "archive-summary.json") : path) =
      Some (mkFile
              [CJson (JObj [ ("session_id", JStr sid);
                             ("archive_time", JStr (isoformat (now_ms w)));
                             ("archive_path", JStr a);
                             ("archived_files", JArr (map JStr (archived_names w sid)));
                             ("total_files",
                               JNum (Z.of_nat (length (archived_names w sid)))) ])]
              (now_ms w)) /\
    (forall q : path, q.1 <> a -> q <> metadata_file sid -> files w' !! q = files w !! q).
Proof.
  intros Htel Htmp Harch Hfree.
  (* the telemetry files *)
  assert (Hloop : exists w1,
            (if Os.has_dir w telemetry_dir
             then let* names := Os.listdir telemetry_dir in
                  copy_session_files sid a names []
             else ret []) w = (Ok (session_files w sid), w1) /\
            same_directories w w1 /\
            (forall n, In n (session_files w sid) ->
               files w1 !! ((a, n) : path) = files w !! ((telemetry_dir, n) : path)) /\
            (forall q : path, ~ (q.1 = a /\ In q.2 (session_files w sid)) ->
               files w1 !! q = files w !! q)).
  { unfold session_files. destruct (Os.has_dir w telemetry_dir) eqn:Hd.
    - destruct (copy_session_files_spec sid a (Os.names_in telemetry_dir (files w)) [] w
                  Htel Hd Harch Hfree) as (w1 & Hrun & Hsame & Hin & Hout).
      { intros n Hn. apply names_in_spec. now apply list_elem_of_In. }
      exists w1. split; [| split; [exact Hsame | split; assumption]].
      step. unfold Os.listdir. rewrite Hd, (Hfree (OpListdir telemetry_dir)).
      cbn [negb orb]. cbv beta iota. exact Hrun.
    - exists w. split; [reflexivity |].
      split; [split; [apply same_context_refl | reflexivity] |].
      split; [intros n [] | reflexivity]. }
  destruct Hloop as (w1 & Hloop & [Hctx1 Hdirs1] & Hin1 & Hout1).
  assert (Hfree1 : fault_free w1).
  { intros op. destruct Hctx1 as (_ & -> & _). apply Hfree. }
  assert (Harch1 : Os.has_dir w1 a = true) by (now apply has_dir_mono with w).
  assert (Hmeta1 : Os.lookup_file w1 (metadata_file sid) = Os.lookup_file w (metadata_file sid)).
  { apply lookup_file_frame; [exact Hdirs1 |]. apply Hout1. cbn [fst snd metadata_file].
    intros [H _]. now apply Htmp. }
  (* the scratch file *)
  assert (Hmove : exists w2,
            (if match Os.lookup_file w1 (metadata_file sid) with
                | Some _ => true | None => false end
             then Os.copy2 (metadata_file sid) (a, "session-metadata.json") ;;
                  Os.remove (metadata_file sid) ;;
                  ret (session_files w sid ++ ["session-metadata.json"])
             else ret (session_files w sid)) w1 = (Ok (archived_names w sid), w2) /\
            same_directories w1 w2 /\
            files w2 =
              match Os.lookup_file w (metadata_file sid) with
              | Some f =>
                  delete (metadata_file sid)
                    (<[((a, "session-metadata.json") : path) := f]> (files w1))
              | None => files w1
              end).
  { unfold archived_names. rewrite Hmeta1.
    destruct (Os.lookup_file w (metadata_file sid)) as [f|] eqn:Hmeta.
    - exists (with_files (delete (metadata_file sid))
                (with_files (insert ((a, "session-metadata.json") : path) f) w1)).
      split; [| split; [| reflexivity]].
      + cbv iota. unfold bind at 1. unfold Os.copy2. cbv beta.
        rewrite Hmeta1. cbn [fst snd].
        rewrite Harch1, (Hfree1 (OpCopy (metadata_file sid) (a, "session-metadata.json"))).
        cbn [negb orb]. cbv beta iota.
        unfold bind at 1. unfold Os.remove. cbv beta.
        rewrite (lookup_file_frame w1 _ (metadata_file sid)); [| reflexivity |].
        * rewrite Hmeta1. wsimpl. rewrite (Hfree1 (OpRemove (metadata_file sid))).
          cbv beta iota. reflexivity.
        * wsimpl. apply lookup_insert_ne. unfold metadata_file. intros H.
          injection H as H _. now apply Htmp.
      + split; [| reflexivity]. unfold same_context. wsimpl. split_and!; reflexivity.
    - rewrite app_nil_r. exists w1. split; [reflexivity |].
      split; [split; [apply same_context_refl | reflexivity] | reflexivity]. }
  destruct Hmove as (w2 & Hmove & [Hctx2 Hdirs2] & Hfiles2).
  assert (Hctx : same_context w w2) by (eapply same_context_trans; eassumption).
  assert (Harch2 : Os.has_dir w2 a = true) by (now apply has_dir_mono with w).
  assert (Hnow2 : now_ms w2 = now_ms w) by apply Hctx.
  assert (Hsum2 : faulty w2 (OpWrite (a, "archive-summary.json")) = false).
  { destruct Hctx as (_ & -> & _). apply Hfree. }
  eexists. split.
  { unfold archive_body. step. unfold Os.dir_exists at 1. cbv beta iota.
    step. rewrite Hloop. cbv beta iota.
    step. unfold Os.file_exists at 1. cbv beta iota.
    step. rewrite Hmove. cbv beta iota.
    step. unfold Os.time_ms at 1. cbv beta iota zeta.
    step. unfold Os.write_file. cbn [fst snd]. rewrite Harch2, Hsum2.
    cbn [negb orb]. cbv beta iota.
    step. rewrite debug_run. cbv beta iota.
    step. rewrite debug_run. cbv beta iota.
    unfold ret. rewrite Hnow2. reflexivity. }
  wnorm. split; [| split; [| split]].
  - intros n Hn Hn1 Hn2. rewrite lookup_insert_ne by congruence. rewrite Hfiles2.
    destruct (Os.lookup_file w (metadata_file sid)) as [f|].
    + rewrite lookup_delete_ne
        by (unfold metadata_file; intros H; injection H as H _; now apply Htmp).
      rewrite lookup_insert_ne by congruence. now apply Hin1.
    + now apply Hin1.
  - intros f Hmeta. rewrite Hfiles2, Hmeta. split.
    + rewrite lookup_insert_ne by discriminate.
      rewrite lookup_delete_ne
        by (unfold metadata_file; intros H; injection H as H _; now apply Htmp).
      apply lookup_insert_eq.
    + rewrite lookup_insert_ne
        by (unfold metadata_file; intros H; injection H as H _; now apply Htmp).
      apply lookup_delete_eq.
  - apply lookup_insert_eq.
  - intros q Hq Hmeta. rewrite lookup_insert_ne by (intros <-; now apply Hq).
    rewrite Hfiles2. destruct (Os.lookup_file w (metadata_file sid)) as [f|].
    + rewrite lookup_delete_ne by congruence.
      rewrite lookup_insert_ne by (intros <-; now apply Hq).
      apply Hout1. tauto.
    + apply Hout1. tauto.
Qed.

Lemma contains_own_prefix (sid rest : string) : PyStr.contains (sid +:+ rest) sid = true.
Proof. apply StrFacts.contains_spec. now exists "", rest. Qed.

(** A name that ends like [suffix] is not a name that ends otherwise. *)
Lemma name_differs (sid suffix head tail : string) :
  String.length suffix = String.length tail -> suffix <> tail ->
  sid +:+ suffix <> head +:+ tail.
Proof.
  intros Hlen Hne H.
  assert (String.length sid = String.length head) as Hl.
  { apply (f_equal String.length) in H. rewrite !TextFacts.length_app in H. lia. }
  apply app_inv_same_length in H as [_ H]; [contradiction | exact Hl].
Qed.

Lemma session_file_names (sid : string) :
  sid +:+ ".jsonl" <> "session-metadata.json" /\
  sid +:+ ".jsonl" <> "archive-summary.json" /\
  sid +:+ ".jsonl" <> "RESUME_INSTRUCTIONS.md" /\
  sid +:+ "-stats.json" <> "session-metadata.json" /\
  sid +:+ "-stats.json" <> "archive-summary.json" /\
  sid +:+ "-stats.json" <> "RESUME_INSTRUCTIONS.md".
Proof.
  split_and!.
  - apply (name_differs sid ".jsonl" "session-metadat" "a.json"); [reflexivity | discriminate].
  - apply (name_differs sid ".jsonl" "archive-summar" "y.json"); [reflexivity | discriminate].
  - apply (name_differs sid ".jsonl" "RESUME_INSTRUCTI" "ONS.md"); [reflexivity | discriminate].
  - apply (name_differs sid "-stats.json" "session-me" "tadata.json");
      [reflexivity | discriminate].
  - apply (name_differs sid "-stats.json" "archive-s" "ummary.json");
      [reflexivity | discriminate].
  - apply (name_differs sid "-stats.json" "RESUME_INST" "RUCTIONS.md");
      [reflexivity | discriminate].
Qed.

(** The world in which the guarded block runs. *)
Lemma archive_world (sid : string) (w : World) :
  let a := archive_dir strftime w sid in
  let w2 := ensure_dir a (ensure_dir archive_root w) in
  files w2 = files w /\ faulty w2 = faulty w /\ now_ms w2 = now_ms w /\
  Os.has_dir w2 a = true /\
  Os.has_dir w2 telemetry_dir = Os.has_dir w telemetry_dir /\
  Os.has_dir w2 tmp_dir = Os.has_dir w tmp_dir.
Proof.
  intros a w2. unfold w2. autorewrite with world.
  destruct (archive_dir_fresh (strftime (now_ms w) +:+ "_" +:+ sid)) as (Htel & Htmp & _).
  fold (archive_dir strftime w sid) in Htel, Htmp. fold a in Htel, Htmp.
  split_and!; try reflexivity.
  - apply has_dir_ensure_dir.
  - rewrite !has_dir_ensure_dir_ne; [reflexivity | discriminate | exact Htel].
  - rewrite !has_dir_ensure_dir_ne; [reflexivity | discriminate | exact Htmp].
Qed.

Lemma archive_run (sid : string) (w : World) :
  sid <> "" -> fault_free w ->
  let a := archive_dir strftime w sid in
  exists w',
    archive_evolution_data isoformat strftime (Some sid) w = (Ok (Some a), w') /\
    (forall n, In n (session_files w sid) ->
       n <> "session-metadata.json" -> n <> "archive-summary.json" ->
       files w' !! ((a, n) : path) = files w !! ((telemetry_dir, n) : path)) /\
    (forall f, Os.lookup_file w (metadata_file sid) = Some f ->
       files w' !! ((a, "session-metadata.json") : path) = Some f /\
       files w' !! metadata_file sid = None) /\
    files w' !! ((a, "archive-summary.json") : path) =
      Some (mkFile
              [CJson (JObj [ ("session_id", JStr sid);
                             ("archive_time", JStr (isoformat (now_ms w)));
                             ("archive_path", JStr a);
                             ("archived_files", JArr (map JStr (archived_names w sid)));
                             ("total_files",
                               JNum (Z.of_nat (length (archived_names w sid)))) ])]
              (now_ms w)) /\
    (forall q : path, q.1 <> a -> q <> metadata_file sid -> files w' !! q = files w !! q) /\
    same_context w w' /\ Os.has_dir w' a = true.
Proof.
  intros Hne Hfree a.
  pose proof (archive_cases sid w Hne) as Hrun. cbv zeta in Hrun. fold a in Hrun.
  rewrite !Hfree, !andb_false_r in Hrun.
  destruct (archive_world sid w) as (Hf2 & Hfa2 & Hn2 & Ha2 & Htel2 & Htmp2). fold a in Hf2, Hfa2, Hn2, Ha2, Htel2, Htmp2.
  set (w2 := ensure_dir a (ensure_dir archive_root w)) in *.
  destruct (archive_dir_fresh (strftime (now_ms w) +:+ "_" +:+ sid)) as (Htel & Htmp & _).
  fold (archive_dir strftime w sid) in Htel, Htmp. fold a in Htel, Htmp.
  assert (Hfree2 : fault_free w2) by (intros op; rewrite Hfa2; apply Hfree).
  assert (Hses : session_files w2 sid = session_files w sid).
  { unfold session_files. now rewrite Htel2, Hf2. }
  assert (Hmeta : Os.lookup_file w2 (metadata_file sid) = Os.lookup_file w (metadata_file sid)).
  { unfold Os.lookup_file, metadata_file. cbn [fst]. now rewrite Htmp2, Hf2. }
  assert (Hnames : archived_names w2 sid = archived_names w sid).
  { unfold archived_names. now rewrite Hses, Hmeta. }
  pose proof (keeps_context_body sid a w2) as Hk.
  destruct (archive_body_run sid a w2 Htel Htmp Ha2 Hfree2)
    as (w' & Hbody & Hin & Hmove & Hsum & Hout).
  rewrite Hbody in Hrun, Hk. cbn [snd] in Hk.
  exists w'. split; [exact Hrun |].
  rewrite Hses in Hin. rewrite Hmeta in Hmove. rewrite Hnames, Hn2 in Hsum.
  split; [intros n Hn H1 H2; now rewrite (Hin n Hn H1 H2), Hf2 |].
  split; [exact Hmove |]. split; [exact Hsum |].
  split; [intros q H1 H2; now rewrite (Hout q H1 H2), Hf2 |].
  split; [| now apply has_dir_mono with w2].
  eapply same_context_trans; [| exact Hk].
  eapply same_context_trans; apply same_context_ensure_dir.
Qed.

(** A directory lists each of its files once. *)
Lemma names_in_nodup (d : string) (fs : gmap path File) : List.NoDup (Os.names_in d fs).
Proof.
  unfold Os.names_in.
  pose proof (NoDup_fst_map_to_list fs) as Hnd. apply NoDup_ListNoDup in Hnd.
  induction (map_to_list fs) as [|[[d' n'] f] l IH]; [constructor |].
  cbn [fmap list_fmap] in Hnd. apply List.NoDup_cons_iff in Hnd as [Hnot Hnd].
  cbn [omap list_omap fst snd].
  destruct (String.eqb_spec d' d) as [-> | Hne]; [| now apply IH].
  constructor; [| now apply IH].
  intros Hin. apply Hnot. apply list_elem_of_In, list_elem_of_omap in Hin
    as ([[d2 n2] f2] & Hin & Hsome).
  cbn [fst snd] in Hsome. destruct (String.eqb_spec d2 d) as [-> |]; [| discriminate].
  injection Hsome as ->.
  apply list_elem_of_In, list_elem_of_fmap. exists ((d, n'), f2).
  split; [reflexivity | exact Hin].
Qed.

(** The telemetry files of a session: each once, and exactly those of the
    telemetry directory whose name has the session id in it. *)
Lemma session_files_spec (w : World) (sid : string) :
  List.NoDup (session_files w sid) /\
  forall n, In n (session_files w sid) <->
            is_Some (Os.lookup_file w (telemetry_dir, n)) /\ PyStr.contains n sid = true.
Proof.
  unfold session_files, Os.lookup_file. cbn [fst].
  destruct (Os.has_dir w telemetry_dir).
  - split; [apply List.NoDup_filter, names_in_nodup |].
    intros n. rewrite filter_In, <- list_elem_of_In, names_in_spec. reflexivity.
  - split; [constructor |]. intros n. split; [intros [] | intros [[f Hf] _]; discriminate].
Qed.

(** X11: when nothing is refused, the archive step returns the session's
    archive directory and leaves in it a copy (contents and modification
    time) of every file of the telemetry directory whose name has the
    session id in it, among them the session's log and statistics, the
    scratch metadata file, which is removed from the scratch directory,
    and a summary.  The summary lists the names of the telemetry files
    with the session id in them, each once, then the scratch metadata
    file if there was one, and gives their number.  Outside that
    directory nothing but the scratch file changes. *)
Theorem X11_archive_holds_the_session_files (sid : string) (w : World) :
  sid <> "" -> fault_free w ->
  let a := archive_dir strftime w sid in
  let scratch :=
    match Os.lookup_file w (metadata_file sid) with
    | Some _ => ["session-metadata.json"]
    | None => []
    end in
  exists w' summary listed,
    archive_evolution_data isoformat strftime (Some sid) w = (Ok (Some a), w') /\
    (forall n f,
        Os.lookup_file w (telemetry_dir, n) = Some f -> PyStr.contains n sid = true ->
        n <> "session-metadata.json" -> n <> "archive-summary.json" ->
        files w' !! ((a, n) : path) = Some f) /\
    (forall f, Os.lookup_file w (log_file sid) = Some f ->
        files w' !! ((a, sid +:+ ".jsonl") : path) = Some f) /\
    (forall f, Os.lookup_file w (TelemetryCollector.stats_file sid) = Some f ->
        files w' !! ((a, sid +:+ "-stats.json") : path) = Some f) /\
    (forall f, Os.lookup_file w (metadata_file sid) = Some f ->
        files w' !! ((a, "session-metadata.json") : path) = Some f /\
        files w' !! metadata_file sid = None) /\
    files w' !! ((a, "archive-summary.json") : path)
      = Some (mkFile [CJson summary] (now_ms w)) /\
    List.NoDup listed /\
    (forall n, In n listed <->
               is_Some (Os.lookup_file w (telemetry_dir, n)) /\
               PyStr.contains n sid = true) /\
    field "archived_files" summary = Some (JArr (map JStr (listed ++ scratch))) /\
    field "total_files" summary = Some (JNum (Z.of_nat (length (listed ++ scratch)))) /\
    (forall q : path, q.1 <> a -> q <> metadata_file sid -> files w' !! q = files w !! q).
Proof.
  intros Hne Hfree a scratch.
  destruct (archive_run sid w Hne Hfree) as (w' & Hrun & Hin & Hmove & Hsum & Hout & _ & _).
  fold a in Hrun, Hin, Hmove, Hsum, Hout.
  assert (Hcopy : forall n f,
             Os.lookup_file w (telemetry_dir, n) = Some f -> PyStr.contains n sid = true ->
             n <> "session-metadata.json" -> n <> "archive-summary.json" ->
             files w' !! ((a, n) : path) = Some f).
  { intros n f Hl Hc H1 H2. apply lookup_file_files in Hl as [Hd Hf]. cbn [fst] in Hd.
    rewrite Hin; [exact Hf | | exact H1 | exact H2].
    unfold session_files. rewrite Hd. apply filter_In. split; [| exact Hc].
    apply list_elem_of_In, names_in_spec. exists f. exact Hf. }
  destruct (session_file_names sid) as (L1 & L2 & _ & S1 & S2 & _).
  destruct (session_files_spec w sid) as [Hnd Hlisted].
  eexists w', _, (session_files w sid). split; [exact Hrun |]. split; [exact Hcopy |].
  split; [intros f Hl; apply Hcopy; [exact Hl | apply contains_own_prefix | exact L1 | exact L2] |].
  split; [intros f Hl; apply Hcopy; [exact Hl | apply contains_own_prefix | exact S1 | exact S2] |].
  split; [exact Hmove |]. split; [exact Hsum |].
  split; [exact Hnd |]. split; [exact Hlisted |].
  split; [reflexivity |]. split; [reflexivity | exact Hout].
Qed.

End Archive.


(* ===================================================================== *)
(** ** A whole checkpoint *)
(* ===================================================================== *)

Section WholeCheckpoint.
Import CheckpointManager.
Variable py_repr : JSON -> string.
Variable isoformat : Z -> string.
Variable strftime : Z -> string.

(** The recorder's two hooks when [EVOLUTION_SESSION_ID] is not set,
    whatever [TELEMETRY_SESSION_ID] holds. *)
Lemma enhancer_idle (w : World) (j : JSON) (name : string) :
  stdin w = Some j -> env_truthy (environ w !! "EVOLUTION_SESSION_ID") = false ->
  envelope j name ->
  passes_through (TelemetryEnhancer.main py_repr) w j.
Proof.
  intros Hin Hno (kvs & tool & -> & Htool & Hname).
  apply passes_through_intro.
  unfold TelemetryEnhancer.main, TelemetryEnhancer.main_body, try_except.
  step. unfold Os.read_stdin_json. rewrite Hin. cbv beta iota.
  step. unfold lift at 1. rewrite Htool. cbv beta iota.
  step. unfold lift at 1. rewrite Hname. cbv beta iota.
  step. unfold lift at 1. unfold Py.startswith. cbv beta iota.
  destruct (PyStr.startswith name "mcp__indesign__"); [| reflexivity].
  unfold negb at 1. cbv iota.
  step. unfold Os.environ_get at 1. wsimpl. rewrite Hno. reflexivity.
Qed.

Lemma collector_idle (w : World) (j : JSON) (name : string) :
  stdin w = Some j -> env_truthy (environ w !! "EVOLUTION_SESSION_ID") = false ->
  envelope j name ->
  passes_through (TelemetryCollector.main py_repr isoformat) w j.
Proof.
  intros Hin Hno (kvs & tool & -> & Htool & Hname).
  apply passes_through_intro.
  unfold TelemetryCollector.main, TelemetryCollector.main_body, try_except.
  step. unfold Os.read_stdin_json. rewrite Hin. cbv beta iota.
  step. unfold lift at 1. rewrite Htool. cbv beta iota.
  step. unfold lift at 1. rewrite Hname. cbv beta iota.
  step. unfold lift at 1. cbn [Py.get]. cbv beta iota.
  step. unfold lift at 1. cbv beta iota.
  step. unfold lift at 1. unfold Py.startswith. cbv beta iota.
  destruct (PyStr.startswith name "mcp__indesign__"); [| reflexivity].
  unfold negb at 1. cbv iota.
  step. unfold Os.environ_get at 1. wsimpl. rewrite Hno. reflexivity.
Qed.

(** The guarded block of [main] once the archive step has returned. *)
Lemma checkpoint_run (sid : string) (w : World) :
  sid <> "" ->
  dir_available w archive_root -> dir_available w (archive_dir strftime w sid) ->
  exists w4,
    checkpoint isoformat strftime sid w =
    (Ok tt,
     after_debug "DEBUG_EVOLUTION" "Evolution checkpoint complete"
       (with_environ (delete "EVOLUTION_SESSION_ACTIVE")
          (with_environ (delete "EVOLUTION_SESSION_ID") w4))) /\
    same_context w w4 /\
    Os.has_dir w4 archive_root = true /\
    Os.has_dir w4 (archive_dir strftime w sid) = true.
Proof.
  intros Hne Hroot Ha. unfold checkpoint.
  step. rewrite debug_run. cbv beta iota.
  set (w0 := after_debug "DEBUG_EVOLUTION"
               ("Evolution checkpoint triggered for session: " +:+ sid) w).
  assert (H0 : same_context w w0) by apply same_context_after_debug.
  destruct (never_raises_finalize isoformat (Some sid) w0) as ([] & w1 & Hfin).
  pose proof (keeps_finalize isoformat (Some sid) w0) as H1.
  rewrite Hfin in H1. cbn [snd] in H1.
  assert (H01 : same_context w w1) by (eapply same_context_trans; eassumption).
  assert (Hdir : archive_dir strftime w1 sid = archive_dir strftime w sid).
  { unfold archive_dir. destruct H01 as (_ & _ & -> & _). reflexivity. }
  destruct (archive_returns isoformat strftime sid w1 Hne)
    as (r & w2 & Harch & _ & Hroot2 & Ha2).
  { now apply dir_available_mono with w. }
  { rewrite Hdir. now apply dir_available_mono with w. }
  pose proof (keeps_archive isoformat strftime (Some sid) w1) as H2.
  rewrite Harch in H2. cbn [snd] in H2.
  destruct (never_raises_resume isoformat sid r w2) as ([] & w3 & Hres).
  pose proof (keeps_resume isoformat sid r w2) as H3.
  rewrite Hres in H3. cbn [snd] in H3.
  destruct (never_raises_cleanup w3) as ([] & w4 & Hclean).
  pose proof (keeps_cleanup w3) as H4. rewrite Hclean in H4. cbn [snd] in H4.
  exists w4. split.
  - step. rewrite Hfin. cbv beta iota.
    step. rewrite Harch. cbv beta iota.
    step. rewrite Hres. cbv beta iota.
    step. rewrite Hclean. cbv beta iota.
    step. unfold Os.environ_discard at 1. cbv beta iota.
    step. unfold Os.environ_discard at 1. cbv beta iota.
    apply debug_run.
  - assert (H24 : same_context w2 w4) by (eapply same_context_trans; eassumption).
    rewrite Hdir in Ha2.
    split; [| split; now apply has_dir_mono with w2].
    eapply same_context_trans; [exact H01 |].
    eapply same_context_trans; [exact H2 | exact H24].
Qed.

(** [main] of the checkpoint manager when a checkpoint is due. *)
Lemma checkpoint_main_run (w : World) (j : JSON) (sid : string) (w' : World) :
  stdin w = Some j -> context_reads w = true ->
  env_or (environ w !! "EVOLUTION_SESSION_ID") (environ w !! "TELEMETRY_SESSION_ID")
    = Some sid ->
  sid <> "" ->
  env_truthy (environ w !! "EVOLUTION_SESSION_ACTIVE") = true ->
  checkpoint isoformat strftime sid (with_stdin None w) = (Ok tt, w') ->
  main isoformat strftime w = (Ok tt, with_stdout (fun out => out ++ [j]) w').
Proof.
  intros Hin Hctx Hsid Hne Hflag Hrun.
  unfold main, main_body, try_except at 1.
  step. unfold try_except at 1, Os.read_stdin_json. rewrite Hin. cbv beta iota.
  step. rewrite (get_session_info_run (with_stdin None w) Hctx). cbv beta iota.
  step. unfold Os.environ_get at 1. cbv beta iota. cbn [session_id]. wsimpl.
  rewrite Hsid, Hflag. destruct sid as [|c s]; [congruence |].
  step. rewrite Hrun. reflexivity.
Qed.

(** X12: a checkpoint that can read the session context and make its
    two archive directories runs to its end, whatever else the system
    refuses: [main] returns normally and writes its input back,
    [EVOLUTION_SESSION_ID] and [EVOLUTION_SESSION_ACTIVE] are gone from
    the environment of the process and every other variable is as
    before; the two archive directories exist afterwards and no
    directory is gone. *)
Theorem X12_checkpoint_ends_the_session (w : World) (j : JSON) (sid : string) :
  stdin w = Some j -> context_reads w = true ->
  env_or (environ w !! "EVOLUTION_SESSION_ID") (environ w !! "TELEMETRY_SESSION_ID")
    = Some sid ->
  sid <> "" ->
  env_truthy (environ w !! "EVOLUTION_SESSION_ACTIVE") = true ->
  dir_available w archive_root -> dir_available w (archive_dir strftime w sid) ->
  exists w',
    main isoformat strftime w = (Ok tt, w') /\
    stdout w' = stdout w ++ [j] /\
    environ w' =
      delete "EVOLUTION_SESSION_ACTIVE" (delete "EVOLUTION_SESSION_ID" (environ w)) /\
    environ w' !! "EVOLUTION_SESSION_ID" = None /\
    environ w' !! "EVOLUTION_SESSION_ACTIVE" = None /\
    dirs w ⊆ dirs w' /\
    Os.has_dir w' archive_root = true /\
    Os.has_dir w' (archive_dir strftime w sid) = true.
Proof.
  intros Hin Hctx Hsid Hne Hflag Hroot Ha.
  destruct (checkpoint_run sid (with_stdin None w) Hne Hroot Ha)
    as (w4 & Hrun & Hsame & Hroot4 & Ha4).
  pose proof (checkpoint_main_run w j sid _ Hin Hctx Hsid Hne Hflag Hrun) as Hmain.
  destruct Hsame as (Henv & _ & _ & _ & _ & Hout & Hdirs).
  cbn [environ stdout dirs with_stdin] in Henv, Hout, Hdirs.
  change (archive_dir strftime (with_stdin None w) sid)
    with (archive_dir strftime w sid) in Ha4.
  eexists. split; [exact Hmain |]. unfold Os.has_dir in *. wnorm.
  split; [now rewrite Hout |]. split; [now rewrite Henv |].
  split; [rewrite lookup_delete_ne by discriminate; apply lookup_delete_eq |].
  split; [apply lookup_delete_eq |].
  split; [exact Hdirs |]. split; assumption.
Qed.

(** The five steps one after the other. *)
Lemma checkpoint_compose (sid : string) (r : option string) (w w1 w2 w3 w4 : World) :
  finalize_telemetry_session isoformat (Some sid)
    (after_debug "DEBUG_EVOLUTION"
       ("Evolution checkpoint triggered for session: " +:+ sid) w) = (Ok tt, w1) ->
  archive_evolution_data isoformat strftime (Some sid) w1 = (Ok r, w2) ->
  generate_resume_instructions isoformat sid r w2 = (Ok tt, w3) ->
  cleanup_temporary_files w3 = (Ok tt, w4) ->
  checkpoint isoformat strftime sid w =
  (Ok tt,
   after_debug "DEBUG_EVOLUTION" "Evolution checkpoint complete"
     (with_environ (delete "EVOLUTION_SESSION_ACTIVE")
        (with_environ (delete "EVOLUTION_SESSION_ID") w4))).
Proof.
  intros Hfin Harch Hres Hclean. unfold checkpoint.
  step. rewrite debug_run. cbv beta iota.
  step. rewrite Hfin. cbv beta iota.
  step. rewrite Harch. cbv beta iota.
  step. rewrite Hres. cbv beta iota.
  step. rewrite Hclean. cbv beta iota.
  step. unfold Os.environ_discard at 1. cbv beta iota.
  step. unfold Os.environ_discard at 1. cbv beta iota.
  apply debug_run.
Qed.

(** The resume guide when the archive directory can be written to. *)
Lemma resume_run (sid a : string) (w : World) :
  a <> "" -> Os.has_dir w a = true ->
  faulty w (OpWrite (a, "RESUME_INSTRUCTIONS.md")) = false ->
  exists msg,
    generate_resume_instructions isoformat sid (Some a) w =
    (Ok tt,
     after_debug "DEBUG_EVOLUTION" msg
       (with_files
          (insert ((a, "RESUME_INSTRUCTIONS.md") : path)
             (mkFile [CText (resume_instructions sid (isoformat (now_ms w)) a)] (now_ms w)))
          w)).
Proof.
  intros Hne Hd Hf. destruct a as [|c p]; [congruence |].
  unfold generate_resume_instructions.
  step. unfold Os.time_ms at 1. cbv beta iota zeta.
  unfold try_except. step. unfold Os.write_file. cbn [fst snd]. rewrite Hd, Hf.
  cbn [negb orb]. cbv beta iota. rewrite debug_run. eexists. reflexivity.
Qed.

Lemma not_scratch_path (d n : string) : d <> tmp_dir -> is_scratch_path (d, n) = false.
Proof.
  intros H. unfold is_scratch_path. cbn [fst snd].
  apply String.eqb_neq in H. now rewrite H.
Qed.

(** X13: when the session context can be read, nothing is refused and
    the telemetry directory exists, a checkpoint leaves the session's log
    with the completion marker as its last line, the archive with a copy
    of that finished log (the marker is written before the archive is
    made), and the resume guide beside it. *)
Theorem X13_checkpoint_archives_the_finished_log (w : World) (j : JSON) (sid : string) :
  stdin w = Some j -> context_reads w = true ->
  env_or (environ w !! "EVOLUTION_SESSION_ID") (environ w !! "TELEMETRY_SESSION_ID")
    = Some sid ->
  sid <> "" ->
  env_truthy (environ w !! "EVOLUTION_SESSION_ACTIVE") = true ->
  fault_free w -> Os.has_dir w telemetry_dir = true ->
  let a := archive_dir strftime w sid in
  exists w' marker,
    main isoformat strftime w = (Ok tt, w') /\
    stdout w' = stdout w ++ [j] /\
    field "event" marker = Some (JStr "session_complete") /\
    files w' !! log_file sid
      = Some (mkFile (log_lines w sid ++ [CJson marker]) (now_ms w)) /\
    files w' !! ((a, sid +:+ ".jsonl") : path)
      = Some (mkFile (log_lines w sid ++ [CJson marker]) (now_ms w)) /\
    files w' !! ((a, "RESUME_INSTRUCTIONS.md") : path)
      = Some (mkFile [CText (resume_instructions sid (isoformat (now_ms w)) a)]
                     (now_ms w)).
Proof.
  intros Hin Hctx Hsid Hne Hflag Hfree Htel a.
  set (marker := JObj [ ("timestamp", JNum (now_ms w));
                        ("session_id", JStr sid);
                        ("event", JStr "session_complete");
                        ("completion_time", JStr (isoformat (now_ms w)));
                        ("capture_source", JStr "hook_stop") ]).
  set (finished := mkFile (log_lines w sid ++ [CJson marker]) (now_ms w)).
  set (w0 := after_debug "DEBUG_EVOLUTION"
               ("Evolution checkpoint triggered for session: " +:+ sid) (with_stdin None w)).
  (* the marker *)
  destruct (finalize_run isoformat sid w0 Hne) as [msg1 Hfin]. cbv zeta in Hfin.
  assert (Htel0 : Os.has_dir w0 telemetry_dir = true).
  { unfold w0, Os.has_dir. now autorewrite with world. }
  assert (Hfree0 : forall op, faulty w0 op = false).
  { intros op. unfold w0. autorewrite with world. apply Hfree. }
  rewrite Htel0, Hfree0 in Hfin. cbn [negb andb] in Hfin.
  replace (log_lines w0 sid) with (log_lines w sid) in Hfin
    by (unfold log_lines, Os.old_chunks, w0; now autorewrite with world).
  replace (now_ms w0) with (now_ms w) in Hfin by (unfold w0; now autorewrite with world).
  fold marker in Hfin. fold finished in Hfin.
  set (w1 := after_debug "DEBUG_TELEMETRY" msg1
               (with_files (insert (log_file sid) finished) w0)) in Hfin.
  assert (Hlog1 : files w1 !! log_file sid = Some finished).
  { unfold w1. wnorm. apply lookup_insert_eq. }
  assert (Htel1 : Os.has_dir w1 telemetry_dir = true).
  { unfold w1, Os.has_dir. wnorm. exact Htel0. }
  assert (Hfree1 : fault_free w1).
  { intros op. unfold w1. wnorm. apply Hfree0. }
  assert (Hnow1 : now_ms w1 = now_ms w) by (unfold w1, w0; wnorm; reflexivity).
  (* the archive *)
  destruct (archive_run isoformat strftime sid w1 Hne Hfree1)
    as (w2 & Harch & Hcopy & _ & _ & Hout & Hctx2 & Ha2).
  replace (archive_dir strftime w1 sid) with a in Harch, Hcopy, Hout, Ha2
    by (unfold a, archive_dir; now rewrite Hnow1).
  destruct (archive_dir_fresh (strftime (now_ms w) +:+ "_" +:+ sid)) as (Hatel & Hatmp & _).
  fold (archive_dir strftime w sid) in Hatel, Hatmp. fold a in Hatel, Hatmp.
  destruct (session_file_names sid) as (L1 & L2 & L3 & _).
  assert (Hlog2 : files w2 !! log_file sid = Some finished).
  { rewrite Hout; [exact Hlog1 | cbn [fst log_file]; congruence | discriminate]. }
  assert (Hcopy2 : files w2 !! ((a, sid +:+ ".jsonl") : path) = Some finished).
  { rewrite Hcopy; [exact Hlog1 | | exact L1 | exact L2].
    unfold session_files. rewrite Htel1. apply filter_In.
    split; [| apply contains_own_prefix].
    apply list_elem_of_In, names_in_spec. exists finished. exact Hlog1. }
  (* the resume guide *)
  assert (Hane : a <> "") by (unfold a, archive_dir, join, archive_root; discriminate).
  destruct (resume_run sid a w2 Hane Ha2) as [msg3 Hres].
  { destruct Hctx2 as (_ & -> & _). apply Hfree1. }
  replace (now_ms w2) with (now_ms w) in Hres
    by (destruct Hctx2 as (_ & _ & -> & _); now rewrite Hnow1).
  set (guide := mkFile [CText (resume_instructions sid (isoformat (now_ms w)) a)] (now_ms w))
    in *.
  set (w3 := after_debug "DEBUG_EVOLUTION" msg3
               (with_files (insert ((a, "RESUME_INSTRUCTIONS.md") : path) guide) w2)) in Hres.
  (* the sweep *)
  destruct (cleanup_spec w3) as (w4 & Hclean & Hsys4 & Hfiles4).
  pose proof (checkpoint_compose sid (Some a) (with_stdin None w) w1 w2 w3 w4
                Hfin Harch Hres Hclean) as Hrun.
  pose proof (checkpoint_main_run w j sid _ Hin Hctx Hsid Hne Hflag Hrun) as Hmain.
  eexists _, marker. split; [exact Hmain |].
  split.
  { wnorm. destruct Hsys4 as (_ & _ & _ & _ & -> & _). unfold w3. wnorm.
    destruct Hctx2 as (_ & _ & _ & _ & _ & -> & _). unfold w1, w0. wnorm. reflexivity. }
  split; [reflexivity |]. wnorm. rewrite !Hfiles4.
  assert (is_scratch_path (log_file sid) = false) as -> by reflexivity.
  rewrite !(not_scratch_path a) by exact Hatmp.
  cbn [andb]. unfold w3. wnorm.
  split; [| split].
  - rewrite lookup_insert_ne
      by (intros H; exact (Hatel (f_equal fst H))).
    exact Hlog2.
  - rewrite lookup_insert_ne by congruence. exact Hcopy2.
  - apply lookup_insert_eq.
Qed.

End WholeCheckpoint.


(* ===================================================================== *)
(** ** Across the invocations of a session *)
(* ===================================================================== *)

Section AcrossInvocations.
Variable py_repr : JSON -> string.
Variable isoformat : Z -> string.

Lemma counted_counter (w : World) (sid : string) (n : Z) :
  counted w sid n -> (0 < n)%Z -> counter_is w sid n.
Proof.
  intros (_ & st & _ & Hn & Hfile) Hpos.
  destruct Hfile as [[_ ->] | (f & Hf & Hch & _)].
  - cbn in Hn. lia.
  - exists f, st. split; [exact Hf |]. split; [exact Hch |].
    destruct (Py.assoc "total_tools" st) as [[| |k| | | | |]|]; try contradiction.
    + now subst.
    + lia.
Qed.

(** One invocation: the post-capture hook adds one to the counter, the
    pre-capture hook leaves the statistics alone. *)
Lemma invoke_counts (e : event) (w : World) (sid : string) (n : Z) :
  session_active w sid -> context_reads w = true ->
  dir_available w telemetry_dir -> counted w sid n ->
  well_formed_event e ->
  let w' := invoke (hook py_repr isoformat (phase_of e)) (envelope_of e) (time_of e) w in
  session_active w' sid /\ context_reads w' = true /\ dir_available w' telemetry_dir /\
  counted w' sid (n + (if is_post e then 1 else 0)).
Proof.
  intros Hact Hctx Hdir (Hread & st & Hready) Hwf.
  destruct e as [p j t]. unfold well_formed_event in Hwf.
  cbn [phase_of envelope_of time_of] in *.
  set (w0 := with_now t (with_stdin (Some j) w)).
  assert (Hin : stdin w0 = Some j) by reflexivity.
  assert (Hact0 : session_active w0 sid) by exact Hact.
  assert (Hctx0 : context_reads w0 = true) by exact Hctx.
  assert (Hdir0 : dir_available w0 telemetry_dir) by exact Hdir.
  assert (Hready0 : stats_ready w0 sid st n) by exact Hready.
  unfold invoke. fold w0. unfold is_post. cbn [phase_of].
  destruct p; cbn [hook].
  - destruct (enhancer_main_effects py_repr w0 j sid Hin Hwf Hact0 Hctx0 Hdir0)
      as (w' & record & Hmain & _ & Henv & Hf & Hd & _ & _ & Hother & _).
    rewrite Hmain. cbn [snd].
    split; [split; [apply Hact | rewrite Henv; apply Hact] |].
    split; [now rewrite (context_reads_env w0 w' Henv) |].
    split; [now left |].
    rewrite Z.add_0_r. split; [now rewrite Hf |].
    exists st. apply (stats_ready_frame isoformat w0 w' sid st n Hf); [| exact Hready0].
    apply Hother. intros H. symmetry in H. revert H. apply log_stats_distinct.
  - destruct (collector_main_effects py_repr isoformat w0 j sid Hin Hwf Hact0 Hctx0 Hdir0)
      as (w' & record & Hmain & _ & Henv & Hf & Hd & _ & _ & Hstats & _).
    rewrite Hmain. cbn [snd].
    split; [split; [apply Hact | rewrite Henv; apply Hact] |].
    split; [now rewrite (context_reads_env w0 w' Henv) |].
    split; [now left |].
    destruct (Hstats st n Hready0) as (st' & Hfile & Htotal & _).
    split; [now rewrite Hf |].
    exists st'. unfold stats_usable. cbv zeta. rewrite Hf, Htotal.
    split; [apply Hready |]. split; [reflexivity |].
    right. eexists. split; [exact Hfile |]. split; [reflexivity | exact Hread].
Qed.

Lemma run_events_counts (es : list event) (w : World) (sid : string) (n : Z) :
  session_active w sid -> context_reads w = true ->
  dir_available w telemetry_dir -> counted w sid n ->
  Forall well_formed_event es ->
  counted (run_events py_repr isoformat es w) sid
    (n + Z.of_nat (length (List.filter is_post es))).
Proof.
  intros Hact Hctx Hdir Hcnt Hwf. revert w n Hact Hctx Hdir Hcnt.
  induction Hwf as [|e es He Hes IH]; intros w n Hact Hctx Hdir Hcnt.
  - cbn. now rewrite Z.add_0_r.
  - destruct (invoke_counts e w sid n Hact Hctx Hdir Hcnt He)
      as (Hact' & Hctx' & Hdir' & Hcnt').
    cbv zeta in Hact', Hctx', Hdir', Hcnt'.
    specialize (IH _ _ Hact' Hctx' Hdir' Hcnt').
    cbn [run_events List.filter].
    destruct (is_post e); cbn [length].
    + replace (n + Z.of_nat (S (length (List.filter is_post es))))%Z
        with (n + 1 + Z.of_nat (length (List.filter is_post es)))%Z by lia.
      exact IH.
    + now rewrite Z.add_0_r in IH.
Qed.

(** X14: during a session whose context can be read, that starts without
    a statistics file and whose statistics file,
    [<session_id>-stats.json], can be read and written, the counter
    [total_tools] in that file equals the number of post-capture
    invocations so far, in whatever order they and the pre-capture
    invocations come, and whether or not the log could be appended to. *)
Theorem X14_counter_counts_completed_calls
    (es : list event) (w : World) (sid : string) :
  session_active w sid -> context_reads w = true ->
  dir_available w telemetry_dir ->
  faulty w (OpRead (session_stats sid)) = false ->
  faulty w (OpWrite (session_stats sid)) = false ->
  files w !! session_stats sid = None ->
  Forall well_formed_event es ->
  List.filter is_post es <> [] ->
  counter_is (run_events py_repr isoformat es w) sid
    (Z.of_nat (length (List.filter is_post es))).
Proof.
  intros Hact Hctx Hdir Hread Hwrite Hnone Hwf Hsome.
  assert (Hcnt : counted w sid 0).
  { split; [exact Hread |]. exists []. split; [exact Hwrite |].
    split; [reflexivity | now left]. }
  pose proof (run_events_counts es w sid 0 Hact Hctx Hdir Hcnt Hwf) as H.
  rewrite Z.add_0_l in H. apply counted_counter; [exact H |].
  destruct (List.filter is_post es); [congruence | cbn; lia].
Qed.

End AcrossInvocations.


(* ===================================================================== *)
(** ** From the start of a session to its first record *)
(* ===================================================================== *)

Section SessionStart.
Variable py_repr : JSON -> string.
Variable isoformat : Z -> string.

Lemma new_session_id_nonempty (w : World) : new_session_id w <> "".
Proof.
  unfold new_session_id. destruct (PyStr.of_Z (now_ms w ÷ 1000)); discriminate.
Qed.

(** The interceptor up to the write of the scratch file, on a qualifying
    Task request: the session id is published, the diagnostics are
    printed, and the write is what remains. *)
Lemma interceptor_reaches_write (w : World) (j : JSON) (prompt : string) :
  stdin w = Some j -> task_request j prompt ->
  TaskInterceptor.is_evolution_prompt prompt = true ->
  exists w1 metadata,
    environ w1 =
      <["TELEMETRY_SESSION_ID" := new_session_id w]>
        (<["TELEMETRY_ENABLED" := "true"]>
           (<["EVOLUTION_SESSION_ID" := new_session_id w]> (environ w))) /\
    files w1 = files w /\ dirs w1 = dirs w /\ faulty w1 = faulty w /\
    now_ms w1 = now_ms w /\ stdout w1 = stdout w /\ stdin w1 = None /\
    field "session_id" metadata = Some (JStr (new_session_id w)) /\
    TaskInterceptor.main isoformat w =
      try_except
        (Os.write_file (metadata_file (new_session_id w)) (CJson metadata) ;;
         Os.print_json j)
        (fun _ =>
           Os.debug "DEBUG_EVOLUTION" "Task interceptor error" ;;
           try_except
             (let* input_data := Os.read_stdin_json in Os.print_json input_data)
             (fun _ => Os.print_json TaskInterceptor.minimal_response)) w1.
Proof.
  intros Hin (kvs & tool & args & -> & Htool & Hname & Hargs & Hprompt) Hq.
  assert (Href : forall w0, exists w1,
             (match TaskInterceptor.extract_reference_info prompt with
              | Some (String c r) =>
                  Os.debug "DEBUG_EVOLUTION" ("Reference: " +:+ String c r)
              | _ => ret tt
              end) w0 = (Ok tt, w1) /\
             environ w1 = environ w0 /\ files w1 = files w0 /\ dirs w1 = dirs w0 /\
             faulty w1 = faulty w0 /\ now_ms w1 = now_ms w0 /\ stdout w1 = stdout w0 /\
             stdin w1 = stdin w0).
  { intros w0. destruct (TaskInterceptor.extract_reference_info prompt) as [[|c r]|];
      try (exists w0; repeat split; reflexivity).
    rewrite debug_run. eexists. split; [reflexivity |].
    autorewrite with world. repeat split. }
  set (w0 := after_debug "DEBUG_EVOLUTION"
               ("Evolution session started: " +:+ new_session_id w)
               (with_environ (insert "TELEMETRY_SESSION_ID" (new_session_id w))
                  (with_environ (insert "TELEMETRY_ENABLED" "true")
                     (with_environ (insert "EVOLUTION_SESSION_ID" (new_session_id w))
                        (with_stdin None w))))).
  destruct (Href w0) as (w1 & Hrun1 & He & Hfi & Hd & Hfa & Hn & Ho & Hi).
  exists w1,
    (JObj [ ("session_id", JStr (new_session_id w));
            ("reference", Py.of_option_str (TaskInterceptor.extract_reference_info prompt));
            ("start_time", JStr (isoformat (now_ms w)));
            ("intercepted", JBool true) ]).
  unfold w0 in He, Hfi, Hd, Hfa, Hn, Ho, Hi. autorewrite with world in *. wsimpl.
  split; [exact He |]. split; [exact Hfi |]. split; [exact Hd |]. split; [exact Hfa |].
  split; [exact Hn |]. split; [exact Ho |]. split; [exact Hi |]. split; [reflexivity |].
  unfold TaskInterceptor.main, TaskInterceptor.main_body, try_except at 1.
  step. unfold Os.read_stdin_json at 1. rewrite Hin. cbv beta iota.
  step. unfold lift at 1. rewrite Htool. cbv beta iota.
  step. unfold lift at 1. rewrite Hname. cbv beta iota.
  step. unfold lift at 1. cbv beta iota.
  step. unfold lift at 1. rewrite Hargs. cbv beta iota.
  cbn [Py.ne_str Py.is_str String.eqb Ascii.eqb Bool.eqb negb]. cbv iota.
  step. step. unfold lift at 1. rewrite Hprompt. cbv beta iota.
  rewrite Hq. unfold TaskInterceptor.start_session.
  step. unfold TaskInterceptor.setup_evolution_session.
  step. unfold Os.time_ms at 1. cbv beta iota.
  step. unfold Os.uuid4 at 1. cbv beta iota.
  step. unfold Os.environ_set at 1. cbv beta iota.
  step. unfold Os.environ_set at 1. cbv beta iota.
  step. unfold Os.environ_set at 1. cbv beta iota.
  unfold ret at 1. cbv beta iota.
  step. rewrite debug_run. cbv beta iota.
  wsimpl. fold (new_session_id w). fold w0.
  step. rewrite Hrun1. cbv beta iota.
  step. unfold Os.time_ms at 1. cbv beta iota. rewrite Hn.
  unfold try_except at 1. unfold bind at 3. reflexivity.
Qed.

(** The handler of the tool hooks once standard input is spent. *)
Lemma handler_fallback_world (flag msg : string) (fallback : JSON) (w : World) :
  stdin w = None ->
  (Os.debug flag msg ;;
   try_except (let* input_data := Os.read_stdin_json in Os.print_json input_data)
              (fun _ => Os.print_json fallback)) w
  = (Ok tt, with_stdout (fun out => out ++ [fallback]) (after_debug flag msg w)).
Proof.
  intros Hin. unfold bind at 1. rewrite debug_run. cbv beta iota.
  unfold try_except, bind, Os.read_stdin_json.
  rewrite stdin_after_debug, Hin. reflexivity.
Qed.

(** X15: the pre-capture hook records under [EVOLUTION_SESSION_ID].
    During a session whose context can be read, a call of the observed
    toolset is appended as one record to the log named after that
    variable, [<session_id>.jsonl], also when [TELEMETRY_SESSION_ID]
    names another session; the record carries that session id, the
    clock, the generation and a usage analysis; no other file and no
    environment variable changes, and the envelope is written back
    unchanged. *)
Theorem X15_record_goes_to_the_session_log (w : World) (j : JSON) (sid : string) :
  stdin w = Some j -> pre_envelope j -> session_active w sid ->
  context_reads w = true -> dir_available w telemetry_dir ->
  faulty w (OpAppend (session_log sid)) = false ->
  exists w' record,
    TelemetryEnhancer.main py_repr w = (Ok tt, w') /\
    stdout w' = stdout w ++ [j] /\
    files w' !! session_log sid
      = Some (mkFile (Os.old_chunks w (session_log sid) ++ [CJson record]) (now_ms w)) /\
    field "session_id" record = Some (JStr sid) /\
    field "capture_source" record = Some (JStr "hook_preuse") /\
    field "timestamp" record = Some (JNum (now_ms w)) /\
    field "generation" record = Some (JNum (Z.of_N (generation_of w))) /\
    is_Some (field "usage_analysis" record) /\
    (forall q, q <> session_log sid -> files w' !! q = files w !! q) /\
    environ w' = environ w.
Proof.
  intros Hin Hpre Hact Hctx Hdir Happ.
  destruct (enhancer_main_effects py_repr w j sid Hin Hpre Hact Hctx Hdir)
    as (w' & record & Hrun & Hout & Henv & _ & _ & Hsrc & Hsid & Hother & Hlog & _ &
        Hts & Hgen & Huse).
  change (session_log sid) with (log_file sid) in *.
  rewrite Happ in Hlog.
  exists w', record. split_and!; assumption.
Qed.

(** X16: the session id is published before the scratch file is written.
    When the write fails (no scratch directory, or the system refuses),
    the environment already names the new session, no file has been
    written, and the hook answers with its substitute object, a Task
    call with no arguments, instead of the request. *)
Theorem X16_failed_scratch_write_leaves_a_session
    (w : World) (j : JSON) (prompt : string) :
  stdin w = Some j -> task_request j prompt ->
  TaskInterceptor.is_evolution_prompt prompt = true ->
  Os.has_dir w tmp_dir = false \/
    faulty w (OpWrite (metadata_file (new_session_id w))) = true ->
  exists w',
    TaskInterceptor.main isoformat w = (Ok tt, w') /\
    stdout w' = stdout w ++ [TaskInterceptor.minimal_response] /\
    environ w' !! "EVOLUTION_SESSION_ID" = Some (new_session_id w) /\
    environ w' !! "TELEMETRY_SESSION_ID" = Some (new_session_id w) /\
    environ w' !! "TELEMETRY_ENABLED" = Some "true" /\
    files w' = files w /\ dirs w' = dirs w.
Proof.
  intros Hin Htask Hq Hfail.
  destruct (interceptor_reaches_write w j prompt Hin Htask Hq)
    as (v & metadata & He & Hfi & Hd & Hfa & Hn & Ho & Hi & _ & Hmain).
  assert (Hraise : Os.write_file (metadata_file (new_session_id w)) (CJson metadata) v
                   = (Raise OSError, v)).
  { unfold Os.write_file, Os.has_dir. cbn [fst metadata_file]. rewrite Hd, Hfa.
    fold (Os.has_dir w tmp_dir).
    change (faulty w (OpWrite (tmp_dir, "evolution-" +:+ new_session_id w +:+ ".json")))
      with (faulty w (OpWrite (metadata_file (new_session_id w)))).
    destruct Hfail as [-> | ->]; [reflexivity | now rewrite orb_true_r]. }
  eexists. split.
  { rewrite Hmain. unfold try_except at 1, bind at 1. rewrite Hraise.
    apply handler_fallback_world. exact Hi. }
  wnorm. rewrite Ho, He, Hfi, Hd.
  split; [reflexivity |]. split.
  { rewrite lookup_insert_ne by discriminate.
    rewrite lookup_insert_ne by discriminate. apply lookup_insert_eq. }
  split; [apply lookup_insert_eq |].
  split; [rewrite lookup_insert_ne by discriminate; apply lookup_insert_eq |].
  split; reflexivity.
Qed.

(** X17: a Task request whose prompt is not text (a number, a list, null)
    makes the classifier fail; nothing is started and nothing is written,
    but the hook answers with its substitute object, a Task call with no
    arguments, instead of the request. *)
Theorem X17_prompt_that_is_not_text
    (w : World) (j : JSON) (args : list (string * JSON)) (prompt : JSON) :
  stdin w = Some j -> task_call j args ->
  Py.assoc "prompt" args = Some prompt -> is_text prompt = false ->
  exists w',
    TaskInterceptor.main isoformat w = (Ok tt, w') /\
    stdout w' = stdout w ++ [TaskInterceptor.minimal_response] /\
    environ w' = environ w /\ files w' = files w /\ dirs w' = dirs w.
Proof.
  intros Hin (kvs & tool & -> & Htool & Hname & Hargs) Hprompt Htext.
  eexists. split.
  { unfold TaskInterceptor.main, TaskInterceptor.main_body, try_except at 1.
    step. unfold Os.read_stdin_json at 1. rewrite Hin. cbv beta iota.
    step. unfold lift at 1. rewrite Htool. cbv beta iota.
    step. unfold lift at 1. rewrite Hname. cbv beta iota.
    step. unfold lift at 1. cbv beta iota.
    step. unfold lift at 1. rewrite Hargs. cbv beta iota.
    cbn [Py.ne_str Py.is_str String.eqb Ascii.eqb Bool.eqb negb]. cbv iota.
    step. step. unfold lift at 1. cbn [Py.get]. rewrite Hprompt. cbv beta iota.
    assert ((match prompt with
             | JStr prompt_text =>
                 if TaskInterceptor.is_evolution_prompt prompt_text
                 then TaskInterceptor.start_session isoformat prompt_text
                 else ret tt
             | _ => raise AttributeError
             end) (with_stdin None w) = (Raise AttributeError, with_stdin None w)) as ->
      by (destruct prompt; try reflexivity; discriminate Htext).
    apply handler_fallback_world. reflexivity. }
  wnorm. repeat split.
Qed.

End SessionStart.

Section CollectorEdge.
Variable py_repr : JSON -> string.
Variable isoformat : Z -> string.

(** X18: a completed call of the observed toolset whose result is not a
    mapping (a string, a list, null) cannot be recorded during a
    session: the post-capture hook writes neither to the log nor to the
    statistics, and answers with its substitute object instead of the
    envelope. *)
Theorem X18_result_that_is_not_a_mapping
    (w : World) (j result : JSON) (name sid : string) (timing : list (string * JSON)) :
  stdin w = Some j -> envelope j name ->
  PyStr.startswith name "mcp__indesign__" = true ->
  session_active w sid ->
  Py.get j "result" (JObj []) = Ok result -> Py.is_object result = false ->
  Py.get j "timing" (JObj []) = Ok (JObj timing) ->
  exists w',
    TelemetryCollector.main py_repr isoformat w = (Ok tt, w') /\
    stdout w' = stdout w ++ [TelemetryCollector.minimal_response] /\
    environ w' = environ w /\ files w' = files w /\ dirs w' = dirs w.
Proof.
  intros Hin (kvs & tool & -> & Htool & Hname) Hpre [Hne Hsid] Hres Hobj Htim.
  eexists. split.
  { unfold TelemetryCollector.main, TelemetryCollector.main_body, try_except at 1.
    step. unfold Os.read_stdin_json at 1. rewrite Hin. cbv beta iota.
    step. unfold lift at 1. rewrite Htool. cbv beta iota.
    step. unfold lift at 1. rewrite Hname. cbv beta iota.
    step. unfold lift at 1. rewrite Hres. cbv beta iota.
    step. unfold lift at 1. rewrite Htim. cbv beta iota.
    step. unfold lift at 1. unfold Py.startswith. rewrite Hpre. cbv beta iota.
    unfold negb at 1. cbv iota.
    step. unfold Os.environ_get at 1. wsimpl. rewrite Hsid.
    cbv beta iota. destruct sid as [|c sid]; [congruence |].
    unfold env_truthy at 1. unfold negb at 1. cbv iota.
    step. unfold lift at 1. cbn [Py.get]. cbv beta iota.
    step. unfold TelemetryCollector.complete_telemetry_record.
    step.
    destruct (get_session_info_same_world (with_stdin None w)) as [[info|e] Hinfo];
      rewrite Hinfo; cbv beta iota.
    - step. unfold Os.time_ms at 1. cbv beta iota.
      step. unfold lift at 1. cbn [Py.get]. cbv beta iota.
      step. unfold lift at 1. cbv beta iota.
      assert (Py.get result "error" JNull = Raise AttributeError) as Herr
        by (destruct result; try reflexivity; discriminate Hobj).
      step. unfold lift at 1. rewrite Herr. cbv beta iota.
      apply handler_fallback_world. reflexivity.
    - apply handler_fallback_world. reflexivity. }
  wnorm. repeat split.
Qed.

End CollectorEdge.

(* ===================================================================== *)
(** ** The session context *)
(* ===================================================================== *)

Section Generation.

Lemma all_digits_of_uint (d : Decimal.uint) :
  PyStr.all_digits (NilEmpty.string_of_uint d) = true.
Proof. induction d; simpl; auto. Qed.

Ltac digit_value :=
  match goal with
  | |- context [(N.of_nat (nat_of_ascii ?c) - 48)%N] =>
      let v := eval vm_compute in (N.of_nat (nat_of_ascii c) - 48)%N in
      change (N.of_nat (nat_of_ascii c) - 48)%N with v
  end.

Lemma int_acc_of_uint (d : Decimal.uint) (acc : positive) :
  PyStr.int_acc (N.pos acc) (NilEmpty.string_of_uint d) = N.pos (Pos.of_uint_acc d acc).
Proof.
  revert acc. induction d as [|d IH|d IH|d IH|d IH|d IH|d IH|d IH|d IH|d IH|d IH];
    intros acc; cbn [NilEmpty.string_of_uint PyStr.int_acc Pos.of_uint_acc];
    [reflexivity | ..]; rewrite <- IH; f_equal; digit_value; lia.
Qed.

Lemma int_of_uint (d : Decimal.uint) :
  PyStr.int_of_digits (NilEmpty.string_of_uint d) = Pos.of_uint d.
Proof.
  unfold PyStr.int_of_digits.
  induction d as [|d IH|d IH|d IH|d IH|d IH|d IH|d IH|d IH|d IH|d IH];
    cbn [NilEmpty.string_of_uint PyStr.int_acc Pos.of_uint];
    [reflexivity | exact IH | ..]; digit_value; apply int_acc_of_uint.
Qed.

(** [int(str(n))] is [n], and [str(n)] consists of digits. *)
Lemma numeral_read_back (n : N) :
  PyStr.isdigit (PyStr.of_Z (Z.of_N n)) = true /\
  PyStr.int_of_digits (PyStr.of_Z (Z.of_N n)) = n.
Proof.
  unfold PyStr.of_Z. destruct n as [|p]; [split; reflexivity |].
  cbn [Z.of_N Z.to_int NilEmpty.string_of_int].
  split.
  - unfold PyStr.isdigit. pose proof (all_digits_of_uint (Pos.to_uint p)) as H.
    pose proof (DecimalPos.Unsigned.to_uint_nonnil p) as Hnil.
    destruct (Pos.to_uint p); try exact H. congruence.
  - rewrite int_of_uint. apply DecimalPos.Unsigned.of_to.
Qed.

Lemma negative_numeral (p : positive) : PyStr.isdigit (PyStr.of_Z (Z.neg p)) = false.
Proof. reflexivity. Qed.

(** X19: [get_session_info] changes nothing.  When
    [TELEMETRY_GENERATION] is a decimal numeral of more than 4300 digits
    it raises [ValueError].  When the context can be read, the
    generation it reports is the number written in
    [TELEMETRY_GENERATION] when that is the decimal numeral of a natural
    number, and 0 when the variable is absent, empty or the numeral of
    a negative number; the agent is "unknown" when [TELEMETRY_AGENT_ID]
    is absent; the session id is [EVOLUTION_SESSION_ID], or
    [TELEMETRY_SESSION_ID] when the former is absent or empty. *)
Theorem X19_session_context_defaults (w : World) :
  (generation_too_long w = true -> get_session_info w = (Raise ValueError, w)) /\
  (context_reads w = true ->
   exists info,
     get_session_info w = (Ok info, w) /\
     (forall n : N,
         environ w !! "TELEMETRY_GENERATION" = Some (PyStr.of_Z (Z.of_N n)) ->
         generation info = n) /\
     (forall z : Z,
         (z < 0)%Z -> environ w !! "TELEMETRY_GENERATION" = Some (PyStr.of_Z z) ->
         generation info = 0%N) /\
     (environ w !! "TELEMETRY_GENERATION" = None \/
      environ w !! "TELEMETRY_GENERATION" = Some "" -> generation info = 0%N) /\
     (environ w !! "TELEMETRY_AGENT_ID" = None -> agent_id info = "unknown") /\
     (forall sid, sid <> "" -> environ w !! "EVOLUTION_SESSION_ID" = Some sid ->
                  session_id info = Some sid) /\
     (env_truthy (environ w !! "EVOLUTION_SESSION_ID") = false ->
      session_id info = environ w !! "TELEMETRY_SESSION_ID")).
Proof.
  split; [apply get_session_info_raises |].
  intros Hctx. eexists. split; [apply (get_session_info_run w Hctx) |].
  cbn [generation agent_id session_id]. unfold generation_of, generation_text.
  split_and!.
  - intros n ->. destruct (numeral_read_back n) as [-> ->]. reflexivity.
  - intros z Hz ->. destruct z as [|p|p]; try lia. now rewrite negative_numeral.
  - intros [-> | ->]; reflexivity.
  - now intros ->.
  - intros sid Hne ->. destruct sid; [congruence | reflexivity].
  - destruct (environ w !! "EVOLUTION_SESSION_ID") as [[|c s]|]; try reflexivity.
    discriminate.
Qed.

End Generation.

Section Gate.
Variable py_repr : JSON -> string.
Variable isoformat : Z -> string.

(** X20: the recorder looks at [EVOLUTION_SESSION_ID] and at nothing
    else: while that variable is absent or empty, the pre-capture and
    the post-capture hook pass every envelope through untouched, also
    when [TELEMETRY_SESSION_ID] names a session. *)
Theorem X20_recorder_needs_the_evolution_session_id
    (w : World) (j : JSON) (name : string) :
  stdin w = Some j -> envelope j name ->
  env_truthy (environ w !! "EVOLUTION_SESSION_ID") = false ->
  passes_through (TelemetryEnhancer.main py_repr) w j /\
  passes_through (TelemetryCollector.main py_repr isoformat) w j.
Proof.
  intros Hin Henv Hno. split.
  - now apply enhancer_idle with name.
  - now apply collector_idle with name.
Qed.


End Gate.

(* ===================================================================== *)
(** * The theorems at concrete inputs *)
(* ===================================================================== *)

Section Instances.
Import Scenario.

Lemma not_occurs_by_search (phrase text : string) :
  PyStr.contains (PyStr.lower text) (PyStr.lower phrase) = false -> ~ occurs_ci phrase text.
Proof.
  intros H Hoc. apply contains_lower_iff in Hoc. congruence.
Qed.

Lemma not_found_by_search (label prompt : string) :
  Re.search (Re.labelled label) prompt = None -> ~ label_found label prompt.
Proof.
  intros H. pose proof (search_labelled label prompt) as Hs. now rewrite H in Hs.
Qed.

Lemma found_by_search (label prompt g : string) :
  Re.search (Re.labelled label) prompt = Some g -> label_found label prompt.
Proof.
  intros H. pose proof (search_labelled label prompt) as Hs. rewrite H in Hs.
  destruct Hs as (pre & text & ws & Heq & Hr & _). now exists pre, text, ws, g.
Qed.

Lemma idle_no_session (input : JSON) : no_session (idle input).
Proof. split; reflexivity. Qed.

Lemma pre_call_envelope : envelope pre_call "mcp__indesign__create_textframe".
Proof. eexists _, _. repeat split. Qed.

Lemma pre_call_well_formed : pre_envelope pre_call.
Proof. eexists _, _, _, _. repeat split. Qed.

Lemma post_call_well_formed : post_envelope post_call.
Proof. eexists _, _, _. split; [eexists _, _; repeat split | repeat split]. Qed.

Lemma in_session_active (faults : IOop -> bool) (input : JSON) :
  session_active (in_session faults input) "s1".
Proof. split; [discriminate | reflexivity]. Qed.

Lemma in_session_dir (faults : IOop -> bool) (input : JSON) :
  dir_available (in_session faults input) telemetry_dir.
Proof. left. vm_compute. reflexivity. Qed.

Lemma task_envelope_request : task_request task_envelope qualifying_prompt.
Proof. eexists _, _, _. repeat split. Qed.

(** C1, the claim as stated, fails for the classify-and-start entry point:
    with no session id in the environment, a qualifying Task request makes
    it write a scratch file. *)
Lemma C1_counterexample_interceptor_writes_scratch :
  no_session (idle task_envelope) /\
  stdin (idle task_envelope) = Some task_envelope /\
  envelope task_envelope "Task" /\
  ~ passes_through (TaskInterceptor.main iso0) (idle task_envelope) task_envelope.
Proof.
  split; [apply idle_no_session |]. split; [reflexivity |].
  split; [eexists _, _; repeat split |].
  intros (w' & Hrun & _ & Hfiles & _).
  assert (files (TaskInterceptor.main iso0 (idle task_envelope)).2
            !! metadata_file "1700000000-evolution-deadbeef" <> None) as Hscratch
    by (vm_compute; discriminate).
  rewrite Hrun in Hscratch. cbn [snd] in Hscratch. rewrite Hfiles in Hscratch.
  apply Hscratch. vm_compute. reflexivity.
Qed.

(** C1 at an idle world: a call of the observed toolset passes through all
    four entry points. *)
Lemma C1_witness_idle_tool_call :
  passes_through (TelemetryEnhancer.main repr0) (idle pre_call) pre_call /\
  passes_through (TelemetryCollector.main repr0 iso0) (idle pre_call) pre_call /\
  passes_through (CheckpointManager.main iso0 strf0) (idle pre_call) pre_call /\
  passes_through (TaskInterceptor.main iso0) (idle pre_call) pre_call.
Proof.
  destruct (C1_no_session_pass_through repr0 iso0 strf0 (idle pre_call) pre_call
              "mcp__indesign__create_textframe" eq_refl (idle_no_session pre_call)
              pre_call_envelope) as (H1 & H2 & H3 & H4 & _).
  split; [exact H1 |]. split; [exact H2 |]. split; [exact (H3 eq_refl) |].
  apply H4. discriminate.
Defined.

(** C2, the claim as stated, fails on the output: a number that is not
    finite comes back as [Infinity], which is no JSON, and the checkpoint
    writes back an input that is not an object as it is. *)
Lemma C2_counterexample_output_is_not_a_json_object :
  (exists w',
     TelemetryCollector.main repr0 iso0 (idle overflow_call) = (Ok tt, w') /\
     stdout w' = [overflow_call] /\ valid_json_text overflow_call = false)
  /\
  (exists w',
     CheckpointManager.main iso0 strf0 (idle list_input) = (Ok tt, w') /\
     stdout w' = [list_input] /\ Py.is_object list_input = false).
Proof.
  split; eexists; (split; [vm_compute; reflexivity |]); split; reflexivity.
Qed.

(** C2 at a world with unreadable input, no directories and every
    operation refused. *)
Lemma C2_witness_unreadable_input :
  let w := mkWorld ∅ ∅ ∅ (fun _ => true) clock0 "" None [] [] in
  exists w' j,
    TelemetryCollector.main repr0 iso0 w = (Ok tt, w') /\ stdout w' = [j] /\
    Py.is_object j = true /\ valid_json_text j = true.
Proof.
  cbv zeta.
  destruct (C2_one_json_document_no_exception repr0 iso0 strf0
              (mkWorld ∅ ∅ ∅ (fun _ => true) clock0 "" None [] []))
    as (_ & (w' & j & Hrun & Hout & Hobj & _ & Hvalid) & _).
  exists w', j. split; [exact Hrun |]. split; [exact Hout |]. split; [exact Hobj |].
  apply Hvalid. intros j0 H. discriminate H.
Defined.


(** C5, the claim as stated, fails on the value of [capture_source]: the
    pre-capture hook writes "hook_preuse", not "pre", and the post-capture
    hook writes "hook_postuse", not "post". *)
Lemma C5_counterexample_capture_source_values :
  let w := run_events repr0 iso0 Events.one_call (in_session no_faults stop_envelope) in
  exists pre_record post_record,
    log_lines w "s1" = [CJson pre_record; CJson post_record] /\
    field "capture_source" pre_record = Some (JStr "hook_preuse") /\
    field "capture_source" pre_record <> Some (JStr "pre") /\
    field "capture_source" post_record = Some (JStr "hook_postuse") /\
    field "capture_source" post_record <> Some (JStr "post").
Proof.
  cbv zeta. eexists _, _. split; [vm_compute; reflexivity |].
  repeat split; try reflexivity; discriminate.
Qed.

(** C5 at one call of the observed toolset: one line from each hook. *)
Lemma C5_witness_one_call :
  let w := in_session no_faults stop_envelope in
  exists records,
    log_lines (run_events repr0 iso0 Events.one_call w) "s1" = map CJson records /\
    length records = 2 /\ Forall valid_json_line (map CJson records).
Proof.
  cbv zeta.
  assert (Hrec : recording (in_session no_faults stop_envelope) "s1").
  { split; [apply in_session_active |]. split; [apply in_session_dir | reflexivity]. }
  assert (Hwf : Forall well_formed_event Events.one_call).
  { repeat constructor; [apply pre_call_well_formed | apply post_call_well_formed]. }
  destruct (C5_log_grows_by_one_line_per_capture repr0 iso0 Events.one_call
              (in_session no_faults stop_envelope) "s1" 1 Hrec eq_refl Hwf eq_refl eq_refl)
    as (records & Hlog & Hlen & _ & Hvalid & _).
  exists records. split; [exact Hlog |]. split; [exact Hlen |].
  apply Hvalid. repeat constructor.
Defined.

(** C6, the claim as stated, fails on the order of the categories: a
    message with "permission denied" in it is classified as timeout when
    "timeout" occurs in it too. *)
Lemma C6_counterexample_timeout_wins :
  let message := "Timeout: permission denied while saving" in
  occurs_ci "permission denied" message /\
  exists analysis,
    TelemetryCollector.analyze_tool_result repr0 (JStr "mcp__indesign__save")
      (JObj [("error", JStr message)]) = Ok analysis /\
    field "error_type" analysis = Some (JStr "timeout") /\
    field "error_type" analysis <> Some (JStr "permission").
Proof.
  cbv zeta. split.
  - now exists "Timeout: ", "permission denied", " while saving".
  - eexists. split; [reflexivity |]. split; [reflexivity | discriminate].
Qed.

(** C6 at a permission error. *)
Lemma C6_witness_permission_denied :
  exists analysis,
    TelemetryCollector.analyze_tool_result repr0 (JStr "mcp__indesign__save")
      (JObj [("error", JStr "Permission denied: /tmp/out.indd")]) = Ok analysis /\
    field "error_type" analysis = Some (JStr "permission").
Proof.
  destruct (C6_error_categories repr0 (JStr "mcp__indesign__save")
              (JObj [("error", JStr "Permission denied: /tmp/out.indd")])
              (JStr "Permission denied: /tmp/out.indd") eq_refl)
    as (analysis & Hrun & Herr & _).
  exists analysis. split; [exact Hrun |].
  destruct (Herr eq_refl) as (c & Hfield & _ & _ & _ & Hperm & _).
  rewrite Hfield. f_equal. f_equal. apply Hperm.
  - now exists "", "Permission denied", ": /tmp/out.indd".
  - apply not_occurs_by_search. reflexivity.
Defined.

(** C8, the claim as stated, fails where nothing but blanks follows the
    label on its line: the text returned is then taken from the next
    line, not from the line of the label, whose rest is empty. *)
Lemma C8_counterexample_reference_from_the_next_line :
  PyStr.isascii label_then_next_line = true /\
  labelled_reference label_then_next_line = Some "" /\
  TaskInterceptor.extract_reference_info label_then_next_line = Some "next line" /\
  TaskInterceptor.extract_reference_info label_then_next_line
    <> labelled_reference label_then_next_line /\
  labelled_reference ("Reference: cover.png" +:+ String PyStr.newline "Other text")
    = Some "cover.png".
Proof.
  split; [reflexivity |]. split; [reflexivity |]. split; [reflexivity |].
  split; [discriminate | reflexivity].
Qed.

(** C8 at a prompt with the plain label, and at one where the plain label
    comes first in the text but the image label first among the patterns. *)
Lemma C8_witness_reference_line :
  let plain := "Please match it. Reference:   cover.png  " in
  let both := "Reference: a.png" +:+ String PyStr.newline "Reference image: b.png" in
  (exists capture,
      first_reading "reference:" plain capture /\
      TaskInterceptor.extract_reference_info plain = Some (PyStr.strip capture) /\
      PyStr.strip capture = "cover.png")
  /\
  (exists capture,
      first_reading "reference image:" both capture /\
      TaskInterceptor.extract_reference_info both = Some (PyStr.strip capture) /\
      PyStr.strip capture = "b.png").
Proof.
  cbv zeta. split.
  - destruct (C8_extract_reference "Please match it. Reference:   cover.png  " eq_refl)
      as (_ & H & _).
    destruct H as (capture & Hread & Hrun).
    + apply not_found_by_search. reflexivity.
    + apply found_by_search with "cover.png  ". reflexivity.
    + exists capture. split; [exact Hread |]. split; [exact Hrun |].
      assert (TaskInterceptor.extract_reference_info
                "Please match it. Reference:   cover.png  " = Some "cover.png") as Hval
        by reflexivity.
      rewrite Hval in Hrun. now injection Hrun.
  - destruct (C8_extract_reference
                ("Reference: a.png" +:+ String PyStr.newline "Reference image: b.png")
                eq_refl)
      as (H & _).
    destruct H as (capture & Hread & Hrun).
    + apply found_by_search with "b.png". reflexivity.
    + exists capture. split; [exact Hread |]. split; [exact Hrun |].
      assert (TaskInterceptor.extract_reference_info
                ("Reference: a.png" +:+ String PyStr.newline "Reference image: b.png")
              = Some "b.png") as Hval by reflexivity.
      rewrite Hval in Hrun. now injection Hrun.
Defined.

(** C9 at a scratch directory with a 30-minute-old and a 90-minute-old file. *)
Lemma C9_witness_young_and_stale :
  exists w',
    CheckpointManager.cleanup_temporary_files (with_scratch stop_envelope) = (Ok tt, w') /\
    is_Some (files w' !! young_scratch) /\ files w' !! stale_scratch = None.
Proof.
  destruct (C9_cleanup_sweep (with_scratch stop_envelope))
    as (w' & Hrun & _ & Hyoung & Hstale & _).
  exists w'. split; [exact Hrun |]. split.
  - erewrite Hyoung; [eauto | | ].
    + repeat split; reflexivity.
    + vm_compute. reflexivity.
  - eapply Hstale.
    + repeat split; reflexivity.
    + split; reflexivity.
    + vm_compute. reflexivity.
Defined.


End Instances.

(* ===================================================================== *)
(** * The further properties at concrete inputs *)
(* ===================================================================== *)

Section FurtherInstances.

(** X1 at a shell call made while session "s1" is active. *)
Lemma X1_witness_shell_call_in_session :
  passes_through (TelemetryEnhancer.main Scenario.repr0)
    (Scenario.in_session Scenario.no_faults Worlds.other_call) Worlds.other_call /\
  passes_through (TelemetryCollector.main Scenario.repr0 Scenario.iso0)
    (Scenario.in_session Scenario.no_faults Worlds.other_call) Worlds.other_call.
Proof.
  apply (X1_other_tools_pass_through Scenario.repr0 Scenario.iso0
           (Scenario.in_session Scenario.no_faults Worlds.other_call)
           Worlds.other_call "Bash").
  - reflexivity.
  - eexists _, _. repeat split.
  - reflexivity.
Defined.

(** X2 at the prompt of the scenario, quoted inside a longer message. *)
Lemma X2_witness_quoted_prompt :
  TaskInterceptor.is_evolution_prompt
    ("Note to self: " +:+ Scenario.qualifying_prompt +:+ " (sent yesterday)") = true.
Proof.
  apply (X2_classifier_keeps_accepting "Note to self: " Scenario.qualifying_prompt
           " (sent yesterday)").
  reflexivity.
Defined.

(** X3 at a reference line with blanks around the name. *)
Lemma X3_witness_reference_line :
  PyStr.contains "Please match it. Reference:   cover.png  " "cover.png" = true /\
  one_line "cover.png" /\ trimmed "cover.png".
Proof.
  apply (X3_reference_is_a_trimmed_piece_of_one_line
           "Please match it. Reference:   cover.png  " "cover.png").
  reflexivity.
Defined.

(** X4 at the scratch file of session "s1", two hours after it was written. *)
Lemma X4_witness_two_hours_later :
  exists w',
    CheckpointManager.cleanup_temporary_files Worlds.after_two_hours = (Ok tt, w') /\
    files w' !! metadata_file "s1" = None.
Proof.
  destruct (X4_sweep_reclaims_session_scratch_file Worlds.after_two_hours "s1"
              Worlds.old_metadata) as (w' & Hrun & Hold & _).
  - reflexivity.
  - split; reflexivity.
  - exists w'. split; [exact Hrun |]. apply Hold. vm_compute. reflexivity.
Defined.

(** X6 at the call of the scenario, 42 ms apart. *)
Lemma X6_witness_same_session :
  let w := Scenario.in_session Scenario.no_faults Scenario.pre_call in
  let v := with_now (Scenario.clock0 + 42) w in
  exists pre post,
    TelemetryEnhancer.enhance_telemetry_capture Scenario.tool_call w = (Ok pre, w) /\
    TelemetryCollector.complete_telemetry_record Scenario.repr0 Scenario.tool_call
      (JObj [("content", JStr "ok")]) (JNum 42) v = (Ok post, v) /\
    field "session_id" pre = Some (JStr "s1") /\
    field "session_id" post = Some (JStr "s1").
Proof.
  cbv zeta.
  destruct (X6_pre_and_post_records_agree Scenario.repr0
              [("name", JStr "mcp__indesign__create_textframe");
               ("arguments", JObj [("x", JNum 10); ("y", JNum 20); ("text", JStr "Title")])]
              [("content", JStr "ok")] (JNum 42)
              (Scenario.in_session Scenario.no_faults Scenario.pre_call)
              (with_now (Scenario.clock0 + 42)
                 (Scenario.in_session Scenario.no_faults Scenario.pre_call)) eq_refl eq_refl)
    as (pre & post & Hpre & Hpost & Hsame & _).
  exists pre, post. split; [exact Hpre |]. split; [exact Hpost |].
  apply Forall_cons in Hsame as [_ Hsame]. apply Forall_cons in Hsame as [_ Hsame].
  apply Forall_cons in Hsame as [[_ Hsid] _].
  assert (Hval : field "session_id" pre = Some (JStr "s1")).
  { change (TelemetryEnhancer.enhance_telemetry_capture _ _)
      with (Ok (JObj [ ("timestamp", JNum Scenario.clock0);
                       ("tool", JStr "mcp__indesign__create_textframe");
                       ("parameters",
                         JObj [("x", JNum 10); ("y", JNum 20); ("text", JStr "Title")]);
                       ("session_id", JStr "s1");
                       ("agent_id", JStr "unknown");
                       ("generation", JNum 0);
                       ("capture_source", JStr "hook_preuse") ]),
            Scenario.in_session Scenario.no_faults Scenario.pre_call) in Hpre.
    injection Hpre as <-. reflexivity. }
  split; [exact Hval | now rewrite Hsid].
Defined.

(** X7 at a statistics file that was cut short. *)
Lemma X7_witness_torn_file :
  exists w',
    TelemetryCollector.update_session_statistics Scenario.iso0 "s1" Worlds.with_torn_stats
      = (Ok tt, w') /\
    files w' !! TelemetryCollector.stats_file "s1" = Some Worlds.torn_stats.
Proof.
  destruct (X7_unusable_statistics_stay_as_they_are Scenario.iso0 "s1" Worlds.torn_stats
              Worlds.with_torn_stats) as (w' & Hrun & Hfiles & _).
  - reflexivity.
  - exact I.
  - exists w'. split; [exact Hrun |]. rewrite Hfiles. reflexivity.
Defined.

(** X9 at a session whose log does not exist yet. *)
Lemma X9_witness_first_line :
  let w := Scenario.at_checkpoint Scenario.no_faults in
  exists w' marker,
    CheckpointManager.finalize_telemetry_session Scenario.iso0 (Some "s1") w = (Ok tt, w') /\
    field "event" marker = Some (JStr "session_complete") /\
    files w' !! log_file "s1" = Some (mkFile [CJson marker] Scenario.clock0).
Proof.
  cbv zeta.
  destruct (X9_finalize_appends_one_marker Scenario.iso0 "s1"
              (Scenario.at_checkpoint Scenario.no_faults))
    as (w' & marker & Hrun & Hevent & _ & _ & _ & _ & _ & _ & Hlog).
  - discriminate.
  - exists w', marker. split; [exact Hrun |]. split; [exact Hevent |].
    rewrite Hlog. reflexivity.
Defined.

(** X10 at a world where the archive root cannot be made. *)
Lemma X10_witness_refused_root :
  CheckpointManager.archive_evolution_data Scenario.iso0 Scenario.strf0 (Some "s1")
    (Worlds.end_of_session Scenario.archive_root_refused)
  = (Raise OSError, Worlds.end_of_session Scenario.archive_root_refused).
Proof.
  apply (X10_archive_raises_only_for_its_directories Scenario.iso0 Scenario.strf0 "s1"
           (Worlds.end_of_session Scenario.archive_root_refused)).
  - discriminate.
  - reflexivity.
  - reflexivity.
Defined.

(** X11 at the end of session "s1". *)
Lemma X11_witness_end_of_session :
  let w := Worlds.end_of_session Scenario.no_faults in
  let a := archive_dir Scenario.strf0 w "s1" in
  exists w' listed,
    CheckpointManager.archive_evolution_data Scenario.iso0 Scenario.strf0 (Some "s1") w
      = (Ok (Some a), w') /\
    files w' !! ((a, "s1.jsonl") : path) = Some Worlds.s1_log /\
    files w' !! ((a, "s1-stats.json") : path) = Some Worlds.s1_stats /\
    files w' !! ((a, "session-metadata.json") : path) = Some Worlds.old_metadata /\
    files w' !! metadata_file "s1" = None /\
    files w' !! log_file "s2" = Some Worlds.s2_log /\
    In "s1.jsonl" listed /\ In "s1-stats.json" listed /\ ~ In "s2.jsonl" listed.
Proof.
  cbv zeta.
  destruct (X11_archive_holds_the_session_files Scenario.iso0 Scenario.strf0 "s1"
              (Worlds.end_of_session Scenario.no_faults))
    as (w' & summary & listed & Hrun & _ & Hlog & Hstats & Hmeta & _ & _ & Hlisted &
        _ & _ & Hout).
  - discriminate.
  - intros op. reflexivity.
  - exists w', listed. split; [exact Hrun |].
    split; [apply Hlog; reflexivity |]. split; [apply Hstats; reflexivity |].
    destruct (Hmeta Worlds.old_metadata eq_refl) as [Hcopy Hgone].
    split; [exact Hcopy |]. split; [exact Hgone |].
    split; [rewrite Hout; [reflexivity | discriminate | discriminate] |].
    split; [apply Hlisted; split; [eexists |]; reflexivity |].
    split; [apply Hlisted; split; [eexists |]; reflexivity |].
    intros Hin. apply Hlisted in Hin as [_ Hc]. discriminate Hc.
Defined.

(** X12 at the end of session "s1". *)
Lemma X12_witness_end_of_session :
  let w := Worlds.end_of_session Scenario.no_faults in
  exists w',
    CheckpointManager.main Scenario.iso0 Scenario.strf0 w = (Ok tt, w') /\
    stdout w' = [Scenario.stop_envelope] /\
    environ w' = ∅.
Proof.
  cbv zeta.
  destruct (X12_checkpoint_ends_the_session Scenario.iso0 Scenario.strf0
              (Worlds.end_of_session Scenario.no_faults) Scenario.stop_envelope "s1")
    as (w' & Hrun & Hout & Henv & _).
  - reflexivity.
  - reflexivity.
  - reflexivity.
  - discriminate.
  - reflexivity.
  - now right.
  - now right.
  - exists w'. split; [exact Hrun |]. split; [exact Hout |].
    rewrite Henv. vm_compute. reflexivity.
Defined.

(** X13 at the end of session "s1". *)
Lemma X13_witness_end_of_session :
  let w := Worlds.end_of_session Scenario.no_faults in
  let a := archive_dir Scenario.strf0 w "s1" in
  exists w' marker,
    CheckpointManager.main Scenario.iso0 Scenario.strf0 w = (Ok tt, w') /\
    field "event" marker = Some (JStr "session_complete") /\
    files w' !! ((a, "s1.jsonl") : path)
      = Some (mkFile (chunks Worlds.s1_log ++ [CJson marker]) (Scenario.clock0 + 60000)).
Proof.
  cbv zeta.
  destruct (X13_checkpoint_archives_the_finished_log Scenario.iso0 Scenario.strf0
              (Worlds.end_of_session Scenario.no_faults) Scenario.stop_envelope "s1")
    as (w' & marker & Hrun & _ & Hevent & _ & Hcopy & _).
  - reflexivity.
  - reflexivity.
  - reflexivity.
  - discriminate.
  - reflexivity.
  - intros op. reflexivity.
  - reflexivity.
  - exists w', marker. split; [exact Hrun |]. split; [exact Hevent | exact Hcopy].
Defined.

(** X14 at one call of the observed toolset, while the log is refused. *)
Lemma X14_witness_one_call :
  counter_is
    (run_events Scenario.repr0 Scenario.iso0 Events.one_call
       (Scenario.in_session Scenario.log_refused Scenario.stop_envelope))
    "s1" 1.
Proof.
  apply (X14_counter_counts_completed_calls Scenario.repr0 Scenario.iso0 Events.one_call
           (Scenario.in_session Scenario.log_refused Scenario.stop_envelope) "s1").
  - apply in_session_active.
  - reflexivity.
  - apply in_session_dir.
  - reflexivity.
  - reflexivity.
  - reflexivity.
  - repeat constructor; [apply pre_call_well_formed | apply post_call_well_formed].
  - discriminate.
Defined.

(** X15 at a call made while [EVOLUTION_SESSION_ID] names "s1" and
    [TELEMETRY_SESSION_ID] names "s2". *)
Lemma X15_witness_two_names :
  exists w' record,
    TelemetryEnhancer.main Scenario.repr0 Worlds.two_session_names = (Ok tt, w') /\
    files w' !! session_log "s1" = Some (mkFile [CJson record] Scenario.clock0) /\
    field "session_id" record = Some (JStr "s1") /\
    files w' !! session_log "s2" = None.
Proof.
  destruct (X15_record_goes_to_the_session_log Scenario.repr0 Worlds.two_session_names
              Scenario.pre_call "s1")
    as (w' & record & Hrun & _ & Hlog & Hsid & _ & _ & _ & _ & Hother & _).
  - reflexivity.
  - apply pre_call_well_formed.
  - split; [discriminate | reflexivity].
  - reflexivity.
  - left. vm_compute. reflexivity.
  - reflexivity.
  - exists w', record. split; [exact Hrun |]. split; [exact Hlog |]. split; [exact Hsid |].
    rewrite Hother by discriminate. reflexivity.
Defined.

(** X16 at a world without scratch directory. *)
Lemma X16_witness_no_scratch_directory :
  exists w',
    TaskInterceptor.main Scenario.iso0 Worlds.no_scratch_dir = (Ok tt, w') /\
    stdout w' = [TaskInterceptor.minimal_response] /\
    environ w' !! "EVOLUTION_SESSION_ID" = Some "1700000000-evolution-deadbeef" /\
    files w' = ∅.
Proof.
  destruct (X16_failed_scratch_write_leaves_a_session Scenario.iso0 Worlds.no_scratch_dir
              Scenario.task_envelope Scenario.qualifying_prompt)
    as (w' & Hrun & Hout & Hid & _ & _ & Hfiles & _).
  - reflexivity.
  - apply task_envelope_request.
  - reflexivity.
  - left. reflexivity.
  - exists w'. split; [exact Hrun |]. split; [exact Hout |]. split; [exact Hid | exact Hfiles].
Defined.

(** X17 at a Task request whose prompt is the number 7. *)
Lemma X17_witness_numeric_prompt :
  exists w',
    TaskInterceptor.main Scenario.iso0 (Scenario.idle Worlds.numeric_task) = (Ok tt, w') /\
    stdout w' = [TaskInterceptor.minimal_response] /\
    environ w' = ∅.
Proof.
  destruct (X17_prompt_that_is_not_text Scenario.iso0 (Scenario.idle Worlds.numeric_task)
              Worlds.numeric_task [("prompt", JNum 7)] (JNum 7))
    as (w' & Hrun & Hout & Henv & _).
  - reflexivity.
  - eexists _, _. repeat split.
  - reflexivity.
  - reflexivity.
  - exists w'. split; [exact Hrun |]. split; [exact Hout | exact Henv].
Defined.

(** X18 at a completed call whose result is the text "done". *)
Lemma X18_witness_text_result :
  let w := Scenario.in_session Scenario.no_faults Worlds.text_result_call in
  exists w',
    TelemetryCollector.main Scenario.repr0 Scenario.iso0 w = (Ok tt, w') /\
    stdout w' = [TelemetryCollector.minimal_response] /\
    files w' = ∅.
Proof.
  cbv zeta.
  destruct (X18_result_that_is_not_a_mapping Scenario.repr0 Scenario.iso0
              (Scenario.in_session Scenario.no_faults Worlds.text_result_call)
              Worlds.text_result_call (JStr "done") "mcp__indesign__create_textframe" "s1"
              [("total_ms", JNum 42)])
    as (w' & Hrun & Hout & _ & Hfiles & _).
  - reflexivity.
  - eexists _, _. repeat split.
  - reflexivity.
  - apply in_session_active.
  - reflexivity.
  - reflexivity.
  - reflexivity.
  - exists w'. split; [exact Hrun |]. split; [exact Hout | exact Hfiles].
Defined.

(** X19 at a world whose generation is "7", and at one whose generation
    has 4301 digits. *)
Lemma X19_witness_seventh_generation :
  (exists info,
     get_session_info Worlds.seventh_generation = (Ok info, Worlds.seventh_generation) /\
     generation info = 7%N /\ agent_id info = "unknown" /\ session_id info = Some "s1")
  /\
  get_session_info
    (with_environ (insert "TELEMETRY_GENERATION" Scenario.long_generation)
       Worlds.seventh_generation)
  = (Raise ValueError,
     with_environ (insert "TELEMETRY_GENERATION" Scenario.long_generation)
       Worlds.seventh_generation).
Proof.
  split.
  - destruct (X19_session_context_defaults Worlds.seventh_generation) as [_ H].
    destruct (H eq_refl) as (info & Hrun & Hgen & _ & _ & Hagent & Hsid & _).
    exists info. split; [exact Hrun |].
    split; [exact (Hgen 7%N eq_refl) |]. split; [exact (Hagent eq_refl) |].
    apply Hsid; [discriminate | reflexivity].
  - destruct (X19_session_context_defaults
                (with_environ (insert "TELEMETRY_GENERATION" Scenario.long_generation)
                   Worlds.seventh_generation)) as [H _].
    exact (H eq_refl).
Defined.

(** X20 at a world where only [TELEMETRY_SESSION_ID] is set. *)
Lemma X20_witness_telemetry_id_only :
  passes_through (TelemetryEnhancer.main Scenario.repr0) Worlds.telemetry_only
    Scenario.pre_call /\
  passes_through (TelemetryCollector.main Scenario.repr0 Scenario.iso0) Worlds.telemetry_only
    Scenario.pre_call.
Proof.
  apply (X20_recorder_needs_the_evolution_session_id Scenario.repr0 Scenario.iso0
           Worlds.telemetry_only Scenario.pre_call "mcp__indesign__create_textframe").
  - reflexivity.
  - apply pre_call_envelope.
  - reflexivity.
Defined.


End FurtherInstances.
